(** * Earnings-reversal strategy engine (report0422.py): shallow embedding

    The development follows [EarningsReversalStrategy] of
    [src/report0422.py]: candidate selection ([select_stocks]), the
    trade-history ledger ([is_traded_today]), price derivation
    ([get_latest_price]), the order executor ([place_order]), the entry loop
    ([execute_trades]), the stop-loss monitor ([monitor_positions]), the
    holding-period exit ([check_exit_positions]) and one cycle ([run]);
    around them the symbol filter ([filter_valid_stocks]), the market-cap cut
    of [select_stocks], and of [EarningsReversalApp] the connection loop
    ([connect_to_ib]) and [run_strategy_once].

    Conventions.
    - A Python [float] is a [pyfloat]: a rational or NaN.  Comparisons follow
      IEEE-754 (every comparison with NaN is false); arithmetic on rationals
      is exact, so rounding is idealised; infinities are not modelled.  At a
      boundary the model's [int(a / b)] or [round(a * b, 2)] can therefore
      differ from the float result by one share or one cent: the statements
      on order sizes and limit prices are bands that hold either way.
    - A symbol is a [string], which the engine only compares and
      concatenates; in [filter_valid_stocks], where the length in characters
      matters, a symbol is the list of its code points.
    - A [dict] whose iteration order the code relies on is an insertion-ordered
      association list ([dict_set]); the other dicts are [gmap]s.
    - Broker, clock and market-data answers come from an [Env] record: what
      the outside world answers to each call the code makes.  The clock is
      read once per [Env]: a pass is modelled at the reading it starts with,
      and the seconds it spends waiting for its orders are not modelled.
    - Submitted orders are collected in a trace, in program order. *)

From Stdlib Require Import ZArith NArith QArith Qabs Qround List Lia Lqa Bool.
From Stdlib Require Import Ascii.
From Stdlib Require Import Sorting.Permutation Sorting.Sorted.
From stdpp Require Import strings gmap.
Import ListNotations.

Local Open Scope string_scope.
Local Open Scope list_scope.

(** ** Python floats *)

Module PyFloat.

Inductive pyfloat : Type :=
  | Fin (q : Q)
  | NaN.

Definition Qlt_bool (x y : Q) : bool := negb (Qle_bool y x).

(** [a <= b], [a < b], [a > b], [a >= b] on floats: false as soon as one side
    is NaN. *)
Definition fle (a b : pyfloat) : bool :=
  match a, b with
  | Fin x, Fin y => Qle_bool x y
  | _, _ => false
  end.

Definition flt (a b : pyfloat) : bool :=
  match a, b with
  | Fin x, Fin y => Qlt_bool x y
  | _, _ => false
  end.

Definition fgt (a b : pyfloat) : bool := flt b a.
Definition fge (a b : pyfloat) : bool := fle b a.

Definition fzero : pyfloat := Fin 0.

Definition fmul (a b : pyfloat) : pyfloat :=
  match a, b with
  | Fin x, Fin y => Fin (x * y)
  | _, _ => NaN
  end.

Definition fadd (a b : pyfloat) : pyfloat :=
  match a, b with
  | Fin x, Fin y => Fin (x + y)
  | _, _ => NaN
  end.

Definition fsub (a b : pyfloat) : pyfloat :=
  match a, b with
  | Fin x, Fin y => Fin (x - y)
  | _, _ => NaN
  end.

(** [a / b]: Python raises ZeroDivisionError on a zero divisor ([None]). *)
Definition fdiv (a b : pyfloat) : option pyfloat :=
  match a, b with
  | Fin x, Fin y => if Qeq_bool y 0 then None else Some (Fin (x / y))
  | Fin x, NaN => Some NaN
  | NaN, Fin y => if Qeq_bool y 0 then None else Some NaN
  | NaN, NaN => Some NaN
  end.

Definition fabs (a : pyfloat) : pyfloat :=
  match a with
  | Fin x => Fin (Qabs x)
  | NaN => NaN
  end.

(** [int(a)]: truncation toward zero; ValueError on NaN ([None]). *)
Definition Qtrunc (x : Q) : Z :=
  if Qle_bool 0 x then Qfloor x else Qceiling x.

Definition to_int (a : pyfloat) : option Z :=
  match a with
  | Fin x => Some (Qtrunc x)
  | NaN => None
  end.

Definition of_Z (z : Z) : pyfloat := Fin (inject_Z z).
Definition of_nat (n : nat) : pyfloat := of_Z (Z.of_nat n).

Definition is_nan (a : pyfloat) : bool :=
  match a with
  | NaN => true
  | Fin _ => false
  end.

End PyFloat.
Export PyFloat.

(** ** Insertion-ordered dictionaries *)

Section Dict.
Context {V : Type}.

Definition dict : Type := list (string * V).

Fixpoint dict_get (k : string) (d : dict) : option V :=
  match d with
  | [] => None
  | (k', v) :: d' => if String.eqb k k' then Some v else dict_get k d'
  end.

(** [d[k] = v]: an existing key keeps its place, a new key goes last. *)
Fixpoint dict_set (k : string) (v : V) (d : dict) : dict :=
  match d with
  | [] => [(k, v)]
  | (k', v') :: d' =>
      if String.eqb k k' then (k, v) :: d' else (k', v') :: dict_set k v d'
  end.

Definition dict_keys (d : dict) : list string := map fst d.

Definition dict_mem (k : string) (d : dict) : bool :=
  match dict_get k d with
  | Some _ => true
  | None => false
  end.
End Dict.
Arguments dict V : clear implicits.

(** ** Candidate selection: [select_stocks] *)

Module Selection.

(** A row of [returns_df]: the index label it got when the frame was built
    (its position in [valid_returns]), the symbol and the return. *)
Record row : Type := mkRow {
  label : nat;
  symbol : string;
  pre_earnings_return : pyfloat
}.

Definition frame : Type := list row.

(** Order of [sort_values('pre_earnings_return')]: ascending, NaN last. *)
Definition ret_le (a b : pyfloat) : bool :=
  match a, b with
  | _, NaN => true
  | NaN, Fin _ => false
  | Fin x, Fin y => Qle_bool x y
  end.

Definition row_le (a b : row) : bool :=
  ret_le (pre_earnings_return a) (pre_earnings_return b).

(** A reference [sort_values]: stable insertion sort. *)
Fixpoint insert_row (r : row) (f : frame) : frame :=
  match f with
  | [] => [r]
  | r' :: f' => if row_le r r' then r :: f else r' :: insert_row r f'
  end.

Fixpoint insertion_sort (f : frame) : frame :=
  match f with
  | [] => []
  | r :: f' => insert_row r (insertion_sort f')
  end.

(** [calculate_pre_earnings_returns]: one dict entry per symbol, [None] where
    the history was unusable or the computation raised.  [pre_return] is the
    return the market data gives for a symbol. *)
Definition calculate_pre_earnings_returns
    (pre_return : string -> option pyfloat) (symbols : list string)
    : dict (option pyfloat) :=
  fold_left (fun returns s => dict_set s (pre_return s) returns) symbols [].

(** [{k: v for k, v in pre_earnings_returns.items() if v is not None}] *)
Fixpoint valid_returns_of (d : dict (option pyfloat)) : dict pyfloat :=
  match d with
  | [] => []
  | (k, Some v) :: d' => (k, v) :: valid_returns_of d'
  | (_, None) :: d' => valid_returns_of d'
  end.

(** [pd.DataFrame({...})]: rows labelled 0, 1, ... in dict order. *)
Fixpoint frame_from (i : nat) (d : dict pyfloat) : frame :=
  match d with
  | [] => []
  | (k, v) :: d' => mkRow i k v :: frame_from (S i) d'
  end.

Definition DataFrame (d : dict pyfloat) : frame := frame_from 0 d.

Definition symbols_of (f : frame) : list string := map symbol f.

(** [df.tail(n)] *)
Definition tail {A : Type} (n : nat) (l : list A) : list A :=
  skipn (length l - n)%nat l.

(** [max(1, int(m * 0.2))] *)
Definition quintile_count (m : nat) : nat :=
  Z.to_nat (Z.max 1 (Qtrunc (inject_Z (Z.of_nat m) * (2 # 10)))).

(** Lines 1635-1649: the two candidate lists before overlap resolution. *)
Definition partition_candidates (returns_df : frame) : list string * list string :=
  let m := length returns_df in
  if (m <? 3)%nat then
    let mid_point := (m / 2)%nat in
    (symbols_of (firstn mid_point returns_df),
     symbols_of (skipn mid_point returns_df))
  else
    let bottom_quintile_count := quintile_count m in
    (symbols_of (firstn bottom_quintile_count returns_df),
     symbols_of (tail bottom_quintile_count returns_df)).

Definition mem (s : string) (l : list string) : bool :=
  existsb (String.eqb s) l.

(** [l.remove(s)]: drops the first occurrence. *)
Fixpoint remove_first (s : string) (l : list string) : list string :=
  match l with
  | [] => []
  | x :: l' => if String.eqb s x then l' else x :: remove_first s l'
  end.

(** [set(a).intersection(set(b))], listed in the order of [a]. *)
Fixpoint dedup (l : list string) : list string :=
  match l with
  | [] => []
  | x :: l' => if mem x l' then dedup l' else x :: dedup l'
  end.

Definition common_stocks (a b : list string) : list string :=
  dedup (List.filter (fun s => mem s b) a).

(** [returns_df[returns_df['symbol'] == stock].index[0]]: the index label of
    the first row with that symbol ([None]: IndexError). *)
Fixpoint stock_index (stock : string) (returns_df : frame) : option nat :=
  match returns_df with
  | [] => None
  | r :: f' =>
      if String.eqb (symbol r) stock then Some (label r)
      else stock_index stock f'
  end.

(** [stock_index / len(returns_df) < 0.5] *)
Definition in_first_half (idx m : nat) : bool :=
  match fdiv (of_nat idx) (of_nat m) with
  | Some pos => flt pos (Fin (1 # 2))
  | None => false
  end.

(** Lines 1655-1666: one pass of the resolution loop.  [None] when the index
    lookup raises, which the outer handler turns into [([], [])]. *)
Fixpoint resolve_loop (returns_df : frame) (common : list string)
    (long_candidates short_candidates : list string)
    : option (list string * list string) :=
  match common with
  | [] => Some (long_candidates, short_candidates)
  | stock :: rest =>
      match stock_index stock returns_df with
      | None => None
      | Some idx =>
          if in_first_half idx (length returns_df)
          then resolve_loop returns_df rest long_candidates
                 (remove_first stock short_candidates)
          else resolve_loop returns_df rest
                 (remove_first stock long_candidates) short_candidates
      end
  end.

Definition resolve_common_stocks (returns_df : frame)
    (long_candidates short_candidates : list string)
    : option (list string * list string) :=
  resolve_loop returns_df (common_stocks long_candidates short_candidates)
    long_candidates short_candidates.

(** Lines 1672-1679: a stock still in both lists leaves the long list. *)
Definition force_remove (long_candidates short_candidates : list string)
    : list string :=
  fold_left
    (fun l stock => if mem stock l then remove_first stock l else l)
    (common_stocks long_candidates short_candidates) long_candidates.

Definition max_positions : nat := 20.

(** Lines 1611-1684, from the frame on. *)
Definition select_from_frame (returns_df : frame) : list string * list string :=
  match returns_df with
  | [] => ([], [])
  | [r] =>
      if flt (pre_earnings_return r) fzero
      then ([symbol r], [])
      else ([], [symbol r])
  | _ =>
      let '(long0, short0) := partition_candidates returns_df in
      match resolve_common_stocks returns_df long0 short0 with
      | None => ([], [])
      | Some (long1, short1) =>
          let long2 := firstn max_positions long1 in
          let short2 := firstn max_positions short1 in
          (force_remove long2 short2, short2)
      end
  end.

(** Whether line 1682 ([print_stock_selection]) is reached. *)
Definition prints_selection (returns_df : frame) : bool :=
  match returns_df with
  | [] | [_] => false
  | _ =>
      let '(long0, short0) := partition_candidates returns_df in
      match resolve_common_stocks returns_df long0 short0 with
      | None => false
      | Some _ => true
      end
  end.

Section WithSort.
(** [sort_values]: pandas' default sort is not stable, so the order among
    equal returns is left to the library. *)
Variable sort_values : frame -> frame.

(** The sorted [returns_df] of line 1616, when the steps before it get
    that far. *)
Definition returns_frame (pre_return : string -> option pyfloat)
    (top_quintile : option (list string)) : option frame :=
  match top_quintile with
  | None => None
  | Some symbols =>
      Some (sort_values (DataFrame (valid_returns_of
              (calculate_pre_earnings_returns pre_return symbols))))
  end.

(** [select_stocks].  [top_quintile] is [None] when the steps before line
    1602 return early or raise (no upcoming earnings, no market cap). *)
Definition select_stocks (pre_return : string -> option pyfloat)
    (top_quintile : option (list string)) : list string * list string :=
  match top_quintile with
  | None => ([], [])
  | Some symbols =>
      let pre_earnings_returns :=
        calculate_pre_earnings_returns pre_return symbols in
      let valid_returns := valid_returns_of pre_earnings_returns in
      select_from_frame (sort_values (DataFrame valid_returns))
  end.
End WithSort.

(** Two lists share no symbol. *)
Definition disjoint (a b : list string) : Prop :=
  forall x, In x a -> In x b -> False.

Definition row_leP (a b : row) : Prop := row_le a b = true.

(** *** Sample inputs *)

(** Five symbols with the returns -5, -3, -1, 2, 4 (in percent), listed in
    another order than their ranking. *)
Definition example_symbols : list string := ["CCC"; "AAA"; "EEE"; "BBB"; "DDD"].
Definition example_pre_return (s : string) : option pyfloat :=
  if String.eqb s "AAA" then Some (Fin (-5))
  else if String.eqb s "BBB" then Some (Fin (-3))
  else if String.eqb s "CCC" then Some (Fin (-1))
  else if String.eqb s "DDD" then Some (Fin 2)
  else if String.eqb s "EEE" then Some (Fin 4)
  else None.
Definition example_frame : frame :=
  insertion_sort (DataFrame (valid_returns_of
    (calculate_pre_earnings_returns example_pre_return example_symbols))).

(** Three symbols of which the first has a NaN return (a NaN close in its
    price history): NaN is not [None], so it passes line 1605. *)
Definition nan_symbols : list string := ["AAA"; "BBB"; "CCC"].
Definition nan_pre_return (s : string) : option pyfloat :=
  if String.eqb s "AAA" then Some NaN
  else if String.eqb s "BBB" then Some (Fin (-3))
  else if String.eqb s "CCC" then Some (Fin 4)
  else None.
Definition nan_frame : frame :=
  insertion_sort (DataFrame (valid_returns_of
    (calculate_pre_earnings_returns nan_pre_return nan_symbols))).

End Selection.

(** ** The engine: ledger, prices, orders, entries, exits *)

Module Engine.

(** A row of the daily trade log ([record_trade], lines 704-712). *)
Record TradeRecord : Type := mkTrade {
  t_date : string;
  t_time : string;
  t_symbol : string;
  t_action : string;
  t_quantity : Z;
  t_price : pyfloat;
  t_value : pyfloat
}.

(** The fields of [EarningsReversalStrategy] the engine reads and writes.
    [trade_history] is [None] while the attribute does not exist: the class
    body defines [__init__] twice and the second one (line 823), which is the
    one Python keeps, does not create it. *)
Record Strategy : Type := mkStrategy {
  positions : dict pyfloat;
  stop_loss_prices : gmap string pyfloat;
  last_buy_time : gmap string pyfloat;
  cooldown_seconds : pyfloat;
  stop_loss_percent : pyfloat;
  price_cache : gmap string pyfloat;
  trade_history : option (list TradeRecord)
}.

(** [__init__] (line 823). *)
Definition init (cooldown_days stop_loss_percent : pyfloat) : Strategy :=
  mkStrategy [] ∅ ∅
    (fmul (fmul (fmul cooldown_days (Fin 24)) (Fin 60)) (Fin 60))
    stop_loss_percent ∅ None.

Definition set_positions (st : Strategy) (p : dict pyfloat) : Strategy :=
  mkStrategy p (stop_loss_prices st) (last_buy_time st) (cooldown_seconds st)
    (stop_loss_percent st) (price_cache st) (trade_history st).

Definition set_price_cache (st : Strategy) (c : gmap string pyfloat) : Strategy :=
  mkStrategy (positions st) (stop_loss_prices st) (last_buy_time st)
    (cooldown_seconds st) (stop_loss_percent st) c (trade_history st).

Definition set_trade_history (st : Strategy) (h : option (list TradeRecord))
    : Strategy :=
  mkStrategy (positions st) (stop_loss_prices st) (last_buy_time st)
    (cooldown_seconds st) (stop_loss_percent st) (price_cache st) h.

Definition set_buy_state (st : Strategy) (lb sl : gmap string pyfloat)
    : Strategy :=
  mkStrategy (positions st) sl lb (cooldown_seconds st) (stop_loss_percent st)
    (price_cache st) (trade_history st).

(** *** What the outside world answers *)

Record Ticker : Type := mkTicker {
  last : pyfloat;
  close : pyfloat;
  bid : pyfloat;
  ask : pyfloat
}.

Record OrderStatus : Type := mkStatus {
  status : string;
  filled : pyfloat;
  remaining : pyfloat;
  avgFillPrice : pyfloat
}.

(** [LimitOrder(action, quantity, limit_price)] or
    [MarketOrder(action, quantity)], with [outsideRth] and [tif] as set on
    lines 1110 and 1114. *)
Record Order : Type := mkOrder {
  o_action : string;
  o_quantity : Z;
  o_limit_price : option pyfloat;
  o_outsideRth : bool;
  o_tif : string
}.

Record AccountValue : Type := mkAccountValue {
  tag : string;
  currency : string;
  value : option pyfloat   (* [None]: [float(summary.value)] raises *)
}.

(** Times of day in microseconds since midnight; dates as (year, month, day)
    with their weekday (Monday = 0) and their proleptic ordinal. *)
Definition time_of (h m : Z) : Z := ((h * 60 + m) * 60 * 1000000)%Z.

Record Env : Type := mkEnv {
  now_date : nat * nat * nat;
  now_weekday : nat;
  now_ordinal : Z;
  now_time : Z;
  today_str : string;              (* [strftime('%Y-%m-%d')] *)
  time_str : string;               (* [strftime('%H:%M:%S')] *)
  hour_str : string;               (* [strftime('%Y%m%d_%H')] *)
  time_time : pyfloat;             (* [time.time()] *)
  portfolio : option (list (string * pyfloat));   (* [None]: raises *)
  accountSummary : option (list AccountValue);    (* [None]: raises *)
  qualifyContracts : string -> bool;   (* [false]: empty list or raises *)
  reqMktData : string -> option Ticker;  (* the ticker after the wait loop;
                                            [None]: the IB block raises *)
  yf_last_close : string -> option pyfloat;  (* [hist['Close'].iloc[-1]];
                                                [None]: raises or empty *)
  placeOrder : string -> Order -> option (nat -> OrderStatus);
     (* the order status seen after the i-th [sleep(1)]; [None]: raises *)
  trade_file : option (list TradeRecord);  (* today's log; [None]: missing
                                              or unreadable *)
  earnings_date : string -> option Z;  (* ordinal of the first
                                          [earnings_date] of a symbol *)
  earnings_data_loaded : bool
}.

(** What the engine did, in program order: the calls of [place_order] and the
    orders handed to the broker. *)
Inductive Event : Type :=
  | PlaceOrderCall (symbol action : string) (quantity : pyfloat)
  | Submitted (symbol : string) (o : Order).

(** *** Trade history *)

(** [load_trade_history] *)
Definition load_trade_history (st : Strategy) (env : Env) : Strategy :=
  match trade_file env with
  | Some records => set_trade_history st (Some records)
  | None => set_trade_history st (Some [])
  end.

(** [record_trade]: without the attribute the append raises and the handler
    only logs. *)
Definition record_trade (st : Strategy) (env : Env) (symbol action : string)
    (quantity : Z) (price : pyfloat) : Strategy :=
  match trade_history st with
  | None => st
  | Some h =>
      let trade_record :=
        mkTrade (today_str env) (time_str env) symbol action quantity price
          (fmul (of_Z quantity) price) in
      set_trade_history st (Some (h ++ [trade_record]))
  end.

(** [is_traded_today] *)
Definition is_traded_today (st : Strategy) (env : Env) (symbol : string)
    (action : option string) : bool :=
  match trade_history st with
  | None => false                       (* AttributeError, handled *)
  | Some [] => false
  | Some h =>
      let today := today_str env in
      let today_trades := List.filter (fun t => String.eqb (t_date t) today) h in
      match today_trades with
      | [] => false
      | _ =>
          let symbol_trades :=
            List.filter (fun t => String.eqb (t_symbol t) symbol) today_trades in
          match symbol_trades with
          | [] => false
          | _ =>
              match action with
              | Some a =>
                  let action_trades :=
                    List.filter (fun t => String.eqb (t_action t) a) symbol_trades in
                  (0 <? length action_trades)%nat
              | None => true
              end
          end
      end
  end.

(** *** Positions, stop-loss, cooldown *)

(** [get_current_positions]: the dict built from the portfolio; on an error
    the old dict stays and [{}] is returned. *)
Definition positions_of (pf : list (string * pyfloat)) : dict pyfloat :=
  fold_left (fun d p => dict_set (fst p) (snd p) d) pf [].

Definition get_current_positions (st : Strategy) (env : Env)
    : dict pyfloat * Strategy :=
  match portfolio env with
  | Some pf => let p := positions_of pf in (p, set_positions st p)
  | None => ([], st)
  end.

(** [check_stop_loss] *)
Definition check_stop_loss (st : Strategy) (symbol : string)
    (current_price : pyfloat) : bool :=
  match stop_loss_prices st !! symbol with
  | Some stop => fle current_price stop
  | None => false
  end.

(** [can_buy_again] *)
Definition can_buy_again (st : Strategy) (env : Env) (symbol : string) : bool :=
  match last_buy_time st !! symbol with
  | None => true
  | Some t =>
      let elapsed_time := fsub (time_time env) t in
      fge elapsed_time (cooldown_seconds st)
  end.

(** *** Price derivation *)

Definition fmid (a b : pyfloat) : pyfloat :=
  match a, b with
  | Fin x, Fin y => Fin ((x + y) / 2)
  | _, _ => NaN
  end.

(** Lines 1000-1004: the price read off the ticker. *)
Definition ticker_price (t : Ticker) : pyfloat :=
  let price := last t in
  let price := if fle price fzero then close t else price in
  let price :=
    if fle price fzero && fgt (bid t) fzero && fgt (ask t) fzero
    then fmid (bid t) (ask t) else price in
  price.

Definition cache_key (env : Env) (symbol : string) : string :=
  symbol ++ "_" ++ hour_str env.

(** [get_latest_price] *)
Definition get_latest_price (st : Strategy) (env : Env) (symbol : string)
    (use_yfinance : bool) : pyfloat * Strategy :=
  let key := cache_key env symbol in
  match price_cache st !! key with
  | Some cached => (cached, st)
  | None =>
      let from_ib :=
        match reqMktData env symbol with
        | Some t =>
            let price := ticker_price t in
            if fgt price fzero then Some price else None
        | None => None
        end in
      match from_ib with
      | Some price => (price, set_price_cache st (<[key := price]> (price_cache st)))
      | None =>
          if use_yfinance then
            match yf_last_close env symbol with
            | Some price =>
                (price, set_price_cache st (<[key := price]> (price_cache st)))
            | None => (fzero, st)
            end
          else (fzero, st)
      end
  end.

(** *** Sessions *)

Definition us_holidays_2025 : list (nat * nat * nat) :=
  [ (2025, 1, 1); (2025, 1, 20); (2025, 2, 17); (2025, 4, 18); (2025, 5, 26);
    (2025, 7, 4); (2025, 9, 1); (2025, 11, 27); (2025, 12, 25) ]%nat.

Definition date_eqb (a b : nat * nat * nat) : bool :=
  let '(y1, m1, d1) := a in
  let '(y2, m2, d2) := b in
  ((y1 =? y2) && (m1 =? m2) && (d1 =? d2))%nat.

(** [is_trading_day] *)
Definition is_trading_day (date : nat * nat * nat) (weekday : nat) : bool :=
  if (5 <=? weekday)%nat then false
  else if existsb (date_eqb date) us_holidays_2025 then false
  else true.

(** [can_trade_now] (the flag; the description string is only logged). *)
Definition can_trade_now (env : Env) : bool :=
  let current_time := now_time env in
  if negb (is_trading_day (now_date env) (now_weekday env)) then false
  else
    let pre_market_start := time_of 4 0 in
    let regular_market_start := time_of 9 30 in
    let regular_market_end := time_of 16 0 in
    let after_market_end := time_of 20 0 in
    if (pre_market_start <=? current_time)%Z
       && (current_time <? regular_market_start)%Z then true
    else if (regular_market_start <=? current_time)%Z
            && (current_time <? regular_market_end)%Z then true
    else if (regular_market_end <=? current_time)%Z
            && (current_time <? after_market_end)%Z then true
    else false.

(** Lines 1086-1090 and 1922-1926 *)
Definition is_regular_hours (env : Env) : bool :=
  ((time_of 9 30 <=? now_time env)%Z && (now_time env <=? time_of 16 0)%Z)
  && (now_weekday env <? 5)%nat.

(** *** Orders *)

(** [round(x, 2)], half to even. *)
Definition Qround_half_even (x : Q) : Z :=
  let f := Qfloor x in
  let frac := (x - inject_Z f)%Q in
  if Qlt_bool frac (1 # 2) then f
  else if Qlt_bool (1 # 2) frac then (f + 1)%Z
  else if Z.even f then f else (f + 1)%Z.

Definition round2 (a : pyfloat) : pyfloat :=
  match a with
  | Fin x => Fin (inject_Z (Qround_half_even (x * 100)) / 100)
  | NaN => NaN
  end.

Definition terminal_status (s : string) : bool :=
  existsb (String.eqb s) ["Filled"; "Cancelled"; "ApiCancelled"; "Inactive"].

(** Lines 1120-1123: up to [n] more rounds of [sleep(1)], [i] already slept;
    the result is the status read on line 1126. *)
Fixpoint wait_for_status (polls : nat -> OrderStatus) (i n : nat) : OrderStatus :=
  match n with
  | O => polls i
  | S n' =>
      let s := polls (S i) in
      if terminal_status (status s) then s
      else wait_for_status polls (S i) n'
  end.

(** [place_order]: the result, the new state and the events. *)
Definition place_order (st : Strategy) (env : Env) (symbol action : string)
    (quantity : pyfloat) (use_limit_price : bool)
    : bool * Strategy * list Event :=
  let call := PlaceOrderCall symbol action quantity in
  if is_nan quantity || fle quantity fzero then (false, st, [call])
  else
    match to_int quantity with
    | None => (false, st, [call])
    | Some quantity =>
        if (quantity <=? 0)%Z then (false, st, [call])
        else if negb (qualifyContracts env symbol) then (false, st, [call])
        else
          let '(current_price, st) := get_latest_price st env symbol true in
          if fle current_price fzero then (false, st, [call])
          else
            let order :=
              if use_limit_price || negb (is_regular_hours env) then
                let limit_price :=
                  if String.eqb action "BUY"
                  then round2 (fmul current_price (Fin (101 # 100)))
                  else round2 (fmul current_price (Fin (99 # 100))) in
                mkOrder action quantity (Some limit_price) true "DAY"
              else mkOrder action quantity None true "DAY" in
            match placeOrder env symbol order with
            | None => (false, st, [call])
            | Some polls =>
                let os := wait_for_status polls 0 10 in
                let execution_price :=
                  if fgt (avgFillPrice os) fzero then avgFillPrice os
                  else current_price in
                let st :=
                  if String.eqb action "BUY" && fgt (filled os) fzero then
                    let stop_loss_price :=
                      fmul execution_price
                        (fsub (Fin 1) (stop_loss_percent st)) in
                    set_buy_state st
                      (<[symbol := time_time env]> (last_buy_time st))
                      (<[symbol := stop_loss_price]> (stop_loss_prices st))
                  else st in
                let ok :=
                  if String.eqb (status os) "Filled" then true
                  else if fgt (filled os) fzero then true
                  else false in
                (ok, st, [call; Submitted symbol order])
            end
    end.

(** *** Entries: [execute_trades] *)

(** Lines 1888-1895 *)
Fixpoint net_liquidation_of (account_summary : list AccountValue) : pyfloat :=
  match account_summary with
  | [] => fzero
  | summary :: rest =>
      if String.eqb (tag summary) "NetLiquidation"
         && String.eqb (currency summary) "USD"
      then match value summary with
           | Some v => v
           | None => fzero
           end
      else net_liquidation_of rest
  end.

Definition capital_ratio : pyfloat := Fin (3 # 10).
Definition long_allocation_ratio : pyfloat := Fin (1 # 2).
Definition short_allocation_ratio : pyfloat := Fin (1 # 2).

Definition total_capital (net_liquidation : pyfloat) : pyfloat :=
  fmul net_liquidation capital_ratio.
Definition long_capital (net_liquidation : pyfloat) : pyfloat :=
  fmul (total_capital net_liquidation) long_allocation_ratio.
Definition short_capital (net_liquidation : pyfloat) : pyfloat :=
  fmul (total_capital net_liquidation) short_allocation_ratio.

(** Lines 1932-1933: [capital / max(len(stocks), 1) if stocks else 0] *)
Definition capital_per_stock (capital : pyfloat) (stocks : list string)
    : pyfloat :=
  match stocks with
  | [] => fzero
  | _ =>
      match fdiv capital (of_nat (Nat.max (length stocks) 1)) with
      | Some c => c
      | None => fzero   (* unreachable: the divisor is at least 1 *)
      end
  end.

(** One round of an entry loop (lines 1953-2003 with [action = "BUY"] and
    [holds q = q > 0]; lines 2008-2058 with [action = "SELL"] and
    [holds q = q < 0]). *)
Definition entry_step (env : Env) (action : string) (holds : pyfloat -> bool)
    (capital_per_stock : pyfloat) (use_limit_order : bool)
    (acc : Strategy * list Event) (symbol : string) : Strategy * list Event :=
  let '(st, trace) := acc in
  if String.eqb symbol "" then (st, trace)
  else if match dict_get symbol (positions st) with
          | Some q => holds q
          | None => false
          end then (st, trace)
  else if is_traded_today st env symbol (Some action) then (st, trace)
  else if negb (can_buy_again st env symbol) then (st, trace)
  else
    let '(current_price, st) := get_latest_price st env symbol true in
    if fle current_price fzero then (st, trace)
    else
      match fdiv capital_per_stock current_price with
      | None => (st, trace)               (* raises; handled per symbol *)
      | Some ratio =>
          match to_int ratio with
          | None => (st, trace)           (* raises; handled per symbol *)
          | Some quantity =>
              if (quantity <=? 0)%Z then (st, trace)
              else
                let '(success, st, events) :=
                  place_order st env symbol action (of_Z quantity)
                    use_limit_order in
                let st :=
                  if success
                  then record_trade st env symbol action quantity current_price
                  else st in
                (st, trace ++ events)
          end
      end.

(** [execute_trades] *)
Definition execute_trades (st : Strategy) (env : Env)
    (long_stocks short_stocks : list string) : Strategy * list Event :=
  if negb (can_trade_now env) then (st, [])
  else
    let st := snd (get_current_positions st env) in
    match long_stocks, short_stocks with
    | [], [] => (st, [])
    | _, _ =>
        match accountSummary env with
        | None => (st, [])                (* raises; handled on line 2062 *)
        | Some account_summary =>
            let net_liquidation := net_liquidation_of account_summary in
            if fle net_liquidation fzero then (st, [])
            else
              let use_limit_order := negb (is_regular_hours env) in
              let long_capital_per_stock :=
                capital_per_stock (long_capital net_liquidation) long_stocks in
              let short_capital_per_stock :=
                capital_per_stock (short_capital net_liquidation) short_stocks in
              let st := load_trade_history st env in
              let acc :=
                fold_left
                  (entry_step env "BUY" (fun q => fgt q fzero)
                     long_capital_per_stock use_limit_order)
                  long_stocks (st, []) in
              fold_left
                (entry_step env "SELL" (fun q => flt q fzero)
                   short_capital_per_stock use_limit_order)
                short_stocks acc
        end
    end.

(** *** Exits *)

(** One round of the loop of [monitor_positions] (lines 2080-2096). *)
Definition monitor_step (env : Env) (acc : Strategy * list Event)
    (position : string * pyfloat) : Strategy * list Event :=
  let '(st, trace) := acc in
  let '(symbol, quantity) := position in
  let '(current_price, st) := get_latest_price st env symbol true in
  if fle current_price fzero then (st, trace)
  else if fgt quantity fzero && check_stop_loss st symbol current_price then
    let '(_, st, events) :=
      place_order st env symbol "SELL" (fabs quantity) true in
    (st, trace ++ events)
  else (st, trace).

(** [monitor_positions] *)
Definition monitor_positions (st : Strategy) (env : Env)
    : Strategy * list Event :=
  let '(positions, st) := get_current_positions st env in
  match positions with
  | [] => (st, [])
  | _ => fold_left (monitor_step env) positions (st, [])
  end.

(** One round of the loop of [check_exit_positions] (lines 2135-2152). *)
Definition exit_step (env : Env) (acc : Strategy * list Event)
    (position : string * pyfloat) : Strategy * list Event :=
  let '(st, trace) := acc in
  let '(symbol, quantity) := position in
  match earnings_date env symbol with
  | None => (st, trace)
  | Some d =>
      if (d + 2 <=? now_ordinal env)%Z then
        if fgt quantity fzero then
          let '(_, st, events) :=
            place_order st env symbol "SELL" (fabs quantity) true in
          (st, trace ++ events)
        else if flt quantity fzero then
          let '(_, st, events) :=
            place_order st env symbol "BUY" (fabs quantity) true in
          (st, trace ++ events)
        else (st, trace)
      else (st, trace)
  end.

(** [check_exit_positions] *)
Definition check_exit_positions (st : Strategy) (env : Env)
    : Strategy * list Event :=
  let '(positions, st) := get_current_positions st env in
  match positions with
  | [] => (st, [])
  | _ => fold_left (exit_step env) positions (st, [])
  end.

(** *** One cycle: [run] *)

Section Run.
Variable sort_values : Selection.frame -> Selection.frame.
(** What the selection reads from the market data. *)
Variable pre_return : string -> option pyfloat.
Variable top_quintile : option (list string).

(** [print_stock_selection] asks for the price of every candidate, which
    fills the price cache; [select_stocks] calls it on line 1682. *)
Definition print_stock_selection (st : Strategy) (env : Env)
    (long_stocks short_stocks : list string) : Strategy :=
  fold_left (fun st symbol => snd (get_latest_price st env symbol true))
    (long_stocks ++ short_stocks) st.

Definition run (st : Strategy) (env : Env) : bool * Strategy * list Event :=
  if negb (earnings_data_loaded env) then (false, st, [])
  else
    let '(long_stocks, short_stocks) :=
      Selection.select_stocks sort_values pre_return top_quintile in
    let st :=
      match Selection.returns_frame sort_values pre_return top_quintile with
      | Some returns_df =>
          if Selection.prints_selection returns_df
          then print_stock_selection st env long_stocks short_stocks
          else st
      | None => st
      end in
    let '(st, t1) := execute_trades st env long_stocks short_stocks in
    let '(st, t2) := monitor_positions st env in
    let '(st, t3) := check_exit_positions st env in
    (true, st, t1 ++ t2 ++ t3).
End Run.

(** *** Predicates used in the statements *)

(** [st'] differs from [st] in the price cache at most. *)
Definition same_ledger (st st' : Strategy) : Prop :=
  positions st' = positions st
  /\ stop_loss_prices st' = stop_loss_prices st
  /\ last_buy_time st' = last_buy_time st
  /\ cooldown_seconds st' = cooldown_seconds st
  /\ stop_loss_percent st' = stop_loss_percent st
  /\ trade_history st' = trade_history st.

(** The condition under which the monitor closes a position. *)
Definition stop_loss_due (st : Strategy) (symbol : string)
    (quantity price : pyfloat) : Prop :=
  fgt quantity fzero = true
  /\ fgt price fzero = true
  /\ exists stop,
       stop_loss_prices st !! symbol = Some stop /\ fle price stop = true.

End Engine.

(** ** Sample worlds and engines *)

Module Samples.
Import Engine.

(** An order that fills at once, for its whole quantity, at [price]. *)
Definition fills_at (price : pyfloat) (o : Order) : nat -> OrderStatus :=
  fun _ => mkStatus "Filled" (of_Z (o_quantity o)) fzero price.

(** Tuesday 2025-04-22, 10:00: one long position of 10 AAA, 100000 USD of
    net liquidation, AAA quoted at 90, every order filled at 90. *)
Definition open_env : Env :=
  mkEnv (2025, 4, 22)%nat 1 739363 (time_of 10 0)
    "2025-04-22" "10:00:00" "20250422_10" (Fin 1000000)
    (Some [("AAA", Fin 10)])
    (Some [mkAccountValue "NetLiquidation" "USD" (Some (Fin 100000))])
    (fun _ => true)
    (fun _ => Some (mkTicker (Fin 90) (Fin 91) (Fin 89) (Fin 92)))
    (fun _ => None)
    (fun _ o => Some (fills_at (Fin 90) o))
    None (fun _ => None) true.

(** The same world on Saturday 2025-04-26. *)
Definition closed_env : Env :=
  mkEnv (2025, 4, 26)%nat 5 739367 (time_of 10 0)
    "2025-04-26" "10:00:00" "20250426_10" (Fin 1000000)
    (Some [("AAA", Fin 10)])
    (Some [mkAccountValue "NetLiquidation" "USD" (Some (Fin 100000))])
    (fun _ => true)
    (fun _ => Some (mkTicker (Fin 90) (Fin 91) (Fin 89) (Fin 92)))
    (fun _ => None)
    (fun _ o => Some (fills_at (Fin 90) o))
    None (fun _ => None) true.

(** The open world with no price source answering. *)
Definition no_price_env : Env :=
  mkEnv (2025, 4, 22)%nat 1 739363 (time_of 10 0)
    "2025-04-22" "10:00:00" "20250422_10" (Fin 1000000)
    (Some [("AAA", Fin 10)])
    (Some [mkAccountValue "NetLiquidation" "USD" (Some (Fin 100000))])
    (fun _ => true) (fun _ => None) (fun _ => None)
    (fun _ o => Some (fills_at (Fin 90) o))
    None (fun _ => None) true.

(** The open world with an account summary without net liquidation. *)
Definition no_funds_env : Env :=
  mkEnv (2025, 4, 22)%nat 1 739363 (time_of 10 0)
    "2025-04-22" "10:00:00" "20250422_10" (Fin 1000000)
    (Some [("AAA", Fin 10)]) (Some [])
    (fun _ => true)
    (fun _ => Some (mkTicker (Fin 90) (Fin 91) (Fin 89) (Fin 92)))
    (fun _ => None)
    (fun _ o => Some (fills_at (Fin 90) o))
    None (fun _ => None) true.

(** The open world where the broker reports a fill of 10 with an average
    fill price of 0. *)
Definition zero_avg_env : Env :=
  mkEnv (2025, 4, 22)%nat 1 739363 (time_of 10 0)
    "2025-04-22" "10:00:00" "20250422_10" (Fin 1000000)
    (Some []) 
    (Some [mkAccountValue "NetLiquidation" "USD" (Some (Fin 100000))])
    (fun _ => true)
    (fun _ => Some (mkTicker (Fin 90) (Fin 91) (Fin 89) (Fin 92)))
    (fun _ => None)
    (fun _ _ => Some (fun _ => mkStatus "Filled" (Fin 10) fzero (Fin 0)))
    None (fun _ => None) true.

(** A fresh engine: cooldown of 10 days, stop-loss of 5 percent. *)
Definition fresh : Strategy := init (Fin 10) (Fin (5 # 100)).

(** The engine after a buy of AAA with a stop at 95, bought at [t]. *)
Definition holding (t : pyfloat) : Strategy :=
  set_buy_state fresh (<["AAA" := t]> ∅) (<["AAA" := Fin 95]> ∅).

(** The engine with AAA cached at 5 for the current hour. *)
Definition cached : Strategy :=
  set_price_cache fresh (<["AAA_20250422_10" := Fin 5]> ∅).

Definition yesterday_buy : TradeRecord :=
  mkTrade "2025-04-21" "10:00:00" "AAA" "BUY" 10 (Fin 90) (Fin 900).

End Samples.

(** ** Views of the executor used in the statements *)

Module Views.
Import Engine.

(** The order [place_order] builds on lines 1093-1114 for an integer quantity
    and a reference price. *)
Definition order_for (env : Env) (action : string) (quantity : Z)
    (current_price : pyfloat) (use_limit_price : bool) : Order :=
  if use_limit_price || negb (is_regular_hours env) then
    mkOrder action quantity
      (Some (round2 (fmul current_price
                       (if String.eqb action "BUY"
                        then Fin (101 # 100) else Fin (99 # 100)))))
      true "DAY"
  else mkOrder action quantity None true "DAY".

(** The state [place_order] leaves behind on lines 1136-1145, given the
    state after pricing and the status read on line 1126. *)
Definition settled (st1 : Strategy) (env : Env) (symbol action : string)
    (current_price : pyfloat) (os : OrderStatus) : Strategy :=
  if String.eqb action "BUY" && fgt (filled os) fzero then
    set_buy_state st1
      (<[symbol := time_time env]> (last_buy_time st1))
      (<[symbol :=
           fmul (if fgt (avgFillPrice os) fzero
                 then avgFillPrice os else current_price)
                (fsub (Fin 1) (stop_loss_percent st1))]>
         (stop_loss_prices st1))
  else st1.

(** The orders handed to the broker, read off a trace. *)
Definition submitted (trace : list Event) : list (string * Order) :=
  flat_map (fun e => match e with
                     | Submitted s o => [(s, o)]
                     | PlaceOrderCall _ _ _ => []
                     end) trace.

(** The reference price [get_latest_price] gives for a symbol in a state. *)
Definition quote (st : Strategy) (env : Env) (symbol : string) : pyfloat :=
  fst (get_latest_price st env symbol true).

(** Two states in which every symbol has the same reference price. *)
Definition same_quotes (env : Env) (st st' : Strategy) : Prop :=
  forall symbol, quote st' env symbol = quote st env symbol.

(** What no engine operation undoes, from [st] to a later [st']: the two
    settings stay, a cached price stays, a stored stop-loss price or buy time
    is never removed, and a buy time is either the old one or the current
    time. *)
Definition keeps (env : Env) (st st' : Strategy) : Prop :=
  cooldown_seconds st' = cooldown_seconds st
  /\ stop_loss_percent st' = stop_loss_percent st
  /\ (forall k v, price_cache st !! k = Some v -> price_cache st' !! k = Some v)
  /\ (forall s, stop_loss_prices st !! s <> None ->
                stop_loss_prices st' !! s <> None)
  /\ (forall s, last_buy_time st !! s <> None -> last_buy_time st' !! s <> None)
  /\ (forall s t, last_buy_time st' !! s = Some t ->
                  last_buy_time st !! s = Some t \/ t = time_time env).

(** The test [is_traded_today] applies to one record of the history (lines
    751, 758 and 766). *)
Definition matches_today (env : Env) (symbol : string) (action : option string)
    (t : TradeRecord) : bool :=
  String.eqb (t_date t) (today_str env)
  && String.eqb (t_symbol t) symbol
  && match action with
     | Some a => String.eqb (t_action t) a
     | None => true
     end.

End Views.

(** ** The tradable universe: [filter_valid_stocks] and the market-cap cut *)

Module Universe.

(** A Python [str] where its length in characters matters: the list of its
    code points. *)
Definition pystr : Type := list N.

(** The code points of an ASCII literal. *)
Fixpoint code_points (s : string) : pystr :=
  match s with
  | EmptyString => []
  | String c s' => N_of_ascii c :: code_points s'
  end.

(** ['-' in symbol] and ['.' in symbol]: code points 45 and 46. *)
Definition hyphen : N := 45.
Definition dot : N := 46.
Definition contains (c : N) (s : pystr) : bool := existsb (N.eqb c) s.

(** Line 873; a symbol read from a frame may be NaN or None ([None]), for
    which [pd.isna] answers first. *)
Definition malformed (symbol : option pystr) : bool :=
  match symbol with
  | None => true
  | Some s =>
      match s with [] => true | _ => false end
      || (5 <? length s)%nat
      || contains hyphen s || contains dot s
  end.

(** The locals of the loop of [filter_valid_stocks], and the symbols the
    broker was asked to qualify, in order. *)
Record FilterState : Type := mkFilterState {
  valid_symbols : list pystr;
  invalid_symbols : list (option pystr);
  asked : list pystr
}.

Section WithBroker.
(** [self.ib.qualifyContracts(contract)] for a symbol: [false] when the list
    comes back empty or the call raises, which the handler of line 888 treats
    alike. *)
Variable qualifyContracts : pystr -> bool.

(** One round of the loop (lines 870-891). *)
Definition filter_step (acc : FilterState) (symbol : option pystr)
    : FilterState :=
  if malformed symbol then
    mkFilterState (valid_symbols acc) (invalid_symbols acc ++ [symbol])
      (asked acc)
  else
    match symbol with
    | Some s =>
        if qualifyContracts s then
          mkFilterState (valid_symbols acc ++ [s]) (invalid_symbols acc)
            (asked acc ++ [s])
        else
          mkFilterState (valid_symbols acc) (invalid_symbols acc ++ [symbol])
            (asked acc ++ [s])
    | None => acc
    end.

Definition filter_loop (symbols : list (option pystr)) : FilterState :=
  fold_left filter_step symbols (mkFilterState [] [] []).

(** Lines 899-902: [', '.join(invalid_symbols[:display_count])], which raises
    TypeError ([false]) on an entry that is not a string. *)
Definition is_str (symbol : option pystr) : bool :=
  match symbol with
  | Some _ => true
  | None => false
  end.

Definition joins (invalid_symbols : list (option pystr)) : bool :=
  let invalid_count := length invalid_symbols in
  if (0 <? invalid_count)%nat then
    let display_count := Nat.min 20 invalid_count in
    forallb is_str (firstn display_count invalid_symbols)
  else true.

(** [filter_valid_stocks]; [None] when the log line of line 902 raises:
    nothing in the function catches that. *)
Definition filter_valid_stocks (symbols : list (option pystr))
    : option (list pystr) :=
  let r := filter_loop symbols in
  if joins (invalid_symbols r) then Some (valid_symbols r) else None.

(** The inputs the loop keeps. *)
Definition accepted (symbol : option pystr) : bool :=
  match symbol with
  | Some s => negb (malformed symbol) && qualifyContracts s
  | None => false
  end.
End WithBroker.

(** *** Sample symbols *)

(** [a == b] on strings. *)
Fixpoint pystr_eqb (a b : pystr) : bool :=
  match a, b with
  | [], [] => true
  | x :: a', y :: b' => N.eqb x y && pystr_eqb a' b'
  | _, _ => false
  end.

(** A sample broker that knows every symbol but ZZZZ. *)
Definition knows (s : pystr) : bool := negb (pystr_eqb s (code_points "ZZZZ")).

(** *** The market-cap cut *)

(** Order of [sort_values('market_cap', ascending=False)]: descending, NaN
    last. *)
Definition cap_ge (a b : pyfloat) : bool :=
  match a, b with
  | _, NaN => true
  | NaN, Fin _ => false
  | Fin x, Fin y => Qle_bool y x
  end.

Definition cap_row_ge (a b : string * pyfloat) : bool := cap_ge (snd a) (snd b).

(** A reference descending sort: stable insertion sort. *)
Fixpoint insert_cap (r : string * pyfloat) (f : dict pyfloat) : dict pyfloat :=
  match f with
  | [] => [r]
  | r' :: f' => if cap_row_ge r r' then r :: f else r' :: insert_cap r f'
  end.

Fixpoint sort_caps (f : dict pyfloat) : dict pyfloat :=
  match f with
  | [] => []
  | r :: f' => insert_cap r (sort_caps f')
  end.

Section WithSort.
(** [sort_values(..., ascending=False)] on the rows (symbol, market cap). *)
Variable sort_values_desc : dict pyfloat -> dict pyfloat.

(** Lines 1580-1596, from the dict [market_caps] to [top_quintile]; [None]
    when no market cap is positive and [select_stocks] returns [([], [])]. *)
Definition top_quintile_of (market_caps : dict pyfloat)
    : option (list string) :=
  let market_cap_df := sort_values_desc market_caps in
  let market_cap_df :=
    List.filter (fun r => fgt (snd r) fzero) market_cap_df in
  match market_cap_df with
  | [] => None
  | _ =>
      let top_quintile_count :=
        Selection.quintile_count (length market_cap_df) in
      Some (map fst (firstn top_quintile_count market_cap_df))
  end.
End WithSort.

(** Sample market caps, in billions. *)
Definition example_caps : dict pyfloat :=
  [("AAA", Fin 50); ("BBB", Fin 900); ("CCC", NaN); ("DDD", Fin 0);
   ("EEE", Fin 300); ("FFF", Fin 20); ("GGG", Fin 700); ("HHH", Fin 10);
   ("III", Fin 5); ("JJJ", Fin 1); ("KKK", Fin 2); ("LLL", Fin 3)].

End Universe.

(** ** The application shell: [EarningsReversalApp.connect_to_ib] *)

Module App.

(** The loop of [connect_to_ib] (lines 2608-2632).  [answer i] is what the
    [i]-th attempt meets: [Some true] connected, [Some false] not connected,
    [None] an exception.  [remaining] is [max_attempts - attempt]; the result
    is the return value, the attempts made and the number of sleeps. *)
Fixpoint connect_loop (answer : nat -> option bool) (max_attempts : nat)
    (attempt remaining slept : nat) : bool * nat * nat :=
  match remaining with
  | O => (false, attempt, slept)
  | S remaining' =>
      let attempt := S attempt in
      match answer attempt with
      | Some true => (true, attempt, slept)
      | _ =>
          let slept :=
            if (attempt <? max_attempts)%nat then S slept else slept in
          connect_loop answer max_attempts attempt remaining' slept
      end
  end.

(** [connect_to_ib] *)
Definition connect_to_ib (answer : nat -> option bool) (max_attempts : nat)
    : bool * nat * nat :=
  connect_loop answer max_attempts 0 max_attempts 0.

(** What the connection answers during one [run_strategy_once]. *)
Record Link : Type := mkLink {
  is_connected : bool;                  (* [self.ib and self.ib.isConnected()]
                                           on line 2690 *)
  connect_answer : nat -> option bool;  (* the attempts of [connect_to_ib] *)
  is_connected_after : bool;            (* [isConnected()] on line 2654 *)
  strategy_created : bool               (* [false]: the constructor raises *)
}.

(** [initialize_strategy()] with its default arguments, as line 2697 calls
    it: the new [self.strategy], or [None] when it returns False. *)
Definition initialize_strategy (link : Link) : option Engine.Strategy :=
  if negb (is_connected_after link) then None
  else if strategy_created link
       then Some (Engine.init (Fin 10) (Fin (5 # 100)))
       else None.

Section Cycle.
Variable sort_values : Selection.frame -> Selection.frame.
Variable pre_return : string -> option pyfloat.
Variable top_quintile : option (list string).

(** [run_strategy_once]: the result, [self.strategy] afterwards and the
    events of the cycle. *)
Definition run_strategy_once (strategy : option Engine.Strategy)
    (link : Link) (env : Engine.Env)
    : bool * option Engine.Strategy * list Engine.Event :=
  match strategy with
  | None => (false, None, [])
  | Some st =>
      if is_connected link then
        let '(ok, st', trace) :=
          Engine.run sort_values pre_return top_quintile st env in
        (ok, Some st', trace)
      else if negb (fst (fst (connect_to_ib (connect_answer link) 3))) then
        (false, Some st, [])
      else
        match initialize_strategy link with
        | None => (false, Some st, [])
        | Some new_strategy =>
            let '(ok, st', trace) :=
              Engine.run sort_values pre_return top_quintile new_strategy env in
            (ok, Some st', trace)
        end
  end.
End Cycle.

End App.

(** ** More sample worlds *)

Module MoreSamples.
Import Engine Samples.

(** The open world three days after the earnings date of AAA. *)
Definition exit_env : Env :=
  mkEnv (2025, 4, 22)%nat 1 739363 (time_of 10 0)
    "2025-04-22" "10:00:00" "20250422_10" (Fin 1000000)
    (Some [("AAA", Fin 10)])
    (Some [mkAccountValue "NetLiquidation" "USD" (Some (Fin 100000))])
    (fun _ => true)
    (fun _ => Some (mkTicker (Fin 90) (Fin 91) (Fin 89) (Fin 92)))
    (fun _ => None)
    (fun _ o => Some (fills_at (Fin 90) o))
    None
    (fun s => if String.eqb s "AAA" then Some 739360%Z else None) true.

(** The open world with a broker that fails to report the portfolio. *)
Definition no_portfolio_env : Env :=
  mkEnv (2025, 4, 22)%nat 1 739363 (time_of 10 0)
    "2025-04-22" "10:00:00" "20250422_10" (Fin 1000000)
    None
    (Some [mkAccountValue "NetLiquidation" "USD" (Some (Fin 100000))])
    (fun _ => true)
    (fun _ => Some (mkTicker (Fin 90) (Fin 91) (Fin 89) (Fin 92)))
    (fun _ => None)
    (fun _ o => Some (fills_at (Fin 90) o))
    None (fun _ => None) true.

(** A fresh engine whose history holds yesterday's buy. *)
Definition with_history : Strategy :=
  set_trade_history fresh (Some [yesterday_buy]).

(** A market BUY of 166 shares: 15000 of capital at a price of 90. *)
Definition buy_166 : Order := mkOrder "BUY" 166 None true "DAY".

(** A connection found down that comes back at the second attempt. *)
Definition lost_link : App.Link :=
  App.mkLink false (fun i => if (i =? 2)%nat then Some true else None)
    true true.

End MoreSamples.

(** * Properties *)

(** ** Floats *)

Lemma Qle_bool_total (x y : Q) : Qle_bool x y = false -> Qle_bool y x = true.
Proof.
  intros H. apply Qle_bool_iff.
  destruct (Qlt_le_dec y x) as [Hlt | Hle].
  - apply Qlt_le_weak; exact Hlt.
  - apply Qle_bool_iff in Hle. congruence.
Qed.

Lemma Qle_bool_trans (x y z : Q) :
  Qle_bool x y = true -> Qle_bool y z = true -> Qle_bool x z = true.
Proof.
  rewrite !Qle_bool_iff. apply Qle_trans.
Qed.

(** ** Dictionaries *)

Section DictFacts.
Context {V : Type}.
Implicit Types (d : dict V) (k : string) (v : V).

Lemma dict_set_keys_in k v d :
  In k (dict_keys d) -> dict_keys (dict_set k v d) = dict_keys d.
Proof.
  induction d as [| [k' v'] d IH]; simpl; intros Hin; [contradiction |].
  destruct (String.eqb_spec k k') as [-> | Hne]; simpl; [reflexivity |].
  f_equal. apply IH. destruct Hin as [Heq | Hin]; [congruence | exact Hin].
Qed.

Lemma dict_set_keys_notin k v d :
  ~ In k (dict_keys d) -> dict_keys (dict_set k v d) = dict_keys d ++ [k].
Proof.
  induction d as [| [k' v'] d IH]; simpl; intros Hnin; [reflexivity |].
  destruct (String.eqb_spec k k') as [-> | Hne]; simpl.
  - exfalso. apply Hnin. left; reflexivity.
  - f_equal. apply IH. intros Hin. apply Hnin. right; exact Hin.
Qed.

Lemma NoDup_snoc {A : Type} (l : list A) (k : A) :
  List.NoDup l -> ~ In k l -> List.NoDup (l ++ [k]).
Proof.
  induction 1 as [| x l Hx Hnd IH]; simpl; intros Hk.
  - apply List.NoDup_cons; [intros [] | apply List.NoDup_nil].
  - apply List.NoDup_cons.
    + rewrite in_app_iff. intros [Hin | [Heq | []]]; [contradiction |].
      apply Hk. left. symmetry. exact Heq.
    + apply IH. intros Hin. apply Hk. right. exact Hin.
Qed.

Lemma dict_set_keys_NoDup k v d :
  List.NoDup (dict_keys d) -> List.NoDup (dict_keys (dict_set k v d)).
Proof.
  intros Hnd.
  destruct (in_dec String.string_dec k (dict_keys d)) as [Hin | Hnin].
  - rewrite dict_set_keys_in by exact Hin. exact Hnd.
  - rewrite dict_set_keys_notin by exact Hnin.
    apply NoDup_snoc; assumption.
Qed.

Lemma fold_dict_set_NoDup {A : Type} (key : A -> string) (val : A -> V)
    (l : list A) d :
  List.NoDup (dict_keys d) ->
  List.NoDup (dict_keys (fold_left (fun acc a => dict_set (key a) (val a) acc) l d)).
Proof.
  revert d. induction l as [| a l IH]; simpl; intros d Hnd; [exact Hnd |].
  apply IH. apply dict_set_keys_NoDup. exact Hnd.
Qed.
End DictFacts.

(** ** Candidate selection *)

Module SelectionFacts.
Import Selection.

Lemma mem_In s l : mem s l = true <-> In s l.
Proof.
  unfold mem. rewrite existsb_exists. split.
  - intros (x & Hx & Heq). apply String.eqb_eq in Heq. subst. exact Hx.
  - intros H. exists s. split; [exact H | apply String.eqb_refl].
Qed.

Lemma common_stocks_disjoint a b : disjoint a b -> common_stocks a b = [].
Proof.
  intros Hd. unfold common_stocks.
  replace (List.filter (fun s => mem s b) a) with (@nil string); [reflexivity |].
  symmetry. induction a as [| x a IH]; simpl; [reflexivity |].
  destruct (mem x b) eqn:Hm.
  - exfalso. apply (Hd x); [left; reflexivity | apply mem_In; exact Hm].
  - apply IH. intros y Hy. apply Hd. right. exact Hy.
Qed.

Lemma In_firstn {A : Type} (x : A) n l : In x (firstn n l) -> In x l.
Proof.
  intros H. rewrite <- (firstn_skipn n l). apply in_or_app. left. exact H.
Qed.

Lemma In_skipn {A : Type} (x : A) n l : In x (skipn n l) -> In x l.
Proof.
  intros H. rewrite <- (firstn_skipn n l). apply in_or_app. right. exact H.
Qed.

Lemma disjoint_firstn n k a b :
  disjoint a b -> disjoint (firstn n a) (firstn k b).
Proof.
  intros Hd x Hx Hy. apply (Hd x); eapply In_firstn; eauto.
Qed.

Lemma firstn_skipn_disjoint (l : list string) a b :
  List.NoDup l -> (a <= b)%nat -> disjoint (firstn a l) (skipn b l).
Proof.
  intros Hnd. revert a b. induction Hnd as [| x l Hx Hnd IH]; intros a b Hab.
  - rewrite firstn_nil, skipn_nil. intros y [].
  - destruct a as [| a]; [intros y [] |].
    destruct b as [| b]; [lia |]. simpl.
    intros y [<- | Hy] Hy'.
    + apply Hx. eapply In_skipn; eauto.
    + assert (Hle : (a <= b)%nat) by lia.
      exact (IH a b Hle y Hy Hy').
Qed.

Lemma valid_returns_keys_in (d : dict (option pyfloat)) k :
  In k (dict_keys (valid_returns_of d)) -> In k (dict_keys d).
Proof.
  induction d as [| [k' [v |]] d IH]; simpl; intros H; [exact H | |].
  - destruct H as [-> | H]; [left; reflexivity | right; apply IH; exact H].
  - right. apply IH. exact H.
Qed.

Lemma valid_returns_NoDup (d : dict (option pyfloat)) :
  List.NoDup (dict_keys d) -> List.NoDup (dict_keys (valid_returns_of d)).
Proof.
  induction d as [| [k [v |]] d IH]; simpl; intros Hnd; [exact Hnd | |];
    inversion Hnd as [| ? ? Hk Hnd']; subst.
  - apply List.NoDup_cons; [| apply IH; exact Hnd'].
    intros Hin. apply Hk. apply valid_returns_keys_in. exact Hin.
  - apply IH. exact Hnd'.
Qed.

Lemma frame_from_symbols i d : symbols_of (frame_from i d) = dict_keys d.
Proof.
  revert i. induction d as [| [k v] d IH]; intros i; simpl; [reflexivity |].
  f_equal. apply IH.
Qed.

Lemma calculate_pre_earnings_returns_NoDup pre_return symbols :
  List.NoDup (dict_keys (calculate_pre_earnings_returns pre_return symbols)).
Proof.
  unfold calculate_pre_earnings_returns.
  apply (fold_dict_set_NoDup (fun s => s) pre_return). apply List.NoDup_nil.
Qed.

Lemma quintile_count_div5 m : quintile_count m = Nat.max 1 (m / 5).
Proof.
  unfold quintile_count, Qtrunc.
  assert (Hfl : Qfloor (inject_Z (Z.of_nat m) * (2 # 10)) = (Z.of_nat m / 5)%Z).
  { unfold Qfloor, Qmult, inject_Z. simpl.
    replace (Z.of_nat m * 2)%Z with (Z.of_nat m * 2)%Z by reflexivity.
    change (Z.pos (1 * 10)) with 10%Z.
    rewrite <- (Z.div_div _ 2 5) by lia. rewrite Z.div_mul by lia. reflexivity. }
  assert (Hle : Qle_bool 0 (inject_Z (Z.of_nat m) * (2 # 10)) = true).
  { unfold Qle_bool, Qmult, inject_Z. simpl. apply Z.leb_le. lia. }
  rewrite Hle, Hfl.
  rewrite Z2Nat.inj_max. change (Z.to_nat 1) with 1%nat.
  f_equal. rewrite <- (Nat2Z.id (m / 5)). f_equal.
  rewrite Nat2Z.inj_div. reflexivity.
Qed.

Lemma quintile_count_half m : (3 <= m)%nat -> (2 * quintile_count m <= m)%nat.
Proof.
  intros Hm. rewrite quintile_count_div5.
  pose proof (Nat.div_mod_eq m 5) as Hdm.
  pose proof (Nat.mod_upper_bound m 5 ltac:(lia)). lia.
Qed.


Lemma partition_candidates_disjoint f :
  List.NoDup (symbols_of f) ->
  disjoint (fst (partition_candidates f)) (snd (partition_candidates f)).
Proof.
  intros Hnd. unfold partition_candidates, tail, symbols_of.
  destruct (length f <? 3)%nat eqn:Hm; simpl;
    rewrite <- firstn_map, <- skipn_map, ?length_map; apply firstn_skipn_disjoint;
    try exact Hnd; [lia |].
  apply Nat.ltb_ge in Hm. pose proof (quintile_count_half _ Hm). lia.
Qed.

Lemma resolve_common_stocks_disjoint f a b :
  disjoint a b -> resolve_common_stocks f a b = Some (a, b).
Proof.
  intros Hd. unfold resolve_common_stocks.
  rewrite common_stocks_disjoint by exact Hd. reflexivity.
Qed.

Lemma force_remove_disjoint a b : disjoint a b -> force_remove a b = a.
Proof.
  intros Hd. unfold force_remove.
  rewrite common_stocks_disjoint by exact Hd. reflexivity.
Qed.

(** With pairwise distinct symbols, lines 1651-1679 change nothing: the
    result is the two slices, cut to [max_positions]. *)
Lemma select_from_frame_slices f :
  List.NoDup (symbols_of f) -> (2 <= length f)%nat ->
  select_from_frame f =
    (firstn max_positions (fst (partition_candidates f)),
     firstn max_positions (snd (partition_candidates f))).
Proof.
  intros Hnd Hlen.
  pose proof (partition_candidates_disjoint f Hnd) as Hd.
  destruct f as [| r1 [| r2 f']]; simpl in Hlen; try lia.
  unfold select_from_frame.
  destruct (partition_candidates (r1 :: r2 :: f')) as [long0 short0].
  simpl in Hd |- *.
  rewrite resolve_common_stocks_disjoint by exact Hd.
  rewrite force_remove_disjoint by (apply disjoint_firstn; exact Hd).
  reflexivity.
Qed.

Lemma select_from_frame_disjoint_bounded f :
  List.NoDup (symbols_of f) ->
  disjoint (fst (select_from_frame f)) (snd (select_from_frame f))
  /\ (length (fst (select_from_frame f)) <= max_positions)%nat
  /\ (length (snd (select_from_frame f)) <= max_positions)%nat.
Proof.
  intros Hnd.
  destruct (Nat.le_gt_cases 2 (length f)) as [Hlen | Hlen].
  - rewrite select_from_frame_slices by assumption. simpl.
    split; [| split]; try apply firstn_le_length.
    apply disjoint_firstn. apply partition_candidates_disjoint. exact Hnd.
  - destruct f as [| r [| r2 f']]; simpl in Hlen; try lia.
    + simpl. repeat split; try (unfold max_positions; lia). intros x [].
    + simpl. destruct (flt (pre_earnings_return r) fzero); simpl;
        repeat split; try (unfold max_positions; lia); intros x; simpl; tauto.
Qed.

Section SortFacts.
Variable sort_values : frame -> frame.
Hypothesis sort_values_perm : forall f, Permutation f (sort_values f).

Lemma returns_frame_NoDup pre_return top_quintile f :
  returns_frame sort_values pre_return top_quintile = Some f ->
  List.NoDup (symbols_of f).
Proof.
  destruct top_quintile as [symbols |]; simpl; [| discriminate].
  intros [= <-]. unfold symbols_of.
  eapply Permutation_NoDup.
  - apply Permutation_map. apply sort_values_perm.
  - fold (symbols_of (DataFrame (valid_returns_of
            (calculate_pre_earnings_returns pre_return symbols)))).
    unfold DataFrame. rewrite frame_from_symbols.
    apply valid_returns_NoDup, calculate_pre_earnings_returns_NoDup.
Qed.

Lemma select_stocks_frame pre_return top_quintile :
  select_stocks sort_values pre_return top_quintile =
    match returns_frame sort_values pre_return top_quintile with
    | Some f => select_from_frame f
    | None => ([], [])
    end.
Proof. destruct top_quintile; reflexivity. Qed.
End SortFacts.

(** C1.  Whatever the market data and whichever (permuting) sort the
    library uses, the two lists [select_stocks] returns share no symbol and
    each has at most [max_positions] = 20 entries. *)
Theorem select_stocks_disjoint_bounded
    (sort_values : frame -> frame)
    (sort_values_perm : forall f, Permutation f (sort_values f))
    (pre_return : string -> option pyfloat)
    (top_quintile : option (list string)) :
  let '(long_candidates, short_candidates) :=
    select_stocks sort_values pre_return top_quintile in
  (forall s, In s long_candidates -> ~ In s short_candidates)
  /\ (length long_candidates <= 20)%nat
  /\ (length short_candidates <= 20)%nat.
Proof.
  rewrite select_stocks_frame.
  destruct (returns_frame sort_values pre_return top_quintile) as [f |] eqn:Hf.
  - pose proof (returns_frame_NoDup _ sort_values_perm _ _ _ Hf) as Hnd.
    pose proof (select_from_frame_disjoint_bounded f Hnd) as H.
    destruct (select_from_frame f) as [l s]. exact H.
  - simpl. split; [intros s [] | split; lia].
Qed.

(** *** The reference sort *)

Lemma ret_le_total a b : ret_le a b = false -> ret_le b a = true.
Proof.
  destruct a as [x |], b as [y |]; simpl; try congruence.
  apply Qle_bool_total.
Qed.

Lemma ret_le_trans a b c :
  ret_le a b = true -> ret_le b c = true -> ret_le a c = true.
Proof.
  destruct a as [x |], b as [y |], c as [z |]; simpl; try congruence.
  apply Qle_bool_trans.
Qed.

Lemma insert_row_perm r f : Permutation (r :: f) (insert_row r f).
Proof.
  induction f as [| r' f IH]; simpl; [reflexivity |].
  destruct (row_le r r'); [reflexivity |].
  rewrite perm_swap. apply perm_skip. exact IH.
Qed.

Lemma insertion_sort_perm f : Permutation f (insertion_sort f).
Proof.
  induction f as [| r f IH]; simpl; [reflexivity |].
  rewrite <- insert_row_perm. apply perm_skip. exact IH.
Qed.

Lemma insert_row_sorted r f :
  StronglySorted row_leP f -> StronglySorted row_leP (insert_row r f).
Proof.
  induction 1 as [| r' f Hs IH Hall]; simpl.
  - constructor; constructor.
  - destruct (row_le r r') eqn:Hle.
    + constructor; [constructor; assumption |].
      constructor; [exact Hle |].
      eapply List.Forall_impl; [| exact Hall].
      intros c Hc. unfold row_leP, row_le in *. eapply ret_le_trans; eauto.
    + constructor; [exact IH |].
      rewrite <- insert_row_perm. constructor; [| exact Hall].
      unfold row_leP, row_le in *. apply ret_le_total. exact Hle.
Qed.

Lemma insertion_sort_sorted f : StronglySorted row_leP (insertion_sort f).
Proof.
  induction f as [| r f IH]; simpl; [constructor |].
  apply insert_row_sorted. exact IH.
Qed.

Lemma sorted_firstn_skipn (f : frame) k a b :
  StronglySorted row_leP f ->
  In a (firstn k f) -> In b (skipn k f) -> row_le a b = true.
Proof.
  intros Hs. revert k. induction Hs as [| r f Hs IH Hall]; intros k Ha Hb.
  - rewrite firstn_nil in Ha. destruct Ha.
  - destruct k as [| k]; [destruct Ha |]. simpl in Ha, Hb.
    destruct Ha as [<- | Ha].
    + rewrite List.Forall_forall in Hall. apply Hall. eapply In_skipn. exact Hb.
    + apply (IH k); assumption.
Qed.

(** The quintile cut in the order of [sort_values] (ascending, NaN last).
    With [m >= 3] rows and [k = max(1, floor(m * 0.2))], the lists before
    overlap resolution are the symbols of the first [k] and of the last [k]
    rows of the sorted frame: both have length [k], no row outside the first
    [k] sorts below a row inside, no row outside the last [k] sorts above
    one, and [select_stocks] returns these two lists cut to [max_positions].
    A NaN return sorts above every number. *)
Lemma select_stocks_quintiles
    (sort_values : frame -> frame)
    (sort_values_perm : forall f, Permutation f (sort_values f))
    (sort_values_sorted : forall f,
        StronglySorted (fun a b => row_le a b = true) (sort_values f))
    (pre_return : string -> option pyfloat)
    (top_quintile : option (list string)) (returns_df : frame) :
  returns_frame sort_values pre_return top_quintile = Some returns_df ->
  (3 <= length returns_df)%nat ->
  let m := length returns_df in
  let k := Z.to_nat (Z.max 1 (Qfloor (inject_Z (Z.of_nat m) * (2 # 10)))) in
  partition_candidates returns_df =
    (symbols_of (firstn k returns_df), symbols_of (skipn (m - k) returns_df))
  /\ length (firstn k returns_df) = k
  /\ length (skipn (m - k) returns_df) = k
  /\ (forall a b, In a (firstn k returns_df) -> In b (skipn k returns_df) ->
        row_le a b = true)
  /\ (forall a b, In a (firstn (m - k) returns_df) ->
        In b (skipn (m - k) returns_df) -> row_le a b = true)
  /\ select_stocks sort_values pre_return top_quintile =
       (firstn max_positions (symbols_of (firstn k returns_df)),
        firstn max_positions (symbols_of (skipn (m - k) returns_df))).
Proof.
  intros Hf Hm m k.
  assert (Hk : k = quintile_count m).
  { unfold k, quintile_count, Qtrunc.
    replace (Qle_bool 0 (inject_Z (Z.of_nat m) * (2 # 10))) with true;
      [reflexivity |].
    symmetry. unfold Qle_bool, Qmult, inject_Z. simpl. apply Z.leb_le. lia. }
  pose proof (quintile_count_half m Hm) as Hhalf. rewrite <- Hk in Hhalf.
  assert (Hsorted : StronglySorted row_leP returns_df).
  { destruct top_quintile as [symbols |]; simpl in Hf; [| discriminate].
    injection Hf as <-. apply sort_values_sorted. }
  assert (Hpart : partition_candidates returns_df =
    (symbols_of (firstn k returns_df), symbols_of (skipn (m - k) returns_df))).
  { unfold partition_candidates, tail. fold m.
    replace (m <? 3)%nat with false by (symmetry; apply Nat.ltb_ge; exact Hm).
    rewrite <- Hk. reflexivity. }
  split; [exact Hpart |].
  split; [rewrite length_firstn; fold m; lia |].
  split; [rewrite length_skipn; fold m; lia |].
  split; [intros a b; apply sorted_firstn_skipn; exact Hsorted |].
  split; [intros a b; apply sorted_firstn_skipn; exact Hsorted |].
  rewrite select_stocks_frame, Hf.
  rewrite select_from_frame_slices.
  - rewrite Hpart. reflexivity.
  - eapply returns_frame_NoDup; eauto.
  - lia.
Qed.

(** In [select_stocks] the two lists of lines 1635-1649 never share a
    symbol: the resolution loop of lines 1651-1666 finds no common stock and
    leaves both lists as they are. *)
Lemma partition_candidates_no_common
    (sort_values : frame -> frame) pre_return top_quintile returns_df :
  (forall f, Permutation f (sort_values f)) ->
  returns_frame sort_values pre_return top_quintile = Some returns_df ->
  let '(long_candidates, short_candidates) :=
    partition_candidates returns_df in
  common_stocks long_candidates short_candidates = []
  /\ resolve_common_stocks returns_df long_candidates short_candidates =
       Some (long_candidates, short_candidates).
Proof.
  intros Hperm Hf.
  pose proof (returns_frame_NoDup _ Hperm _ _ _ Hf) as Hnd.
  pose proof (partition_candidates_disjoint returns_df Hnd) as Hd.
  destruct (partition_candidates returns_df) as [l s]. simpl in Hd.
  split; [apply common_stocks_disjoint | apply resolve_common_stocks_disjoint];
    exact Hd.
Qed.

(** C2 at a NaN return.  For AAA: NaN, BBB: -3, CCC: 4 all three symbols
    pass line 1605 (m = 3, one symbol per side); [sort_values] puts the NaN
    row last, so the short list before overlap resolution, as in the result,
    is AAA, and CCC, the symbol with the most positive return, is not
    short. *)
Lemma select_stocks_nan_return_short :
  nan_pre_return "AAA" = Some NaN
  /\ nan_pre_return "BBB" = Some (Fin (-3))
  /\ nan_pre_return "CCC" = Some (Fin 4)
  /\ returns_frame insertion_sort nan_pre_return (Some nan_symbols)
       = Some nan_frame
  /\ nan_frame =
       [mkRow 1 "BBB" (Fin (-3)); mkRow 2 "CCC" (Fin 4); mkRow 0 "AAA" NaN]
  /\ quintile_count (length nan_frame) = 1%nat
  /\ partition_candidates nan_frame = (["BBB"], ["AAA"])
  /\ select_stocks insertion_sort nan_pre_return (Some nan_symbols)
       = (["BBB"], ["AAA"]).
Proof. repeat split. Qed.

(** C1 at the sample returns: AAA goes long, EEE goes short. *)
Lemma select_stocks_disjoint_bounded_witness :
  select_stocks insertion_sort example_pre_return (Some example_symbols)
    = (["AAA"], ["EEE"])
  /\ (forall s, In s ["AAA"] -> ~ In s ["EEE"])
  /\ (1 <= 20)%nat /\ (1 <= 20)%nat.
Proof.
  split; [reflexivity |].
  exact (select_stocks_disjoint_bounded insertion_sort insertion_sort_perm
           example_pre_return (Some example_symbols)).
Defined.

(** The quintile cut at the sample returns: five symbols, one per side. *)
Lemma select_stocks_quintiles_example :
  returns_frame insertion_sort example_pre_return (Some example_symbols)
    = Some example_frame
  /\ (3 <= length example_frame)%nat
  /\ partition_candidates example_frame = (["AAA"], ["EEE"])
  /\ select_stocks insertion_sort example_pre_return (Some example_symbols)
      = (["AAA"], ["EEE"]).
Proof.
  assert (Hf : returns_frame insertion_sort example_pre_return
                 (Some example_symbols) = Some example_frame) by reflexivity.
  assert (Hm : (3 <= length example_frame)%nat) by (vm_compute; lia).
  destruct (select_stocks_quintiles insertion_sort insertion_sort_perm
              insertion_sort_sorted example_pre_return (Some example_symbols)
              example_frame Hf Hm) as (Hpart & _ & _ & _ & _ & Hsel).
  split; [exact Hf | split; [exact Hm | split; [exact Hpart | exact Hsel]]].
Defined.

End SelectionFacts.

(** ** The engine *)

Module LedgerFacts.
Import Engine.

Lemma nonempty_filter {A : Type} (p : A -> bool) (l : list A) :
  List.filter p l <> [] <-> exists x, In x l /\ p x = true.
Proof.
  split.
  - destruct (List.filter p l) as [| x l'] eqn:Hf; [congruence |].
    intros _. exists x. apply filter_In. rewrite Hf. left. reflexivity.
  - intros (x & Hx & Hp) Hf.
    assert (Hin : In x (List.filter p l)) by (apply filter_In; auto).
    rewrite Hf in Hin. destruct Hin.
Qed.

Lemma match_nonempty {A : Type} (l : list A) (b : bool) :
  match l with [] => false | _ :: _ => b end = true <-> l <> [] /\ b = true.
Proof.
  destruct l as [| x l].
  - split; [discriminate | intros [H _]; congruence].
  - split; [intros H; split; [discriminate | exact H] | intros [_ H]; exact H].
Qed.

Lemma length_pos_nonempty {A : Type} (l : list A) :
  (0 <? length l)%nat = true <-> l <> [].
Proof.
  destruct l; simpl; split; try congruence; try discriminate; auto.
Qed.

(** C9.  [is_traded_today] answers true exactly when the trade history holds
    a record dated today with that symbol (and with that action, when one is
    given); when every record of the symbol carries another date, the answer
    is false. *)
Theorem is_traded_today_spec (st : Strategy) (env : Env) (symbol : string)
    (action : option string) :
  (is_traded_today st env symbol action = true <->
   exists h t,
     trade_history st = Some h /\ In t h
     /\ t_date t = today_str env /\ t_symbol t = symbol
     /\ match action with
        | Some a => t_action t = a
        | None => True
        end)
  /\ (forall h,
       trade_history st = Some h ->
       (forall t, In t h -> t_symbol t = symbol -> t_date t <> today_str env) ->
       is_traded_today st env symbol action = false).
Proof.
  assert (Hiff : is_traded_today st env symbol action = true <->
    exists h t,
     trade_history st = Some h /\ In t h
     /\ t_date t = today_str env /\ t_symbol t = symbol
     /\ match action with
        | Some a => t_action t = a
        | None => True
        end).
  { unfold is_traded_today.
    destruct (trade_history st) as [h |].
    2:{ split; [discriminate | intros (h & t & Hh & _); discriminate]. }
    set (today_trades := List.filter (fun t => String.eqb (t_date t) (today_str env)) h).
    set (symbol_trades := List.filter (fun t => String.eqb (t_symbol t) symbol) today_trades).
    transitivity
      (h <> [] /\ today_trades <> [] /\ symbol_trades <> [] /\
       match action with
       | Some a =>
           List.filter (fun t => String.eqb (t_action t) a) symbol_trades <> []
       | None => True
       end).
    { destruct h as [| t0 h0]; [split; [discriminate | intros [H _]; congruence] |].
      fold today_trades. fold symbol_trades.
      rewrite match_nonempty, match_nonempty.
      assert (Hne : t0 :: h0 <> []) by discriminate.
      destruct action as [a |]; [rewrite length_pos_nonempty |]; intuition. }
    split.
    - intros (_ & _ & Hs & Ha).
      destruct action as [a |].
      + apply nonempty_filter in Ha. destruct Ha as (t & Ht & Hact).
        apply filter_In in Ht. destruct Ht as [Ht Hsym].
        apply filter_In in Ht. destruct Ht as [Ht Hdate].
        exists h, t. rewrite String.eqb_eq in Hact, Hsym, Hdate. auto.
      + apply nonempty_filter in Hs. destruct Hs as (t & Ht & Hsym).
        apply filter_In in Ht. destruct Ht as [Ht Hdate].
        exists h, t. rewrite String.eqb_eq in Hsym, Hdate. auto.
    - intros (h' & t & [= <-] & Ht & Hdate & Hsym & Hact).
      assert (Ht1 : In t today_trades).
      { apply filter_In. split; [exact Ht | apply String.eqb_eq; exact Hdate]. }
      assert (Ht2 : In t symbol_trades).
      { apply filter_In. split; [exact Ht1 | apply String.eqb_eq; exact Hsym]. }
      split; [intros ->; destruct Ht |].
      split; [intros H; rewrite H in Ht1; destruct Ht1 |].
      split; [intros H; rewrite H in Ht2; destruct Ht2 |].
      destruct action as [a |]; [| exact I].
      apply nonempty_filter. exists t. split; [exact Ht2 |].
      apply String.eqb_eq. exact Hact. }
  split; [exact Hiff |].
  intros h Hh Hold. apply not_true_is_false. intros Htrue.
  apply Hiff in Htrue. destruct Htrue as (h' & t & Hh' & Ht & Hdate & Hsym & _).
  rewrite Hh in Hh'. injection Hh' as <-. exact (Hold t Ht Hsym Hdate).
Qed.

End LedgerFacts.

Module OrderFacts.
Import Engine.

Lemma same_ledger_refl st : same_ledger st st.
Proof. repeat split. Qed.

Lemma same_ledger_trans a b c :
  same_ledger a b -> same_ledger b c -> same_ledger a c.
Proof.
  unfold same_ledger. intros (A1 & A2 & A3 & A4 & A5 & A6) (B1 & B2 & B3 & B4 & B5 & B6).
  repeat split; congruence.
Qed.

Lemma get_latest_price_ledger st env symbol use_yfinance :
  same_ledger st (snd (get_latest_price st env symbol use_yfinance)).
Proof.
  unfold get_latest_price.
  destruct (price_cache st !! cache_key env symbol); [apply same_ledger_refl |].
  destruct (reqMktData env symbol) as [t |].
  - destruct (fgt (ticker_price t) fzero); [repeat split |].
    destruct use_yfinance; [| apply same_ledger_refl].
    destruct (yf_last_close env symbol); repeat split.
  - destruct use_yfinance; [| apply same_ledger_refl].
    destruct (yf_last_close env symbol); repeat split.
Qed.

(** C4, as amended.  [place_order] changes [last_buy_time] and
    [stop_loss_prices] exactly when an order went to the broker, the action
    is BUY and the status read after polling has [filled > 0]; it then sets
    [last_buy_time[symbol]] to the current time and
    [stop_loss_prices[symbol]] to execution_price x (1 - stop_loss_percent),
    where execution_price is [avgFillPrice] if that is positive and the
    reference price of [get_latest_price] otherwise.  In every other case
    both maps are unchanged. *)
Theorem place_order_buy_state (st : Strategy) (env : Env)
    (symbol action : string) (quantity : pyfloat) (use_limit_price : bool) :
  let '(ok, st', events) :=
    place_order st env symbol action quantity use_limit_price in
  let current_price := fst (get_latest_price st env symbol true) in
  match events with
  | [_; Submitted _ order] =>
      exists polls,
        placeOrder env symbol order = Some polls
        /\ let os := wait_for_status polls 0 10 in
           if String.eqb action "BUY" && fgt (filled os) fzero then
             last_buy_time st' = <[symbol := time_time env]> (last_buy_time st)
             /\ stop_loss_prices st' =
                  <[symbol :=
                      fmul (if fgt (avgFillPrice os) fzero
                            then avgFillPrice os else current_price)
                           (fsub (Fin 1) (stop_loss_percent st))]>
                    (stop_loss_prices st)
           else
             last_buy_time st' = last_buy_time st
             /\ stop_loss_prices st' = stop_loss_prices st
  | _ =>
      ok = false
      /\ last_buy_time st' = last_buy_time st
      /\ stop_loss_prices st' = stop_loss_prices st
  end.
Proof.
  unfold place_order.
  destruct (is_nan quantity || fle quantity fzero); [repeat split |].
  destruct (to_int quantity) as [q |]; [| repeat split].
  destruct (q <=? 0)%Z; [repeat split |].
  destruct (negb (qualifyContracts env symbol)); [repeat split |].
  pose proof (get_latest_price_ledger st env symbol true) as Hl.
  destruct (get_latest_price st env symbol true) as [current_price st1].
  simpl in Hl. destruct Hl as (_ & Hsl & Hlb & _ & Hpct & _).
  destruct (fle current_price fzero); [simpl; auto |].
  match goal with
  | |- context [placeOrder env symbol ?o] => set (order := o)
  end.
  destruct (placeOrder env symbol order) as [polls |] eqn:Hp; [| simpl; auto].
  set (os := wait_for_status polls 0 10).
  exists polls. split; [exact Hp |]. fold os. cbv zeta.
  destruct (String.eqb action "BUY" && fgt (filled os) fzero);
    simpl; rewrite ?Hsl, ?Hlb, ?Hpct; auto.
Qed.

(** Events of one call: the call itself, then at most one submission. *)
Lemma place_order_events st env symbol action quantity use_limit_price :
  let events := snd (place_order st env symbol action quantity use_limit_price) in
  events = [PlaceOrderCall symbol action quantity]
  \/ exists order,
       events = [PlaceOrderCall symbol action quantity; Submitted symbol order].
Proof.
  unfold place_order.
  destruct (is_nan quantity || fle quantity fzero); [left; reflexivity |].
  destruct (to_int quantity) as [q |]; [| left; reflexivity].
  destruct (q <=? 0)%Z; [left; reflexivity |].
  destruct (negb (qualifyContracts env symbol)); [left; reflexivity |].
  destruct (get_latest_price st env symbol true) as [current_price st1].
  destruct (fle current_price fzero); [left; reflexivity |].
  match goal with
  | |- context [placeOrder env symbol ?o] => set (order := o)
  end.
  destruct (placeOrder env symbol order) as [polls |]; [| left; reflexivity].
  right. exists order. reflexivity.
Qed.

(** What [place_order] never touches, and what only a BUY touches. *)
Lemma place_order_ledger st env symbol action quantity use_limit_price :
  let st' := snd (fst (place_order st env symbol action quantity use_limit_price)) in
  positions st' = positions st
  /\ cooldown_seconds st' = cooldown_seconds st
  /\ stop_loss_percent st' = stop_loss_percent st
  /\ trade_history st' = trade_history st
  /\ (String.eqb action "BUY" = false ->
      last_buy_time st' = last_buy_time st
      /\ stop_loss_prices st' = stop_loss_prices st).
Proof.
  unfold place_order.
  destruct (is_nan quantity || fle quantity fzero); [simpl; repeat split; auto |].
  destruct (to_int quantity) as [q |]; [| simpl; repeat split; auto].
  destruct (q <=? 0)%Z; [simpl; repeat split; auto |].
  destruct (negb (qualifyContracts env symbol)); [simpl; repeat split; auto |].
  pose proof (get_latest_price_ledger st env symbol true) as Hl.
  destruct (get_latest_price st env symbol true) as [current_price st1].
  simpl in Hl. destruct Hl as (Hpos & Hsl & Hlb & Hcd & Hpct & Hth).
  destruct (fle current_price fzero); [simpl; repeat split; auto |].
  match goal with
  | |- context [placeOrder env symbol ?o] => set (order := o)
  end.
  destruct (placeOrder env symbol order) as [polls |]; [| simpl; repeat split; auto].
  set (os := wait_for_status polls 0 10).
  destruct (String.eqb action "BUY"), (fgt (filled os) fzero); simpl;
    repeat split; auto; try discriminate.
Qed.

End OrderFacts.

Module EntryFacts.
Import Engine OrderFacts.

Lemma record_trade_ledger st env symbol action quantity price :
  let st' := record_trade st env symbol action quantity price in
  positions st' = positions st
  /\ stop_loss_prices st' = stop_loss_prices st
  /\ last_buy_time st' = last_buy_time st
  /\ cooldown_seconds st' = cooldown_seconds st
  /\ stop_loss_percent st' = stop_loss_percent st
  /\ price_cache st' = price_cache st.
Proof.
  unfold record_trade. destruct (trade_history st); repeat split.
Qed.

(** One round of the short loop: the cooldown map is left alone and every
    event is about the round's own symbol. *)
Lemma entry_step_sell env holds cap use_limit st trace symbol :
  let '(st', trace') :=
    entry_step env "SELL" holds cap use_limit (st, trace) symbol in
  last_buy_time st' = last_buy_time st
  /\ cooldown_seconds st' = cooldown_seconds st
  /\ exists events,
       trace' = trace ++ events
       /\ forall e, In e events ->
            (exists q, e = PlaceOrderCall symbol "SELL" q)
            \/ (exists o, e = Submitted symbol o).
Proof.
  assert (Hskip : last_buy_time st = last_buy_time st
    /\ cooldown_seconds st = cooldown_seconds st
    /\ exists events, trace = trace ++ events
       /\ forall e, In e events ->
            (exists q, e = PlaceOrderCall symbol "SELL" q)
            \/ (exists o, e = Submitted symbol o)).
  { repeat split. exists []. rewrite app_nil_r. split; [reflexivity | intros e []]. }
  unfold entry_step.
  destruct (String.eqb symbol ""); [exact Hskip |].
  destruct (match dict_get symbol (positions st) with
            | Some q => holds q | None => false end); [exact Hskip |].
  destruct (is_traded_today st env symbol (Some "SELL")); [exact Hskip |].
  destruct (negb (can_buy_again st env symbol)); [exact Hskip |].
  pose proof (get_latest_price_ledger st env symbol true) as Hl.
  destruct (get_latest_price st env symbol true) as [current_price st1].
  simpl in Hl. destruct Hl as (_ & _ & Hlb & Hcd & _ & _).
  assert (Hskip1 : last_buy_time st1 = last_buy_time st
    /\ cooldown_seconds st1 = cooldown_seconds st
    /\ exists events, trace = trace ++ events
       /\ forall e, In e events ->
            (exists q, e = PlaceOrderCall symbol "SELL" q)
            \/ (exists o, e = Submitted symbol o)).
  { split; [exact Hlb | split; [exact Hcd |]]. apply Hskip. }
  destruct (fle current_price fzero); [exact Hskip1 |].
  destruct (fdiv cap current_price) as [ratio |]; [| exact Hskip1].
  destruct (to_int ratio) as [quantity |]; [| exact Hskip1].
  destruct (quantity <=? 0)%Z; [exact Hskip1 |].
  pose proof (place_order_ledger st1 env symbol "SELL" (of_Z quantity) use_limit)
    as Hpo.
  pose proof (place_order_events st1 env symbol "SELL" (of_Z quantity) use_limit)
    as Hev.
  destruct (place_order st1 env symbol "SELL" (of_Z quantity) use_limit)
    as [[success st2] events].
  simpl in Hpo, Hev. destruct Hpo as (_ & Hcd2 & _ & _ & Hsell).
  destruct (Hsell eq_refl) as [Hlb2 _].
  assert (Hrec := record_trade_ledger st2 env symbol "SELL" quantity current_price).
  simpl in Hrec. destruct Hrec as (_ & _ & Hlb3 & Hcd3 & _ & _).
  split; [destruct success; congruence |].
  split; [destruct success; congruence |].
  exists events. split; [reflexivity |].
  intros e He. destruct Hev as [-> | [o ->]]; simpl in He.
  - destruct He as [<- | []]. left. eexists; reflexivity.
  - destruct He as [<- | [<- | []]]; [left | right]; eexists; reflexivity.
Qed.

Lemma can_buy_again_ext st st' env symbol :
  last_buy_time st' = last_buy_time st ->
  cooldown_seconds st' = cooldown_seconds st ->
  can_buy_again st' env symbol = can_buy_again st env symbol.
Proof. unfold can_buy_again. intros -> ->. reflexivity. Qed.

(** C10.  A short candidate whose [can_buy_again] is false is skipped with no
    order and no state change; over the whole short loop no SELL entry is
    requested for such a symbol; [can_buy_again] is false exactly while less
    than [cooldown_seconds] have passed since the stored buy time; and a SELL
    never writes [last_buy_time]. *)
Theorem short_entry_cooldown :
  (forall env cap use_limit st trace symbol,
      can_buy_again st env symbol = false ->
      entry_step env "SELL" (fun q => flt q fzero) cap use_limit
        (st, trace) symbol = (st, trace))
  /\ (forall env cap use_limit short_stocks st trace symbol q,
      can_buy_again st env symbol = false ->
      In (PlaceOrderCall symbol "SELL" q)
        (snd (fold_left
                (entry_step env "SELL" (fun q => flt q fzero) cap use_limit)
                short_stocks (st, trace))) ->
      In (PlaceOrderCall symbol "SELL" q) trace)
  /\ (forall st env symbol,
      can_buy_again st env symbol = false <->
      exists t, last_buy_time st !! symbol = Some t
                /\ fge (fsub (time_time env) t) (cooldown_seconds st) = false)
  /\ (forall st env symbol quantity use_limit,
      last_buy_time
        (snd (fst (place_order st env symbol "SELL" quantity use_limit)))
      = last_buy_time st).
Proof.
  split; [| split; [| split]].
  - intros env cap use_limit st trace symbol Hcd. unfold entry_step.
    destruct (String.eqb symbol ""); [reflexivity |].
    destruct (match dict_get symbol (positions st) with
              | Some q => flt q fzero | None => false end); [reflexivity |].
    destruct (is_traded_today st env symbol (Some "SELL")); [reflexivity |].
    rewrite Hcd. reflexivity.
  - intros env cap use_limit short_stocks.
    induction short_stocks as [| s rest IH]; intros st trace symbol q Hcd Hin;
      [exact Hin |].
    cbn [fold_left] in Hin.
    pose proof (entry_step_sell env (fun q => flt q fzero) cap use_limit
                  st trace s) as Hstep.
    destruct (entry_step env "SELL" (fun q => flt q fzero) cap use_limit
                (st, trace) s) as [st1 trace1] eqn:Hs.
    destruct Hstep as (Hlb & Hcds & events & -> & Hev).
    destruct (String.eqb_spec s symbol) as [-> | Hne].
    + assert (Hsame : (st1, trace ++ events) = (st, trace)).
      { rewrite <- Hs.
        unfold entry_step.
        destruct (String.eqb symbol ""); [reflexivity |].
        destruct (match dict_get symbol (positions st) with
                  | Some q => flt q fzero | None => false end); [reflexivity |].
        destruct (is_traded_today st env symbol (Some "SELL")); [reflexivity |].
        rewrite Hcd. reflexivity. }
      injection Hsame as -> Htr. rewrite Htr in Hin.
      exact (IH st trace symbol q Hcd Hin).
    + assert (Hcd1 : can_buy_again st1 env symbol = false).
      { rewrite (can_buy_again_ext st st1) by assumption. exact Hcd. }
      specialize (IH st1 (trace ++ events) symbol q Hcd1 Hin).
      apply in_app_or in IH. destruct IH as [H | H]; [exact H |].
      destruct (Hev _ H) as [[q' Heq] | [o Heq]]; [| discriminate Heq].
      injection Heq as Hsym _. congruence.
  - intros st env symbol. unfold can_buy_again.
    destruct (last_buy_time st !! symbol) as [t |].
    + split; [intros H; exists t; auto | intros (t' & [= <-] & H); exact H].
    + split; [discriminate | intros (t' & Hn & _); discriminate].
  - intros st env symbol quantity use_limit.
    pose proof (place_order_ledger st env symbol "SELL" quantity use_limit) as H.
    simpl in H. destruct H as (_ & _ & _ & _ & H). destruct (H eq_refl) as [Hlb _].
    exact Hlb.
Qed.

End EntryFacts.

Module ExitFacts.
Import Engine OrderFacts.

Lemma fle_zero_fgt price stop :
  fle price stop = true ->
  (fle price fzero = false <-> fgt price fzero = true).
Proof.
  destruct price as [p |], stop as [s |]; simpl; try discriminate.
  intros _. unfold Qlt_bool. destruct (Qle_bool p 0); simpl; split; congruence.
Qed.

Lemma fgt_zero_not_fle price : fgt price fzero = true -> fle price fzero = false.
Proof.
  destruct price as [p |]; simpl; [| discriminate].
  unfold Qlt_bool. destruct (Qle_bool p 0); simpl; congruence.
Qed.

Lemma monitor_step_spec env st trace symbol quantity :
  let price := fst (get_latest_price st env symbol true) in
  let '(st', trace') := monitor_step env (st, trace) (symbol, quantity) in
  stop_loss_prices st' = stop_loss_prices st
  /\ exists events,
       trace' = trace ++ events
       /\ (In (PlaceOrderCall symbol "SELL" (fabs quantity)) events <->
           stop_loss_due st symbol quantity price)
       /\ (forall e, In e events ->
             e = PlaceOrderCall symbol "SELL" (fabs quantity)
             \/ exists o, e = Submitted symbol o).
Proof.
  unfold monitor_step, stop_loss_due.
  pose proof (get_latest_price_ledger st env symbol true) as Hl.
  destruct (get_latest_price st env symbol true) as [price st1].
  simpl in Hl. destruct Hl as (_ & Hsl & _). simpl fst. cbv zeta.
  unfold check_stop_loss. rewrite Hsl.
  destruct (fle price fzero) eqn:Hle0.
  { split; [exact Hsl |]. exists []. rewrite app_nil_r.
    split; [reflexivity |]. split; [| intros e []].
    split; [intros [] |]. intros (_ & Hgt & _).
    apply fgt_zero_not_fle in Hgt. congruence. }
  destruct (fgt quantity fzero) eqn:Hq; simpl.
  2:{ split; [exact Hsl |]. exists []. rewrite app_nil_r.
      split; [reflexivity |]. split; [| intros e []].
      split; [intros [] | intros (H & _); discriminate]. }
  destruct (stop_loss_prices st !! symbol) as [stop |] eqn:Hstop.
  2:{ split; [exact Hsl |]. exists []. rewrite app_nil_r.
      split; [reflexivity |]. split; [| intros e []].
      split; [intros [] | intros (_ & _ & stop & Hs & _); discriminate]. }
  destruct (fle price stop) eqn:Hle.
  2:{ split; [exact Hsl |]. exists []. rewrite app_nil_r.
      split; [reflexivity |]. split; [| intros e []].
      split; [intros [] |]. intros (_ & _ & stop' & [= <-] & H). congruence. }
  pose proof (place_order_ledger st1 env symbol "SELL" (fabs quantity) true) as Hpo.
  pose proof (place_order_events st1 env symbol "SELL" (fabs quantity) true) as Hev.
  destruct (place_order st1 env symbol "SELL" (fabs quantity) true)
    as [[ok st2] events].
  simpl in Hpo, Hev. destruct Hpo as (_ & _ & _ & _ & Hsell).
  destruct (Hsell eq_refl) as [_ Hsl2].
  split; [congruence |].
  exists events. split; [reflexivity |]. split.
  - split.
    + intros _. split; [reflexivity |].
      split; [apply (fle_zero_fgt price stop Hle); exact Hle0 |].
      exists stop. auto.
    + intros _. destruct Hev as [-> | [o ->]]; left; reflexivity.
  - intros e He. destruct Hev as [-> | [o ->]]; simpl in He.
    + destruct He as [<- | []]. left; reflexivity.
    + destruct He as [<- | [<- | []]]; [left; reflexivity | right; eexists; reflexivity].
Qed.

Lemma monitor_loop_calls env (ps : list (string * pyfloat)) :
  forall st trace symbol action q,
    In (PlaceOrderCall symbol action q)
       (snd (fold_left (monitor_step env) ps (st, trace))) ->
    In (PlaceOrderCall symbol action q) trace
    \/ (action = "SELL"
        /\ exists quantity stop,
             In (symbol, quantity) ps
             /\ fgt quantity fzero = true
             /\ q = fabs quantity
             /\ stop_loss_prices st !! symbol = Some stop).
Proof.
  induction ps as [| [s qty] ps IH]; intros st trace symbol action q Hin;
    [left; exact Hin |].
  cbn [fold_left] in Hin.
  pose proof (monitor_step_spec env st trace s qty) as Hstep.
  destruct (monitor_step env (st, trace) (s, qty)) as [st1 trace1].
  cbv zeta in Hstep. destruct Hstep as (Hsl & events & -> & Hiff & Hshape).
  destruct (IH st1 (trace ++ events) symbol action q Hin) as [H | H].
  - apply in_app_or in H. destruct H as [H | H]; [left; exact H | right].
    destruct (Hshape _ H) as [Heq | [o Heq]]; [| discriminate Heq].
    injection Heq as -> -> ->.
    apply Hiff in H. destruct H as (Hq & _ & stop & Hstop & _).
    split; [reflexivity |]. exists qty, stop.
    split; [left; reflexivity | auto].
  - right. destruct H as (Ha & quantity & stop & Hps & Hq & Hfabs & Hstop).
    split; [exact Ha |]. exists quantity, stop.
    split; [right; exact Hps |]. rewrite <- Hsl. auto.
Qed.

(** C5, as amended.  For one position the monitor calls [place_order] with a
    SELL of [abs(quantity)] exactly when [quantity > 0], the price obtained is
    positive, a stop-loss price is stored for the symbol and the price is at
    most that stop.  Over the whole pass, every order requested is such a
    SELL for a long position of the portfolio with a stored stop: positions
    without a stored stop and short positions are never closed by it. *)
Theorem monitor_stop_loss :
  (forall env st trace symbol quantity,
      let price := fst (get_latest_price st env symbol true) in
      exists events,
        snd (monitor_step env (st, trace) (symbol, quantity)) = trace ++ events
        /\ (In (PlaceOrderCall symbol "SELL" (fabs quantity)) events <->
            fgt quantity fzero = true
            /\ fgt price fzero = true
            /\ exists stop,
                 stop_loss_prices st !! symbol = Some stop
                 /\ fle price stop = true)
        /\ (forall e, In e events ->
              e = PlaceOrderCall symbol "SELL" (fabs quantity)
              \/ exists o, e = Submitted symbol o))
  /\ (forall st env symbol action q,
      In (PlaceOrderCall symbol action q) (snd (monitor_positions st env)) ->
      action = "SELL"
      /\ exists pf quantity stop,
           portfolio env = Some pf
           /\ In (symbol, quantity) (positions_of pf)
           /\ fgt quantity fzero = true
           /\ q = fabs quantity
           /\ stop_loss_prices st !! symbol = Some stop).
Proof.
  split.
  - intros env st trace symbol quantity price.
    pose proof (monitor_step_spec env st trace symbol quantity) as H.
    destruct (monitor_step env (st, trace) (symbol, quantity)) as [st' trace'].
    cbv zeta in H. destruct H as (_ & events & Htr & Hiff & Hshape).
    exists events. split; [exact Htr | split; [exact Hiff | exact Hshape]].
  - intros st env symbol action q. unfold monitor_positions, get_current_positions.
    destruct (portfolio env) as [pf |]; [| intros []].
    destruct (positions_of pf) as [| p ps] eqn:Hps; [intros [] |].
    intros Hin. apply monitor_loop_calls in Hin.
    destruct Hin as [[] | (Ha & quantity & stop & Hin & Hq & Hf & Hs)].
    split; [exact Ha |]. exists pf, quantity, stop. rewrite Hps. auto.
Qed.

End ExitFacts.

Module PriceFacts.
Import Engine OrderFacts.

Lemma Qlt_bool_iff (x y : Q) : Qlt_bool x y = true <-> (x < y)%Q.
Proof.
  unfold Qlt_bool. rewrite negb_true_iff. split.
  - intros H. apply Qnot_le_lt. intros Hle. apply Qle_bool_iff in Hle. congruence.
  - intros H. apply not_true_is_false. intros Hle. apply Qle_bool_iff in Hle.
    exact (Qlt_not_le _ _ H Hle).
Qed.

Lemma fmid_pos a b :
  fgt a fzero = true -> fgt b fzero = true -> fgt (fmid a b) fzero = true.
Proof.
  destruct a as [x |], b as [y |]; simpl; try discriminate.
  rewrite !Qlt_bool_iff. intros Hx Hy.
  apply Qlt_shift_div_l; [reflexivity |].
  rewrite Qmult_0_l. rewrite <- (Qplus_0_l 0). apply Qplus_lt_le_compat.
  - exact Hx.
  - apply Qlt_le_weak. exact Hy.
Qed.

Lemma fle_not_fgt a : is_nan a = false -> fle a fzero = negb (fgt a fzero).
Proof.
  destruct a as [x |]; simpl; [| discriminate].
  intros _. unfold Qlt_bool. rewrite negb_involutive. reflexivity.
Qed.

Lemma ticker_price_chain t :
  is_nan (last t) = false -> is_nan (close t) = false ->
  (if fgt (ticker_price t) fzero then Some (ticker_price t) else None) =
    if fgt (last t) fzero then Some (last t)
    else if fgt (close t) fzero then Some (close t)
    else if fgt (bid t) fzero && fgt (ask t) fzero
         then Some (fmid (bid t) (ask t))
         else None.
Proof.
  intros Hl Hc. unfold ticker_price. cbv zeta.
  rewrite (fle_not_fgt _ Hl).
  destruct (fgt (last t) fzero) eqn:Hlast; cbn [negb].
  - rewrite (fle_not_fgt _ Hl), Hlast. cbn [negb andb]. rewrite Hlast.
    reflexivity.
  - rewrite (fle_not_fgt _ Hc).
    destruct (fgt (close t) fzero) eqn:Hclose; cbn [negb andb].
    + rewrite Hclose. reflexivity.
    + destruct (fgt (bid t) fzero) eqn:Hb, (fgt (ask t) fzero) eqn:Ha;
        cbn [andb]; rewrite ?Hclose; try reflexivity.
      rewrite (fmid_pos _ _ Hb Ha). reflexivity.
Qed.

(** C8, as amended.  On a cache miss, with live last and close that are
    numbers, [get_latest_price] returns the first positive of: last, close,
    the midpoint of bid and ask (both positive); failing these, or when the
    live query raises, the last daily close of yfinance as it comes, or 0
    when there is none.  On a cache hit it returns the cached price and asks
    nobody.  When the price it returns is at most 0, [place_order] returns
    false and hands no order to the broker. *)
Theorem get_latest_price_fallback :
  (forall st env symbol t,
      price_cache st !! cache_key env symbol = None ->
      reqMktData env symbol = Some t ->
      is_nan (last t) = false -> is_nan (close t) = false ->
      fst (get_latest_price st env symbol true) =
        if fgt (last t) fzero then last t
        else if fgt (close t) fzero then close t
        else if fgt (bid t) fzero && fgt (ask t) fzero
             then fmid (bid t) (ask t)
             else match yf_last_close env symbol with
                  | Some price => price
                  | None => fzero
                  end)
  /\ (forall st env symbol,
      price_cache st !! cache_key env symbol = None ->
      reqMktData env symbol = None ->
      fst (get_latest_price st env symbol true) =
        match yf_last_close env symbol with
        | Some price => price
        | None => fzero
        end)
  /\ (forall st env symbol cached,
      price_cache st !! cache_key env symbol = Some cached ->
      get_latest_price st env symbol true = (cached, st))
  /\ (forall st env symbol action quantity use_limit_price,
      fle (fst (get_latest_price st env symbol true)) fzero = true ->
      let '(ok, _, events) :=
        place_order st env symbol action quantity use_limit_price in
      ok = false /\ events = [PlaceOrderCall symbol action quantity]).
Proof.
  split; [| split; [| split]].
  - intros st env symbol t Hmiss Ht Hl Hc. unfold get_latest_price.
    rewrite Hmiss, Ht. rewrite (ticker_price_chain t Hl Hc).
    destruct (fgt (last t) fzero); [reflexivity |].
    destruct (fgt (close t) fzero); [reflexivity |].
    destruct (fgt (bid t) fzero && fgt (ask t) fzero); [reflexivity |].
    destruct (yf_last_close env symbol); reflexivity.
  - intros st env symbol Hmiss Ht. unfold get_latest_price.
    rewrite Hmiss, Ht. destruct (yf_last_close env symbol); reflexivity.
  - intros st env symbol cached Hhit. unfold get_latest_price.
    rewrite Hhit. reflexivity.
  - intros st env symbol action quantity use_limit_price Hle.
    unfold place_order.
    destruct (is_nan quantity || fle quantity fzero); [split; reflexivity |].
    destruct (to_int quantity) as [q |]; [| split; reflexivity].
    destruct (q <=? 0)%Z; [split; reflexivity |].
    destruct (negb (qualifyContracts env symbol)); [split; reflexivity |].
    destruct (get_latest_price st env symbol true) as [current_price st1].
    simpl in Hle. rewrite Hle. split; reflexivity.
Qed.

End PriceFacts.

Module CycleFacts.
Import Engine OrderFacts.

Lemma capital_per_stock_nonempty c (stocks : list string) :
  stocks <> [] ->
  capital_per_stock (Fin c) stocks =
    Fin (c / inject_Z (Z.of_nat (Nat.max (length stocks) 1))).
Proof.
  intros Hne. unfold capital_per_stock, fdiv, of_nat, of_Z.
  destruct stocks as [| s rest]; [congruence |].
  replace (Qeq_bool (inject_Z (Z.of_nat (Nat.max (length (s :: rest)) 1))) 0)
    with false; [reflexivity |].
  symmetry. apply not_true_is_false. intros H. apply Qeq_bool_iff in H.
  unfold Qeq, inject_Z in H. simpl in H. lia.
Qed.

(** C7, as amended.  With trading permitted and a positive net liquidation
    [nl], [execute_trades] runs the long loop with nl x 0.3 x 0.5 /
    max(count of longs, 1) per symbol and the short loop with nl x 0.3 x 0.5 /
    max(count of shorts, 1) per symbol.  With a net liquidation of at most 0
    it submits nothing and leaves the state as [get_current_positions] left
    it: the positions are the broker's, everything else is untouched. *)
Theorem execute_trades_allocation :
  (forall st env long_stocks short_stocks account_summary nl,
      can_trade_now env = true ->
      (long_stocks <> [] \/ short_stocks <> []) ->
      accountSummary env = Some account_summary ->
      net_liquidation_of account_summary = Fin nl ->
      fle (Fin nl) fzero = false ->
      let long_capital := (nl * (3 # 10) * (1 # 2))%Q in
      let short_capital := (nl * (3 # 10) * (1 # 2))%Q in
      let per_long :=
        Fin (long_capital
             / inject_Z (Z.of_nat (Nat.max (length long_stocks) 1))) in
      let per_short :=
        Fin (short_capital
             / inject_Z (Z.of_nat (Nat.max (length short_stocks) 1))) in
      let use_limit_order := negb (is_regular_hours env) in
      execute_trades st env long_stocks short_stocks =
        fold_left
          (entry_step env "SELL" (fun q => flt q fzero) per_short
             use_limit_order)
          short_stocks
          (fold_left
             (entry_step env "BUY" (fun q => fgt q fzero) per_long
                use_limit_order)
             long_stocks
             (load_trade_history (snd (get_current_positions st env)) env, [])))
  /\ (forall st env long_stocks short_stocks account_summary,
      can_trade_now env = true ->
      accountSummary env = Some account_summary ->
      fle (net_liquidation_of account_summary) fzero = true ->
      execute_trades st env long_stocks short_stocks =
        (snd (get_current_positions st env), [])).
Proof.
  split.
  - intros st env longs shorts summary nl Hopen Hne Hsum Hnl Hpos.
    cbv zeta. unfold execute_trades. rewrite Hopen, Hsum, Hnl, Hpos. simpl negb.
    cbv iota.
    unfold long_capital, short_capital, total_capital, capital_ratio,
      long_allocation_ratio, short_allocation_ratio. cbn [fmul].
    destruct longs as [| l ls], shorts as [| s ss].
    + destruct Hne; congruence.
    + rewrite (capital_per_stock_nonempty _ (s :: ss)) by discriminate.
      reflexivity.
    + rewrite (capital_per_stock_nonempty _ (l :: ls)) by discriminate.
      reflexivity.
    + rewrite (capital_per_stock_nonempty _ (s :: ss)) by discriminate.
      rewrite (capital_per_stock_nonempty _ (l :: ls)) by discriminate.
      reflexivity.
  - intros st env longs shorts summary Hopen Hsum Hle.
    unfold execute_trades. rewrite Hopen, Hsum, Hle. simpl.
    destruct longs, shorts; reflexivity.
Qed.

Lemma print_stock_selection_ledger st env longs shorts :
  same_ledger st (print_stock_selection st env longs shorts).
Proof.
  unfold print_stock_selection. generalize (longs ++ shorts) as l.
  intros l. revert st. induction l as [| s l IH]; intros st; simpl.
  - apply same_ledger_refl.
  - eapply same_ledger_trans; [| apply IH].
    apply get_latest_price_ledger.
Qed.

(** C6, as amended.  When trading is not permitted, [execute_trades] submits
    nothing and changes nothing; the cycle then consists of the stop-loss
    pass and the holding-period pass, whose orders are the cycle's orders. *)
Theorem execute_trades_closed_market :
  (forall st env long_stocks short_stocks,
      can_trade_now env = false ->
      execute_trades st env long_stocks short_stocks = (st, []))
  /\ (forall sort_values pre_return top_quintile st env,
      can_trade_now env = false ->
      earnings_data_loaded env = true ->
      exists st1,
        same_ledger st st1
        /\ run sort_values pre_return top_quintile st env =
             (true,
              fst (check_exit_positions (fst (monitor_positions st1 env)) env),
              snd (monitor_positions st1 env)
              ++ snd (check_exit_positions
                        (fst (monitor_positions st1 env)) env))).
Proof.
  split.
  - intros st env longs shorts Hclosed. unfold execute_trades.
    rewrite Hclosed. reflexivity.
  - intros sort_values pre_return top_quintile st env Hclosed Hloaded.
    unfold run. rewrite Hloaded. simpl negb. cbv iota.
    destruct (Selection.select_stocks sort_values pre_return top_quintile)
      as [longs shorts].
    match goal with
    | |- context [execute_trades ?s env longs shorts] => set (st1 := s)
    end.
    exists st1. split.
    + subst st1.
      destruct (Selection.returns_frame sort_values pre_return top_quintile)
        as [f |]; [| apply same_ledger_refl].
      destruct (Selection.prints_selection f); [| apply same_ledger_refl].
      apply print_stock_selection_ledger.
    + unfold execute_trades. rewrite Hclosed. simpl negb. cbv iota.
      destruct (monitor_positions st1 env) as [st2 t2]. cbn [fst snd].
      destruct (check_exit_positions st2 env) as [st3 t3]. reflexivity.
Qed.

End CycleFacts.

(** ** Worked cases *)

Module Examples.
Import Engine Samples OrderFacts LedgerFacts EntryFacts ExitFacts PriceFacts
  CycleFacts.

(** C4, counterexample: a fill of 10 reported with an average fill price of 0
    stores the stop at 90 x 0.95, not at 0 x 0.95. *)
Lemma place_order_stop_not_from_avg_fill :
  let '(ok, st', events) :=
    place_order fresh zero_avg_env "AAA" "BUY" (Fin 10) true in
  ok = true
  /\ (forall o polls,
        placeOrder zero_avg_env "AAA" o = Some polls ->
        filled (wait_for_status polls 0 10) = Fin 10
        /\ avgFillPrice (wait_for_status polls 0 10) = Fin 0)
  /\ stop_loss_prices st' !! "AAA" =
       Some (fmul (Fin 90) (fsub (Fin 1) (Fin (5 # 100))))
  /\ ~ (90 * (1 - (5 # 100)) == 0 * (1 - (5 # 100)))%Q.
Proof.
  vm_compute. split; [reflexivity |]. split; [| split; [reflexivity |]].
  - intros o polls H. injection H as <-. split; reflexivity.
  - intros H. discriminate H.
Qed.

(** C5, counterexample: a long position with a stored stop of 95 and a current
    price of 0 (no source answered) is not closed, although 0 <= 95. *)
Lemma monitor_skips_unpriced_position :
  fst (get_latest_price (holding (Fin 0)) no_price_env "AAA" true) = fzero
  /\ fgt (Fin 10) fzero = true
  /\ stop_loss_prices (holding (Fin 0)) !! "AAA" = Some (Fin 95)
  /\ fle fzero (Fin 95) = true
  /\ snd (monitor_step no_price_env (holding (Fin 0), []) ("AAA", Fin 10)) = [].
Proof. vm_compute. repeat split. Qed.

(** C5 at a long position of 10 AAA quoted at 90 with a stop at 95. *)
Lemma monitor_stop_loss_witness :
  In (PlaceOrderCall "AAA" "SELL" (Fin 10))
     (snd (monitor_positions (holding (Fin 0)) open_env))
  /\ "SELL" = "SELL"
  /\ exists pf quantity stop,
       portfolio open_env = Some pf
       /\ In ("AAA", quantity) (positions_of pf)
       /\ fgt quantity fzero = true
       /\ Fin 10 = fabs quantity
       /\ stop_loss_prices (holding (Fin 0)) !! "AAA" = Some stop.
Proof.
  assert (Hin : In (PlaceOrderCall "AAA" "SELL" (Fin 10))
                  (snd (monitor_positions (holding (Fin 0)) open_env))).
  { vm_compute. left. reflexivity. }
  split; [exact Hin |].
  exact (proj2 monitor_stop_loss (holding (Fin 0)) open_env "AAA" "SELL"
           (Fin 10) Hin).
Defined.

(** C6, counterexample: on a Saturday the cycle still hands a closing SELL to
    the broker. *)
Lemma run_submits_exit_when_closed :
  can_trade_now closed_env = false
  /\ snd (run Selection.insertion_sort (fun _ => None) None
            (holding (Fin 0)) closed_env) =
       [PlaceOrderCall "AAA" "SELL" (Fin 10);
        Submitted "AAA"
          (mkOrder "SELL" 10
             (Some (round2 (fmul (Fin 90) (Fin (99 # 100))))) true "DAY")].
Proof. split; vm_compute; reflexivity. Qed.

(** C6 on a Saturday: the entry step does nothing. *)
Lemma execute_trades_closed_market_witness :
  can_trade_now closed_env = false
  /\ execute_trades fresh closed_env ["BBB"] ["CCC"] = (fresh, []).
Proof.
  assert (Hclosed : can_trade_now closed_env = false) by reflexivity.
  split; [exact Hclosed |].
  exact (proj1 execute_trades_closed_market fresh closed_env ["BBB"] ["CCC"]
           Hclosed).
Defined.

(** C7, counterexample: without net liquidation no order goes out, but the
    positions have been replaced by the broker's. *)
Lemma execute_trades_refreshes_positions_without_funds :
  fle (net_liquidation_of []) fzero = true
  /\ positions fresh = []
  /\ snd (execute_trades fresh no_funds_env ["BBB"] []) = []
  /\ positions (fst (execute_trades fresh no_funds_env ["BBB"] [])) =
       [("AAA", Fin 10)].
Proof. vm_compute. repeat split. Qed.

(** C7 with an empty account summary. *)
Lemma execute_trades_allocation_witness :
  can_trade_now no_funds_env = true
  /\ accountSummary no_funds_env = Some []
  /\ fle (net_liquidation_of []) fzero = true
  /\ execute_trades fresh no_funds_env ["BBB"] [] =
       (snd (get_current_positions fresh no_funds_env), []).
Proof.
  assert (Hopen : can_trade_now no_funds_env = true) by reflexivity.
  assert (Hsum : accountSummary no_funds_env = Some []) by reflexivity.
  assert (Hle : fle (net_liquidation_of []) fzero = true) by reflexivity.
  split; [exact Hopen | split; [exact Hsum | split; [exact Hle |]]].
  exact (proj2 execute_trades_allocation fresh no_funds_env ["BBB"] [] []
           Hopen Hsum Hle).
Defined.

(** C8, counterexample: with 5 cached for the hour, the live last price of 90
    is not looked at. *)
Lemma get_latest_price_cache_hit :
  reqMktData open_env "AAA" = Some (mkTicker (Fin 90) (Fin 91) (Fin 89) (Fin 92))
  /\ fgt (Fin 90) fzero = true
  /\ get_latest_price cached open_env "AAA" true = (Fin 5, cached).
Proof. vm_compute. repeat split. Qed.

(** C8 on a cache miss with a live last price of 90. *)
Lemma get_latest_price_fallback_witness :
  price_cache fresh !! cache_key open_env "AAA" = None
  /\ reqMktData open_env "AAA" =
       Some (mkTicker (Fin 90) (Fin 91) (Fin 89) (Fin 92))
  /\ fst (get_latest_price fresh open_env "AAA" true) = Fin 90.
Proof.
  assert (Hmiss : price_cache fresh !! cache_key open_env "AAA" = None)
    by reflexivity.
  assert (Ht : reqMktData open_env "AAA" =
                 Some (mkTicker (Fin 90) (Fin 91) (Fin 89) (Fin 92)))
    by reflexivity.
  split; [exact Hmiss | split; [exact Ht |]].
  exact (proj1 get_latest_price_fallback fresh open_env "AAA" _ Hmiss Ht
           eq_refl eq_refl).
Defined.

(** C9 at yesterday's BUY of AAA. *)
Lemma is_traded_today_spec_witness :
  is_traded_today (set_trade_history fresh (Some [yesterday_buy])) open_env
    "AAA" (Some "BUY") = false.
Proof.
  refine (proj2 (is_traded_today_spec
                   (set_trade_history fresh (Some [yesterday_buy])) open_env
                   "AAA" (Some "BUY")) [yesterday_buy] eq_refl _).
  intros t [<- | []] _. discriminate.
Defined.

(** C10 at 1000 seconds after a buy of AAA. *)
Lemma short_entry_cooldown_witness :
  can_buy_again (holding (Fin 999000)) open_env "AAA" = false
  /\ entry_step open_env "SELL" (fun q => flt q fzero) (Fin 15000) false
       (holding (Fin 999000), []) "AAA" = (holding (Fin 999000), []).
Proof.
  assert (Hcd : can_buy_again (holding (Fin 999000)) open_env "AAA" = false)
    by reflexivity.
  split; [exact Hcd |].
  exact (proj1 short_entry_cooldown open_env (Fin 15000) false
           (holding (Fin 999000)) [] "AAA" Hcd).
Defined.

End Examples.

(** ** Sessions *)

Module SessionFacts.
Import Engine.

Lemma date_eqb_eq a b : date_eqb a b = true <-> a = b.
Proof.
  destruct a as [[y1 m1] d1], b as [[y2 m2] d2]. unfold date_eqb.
  rewrite !andb_true_iff, !Nat.eqb_eq. split.
  - intros [[-> ->] ->]. reflexivity.
  - intros [= -> -> ->]. auto.
Qed.

Lemma is_trading_day_spec date weekday :
  is_trading_day date weekday = true <->
  (weekday < 5)%nat /\ ~ In date us_holidays_2025.
Proof.
  unfold is_trading_day.
  destruct (5 <=? weekday)%nat eqn:Hw.
  - apply Nat.leb_le in Hw. split; [discriminate | intros [H _]; lia].
  - apply Nat.leb_gt in Hw.
    destruct (existsb (date_eqb date) us_holidays_2025) eqn:Hh.
    + split; [discriminate |]. intros [_ Hn]. exfalso. apply Hn.
      apply existsb_exists in Hh. destruct Hh as (d & Hd & Heq).
      apply date_eqb_eq in Heq. subst. exact Hd.
    + split; [| reflexivity]. intros _. split; [exact Hw |].
      intros Hin. assert (Ht : existsb (date_eqb date) us_holidays_2025 = true).
      { apply existsb_exists. exists date. split; [exact Hin |].
        apply date_eqb_eq. reflexivity. }
      congruence.
Qed.

Lemma session_windows (t : Z) :
  (if (time_of 4 0 <=? t)%Z && (t <? time_of 9 30)%Z then true
   else if (time_of 9 30 <=? t)%Z && (t <? time_of 16 0)%Z then true
   else if (time_of 16 0 <=? t)%Z && (t <? time_of 20 0)%Z then true
   else false)
  = (time_of 4 0 <=? t)%Z && (t <? time_of 20 0)%Z.
Proof.
  unfold time_of.
  destruct (Z.leb_spec ((4 * 60 + 0) * 60 * 1000000) t),
           (Z.ltb_spec t ((9 * 60 + 30) * 60 * 1000000)),
           (Z.leb_spec ((9 * 60 + 30) * 60 * 1000000) t),
           (Z.ltb_spec t ((16 * 60 + 0) * 60 * 1000000)),
           (Z.leb_spec ((16 * 60 + 0) * 60 * 1000000) t),
           (Z.ltb_spec t ((20 * 60 + 0) * 60 * 1000000));
    simpl; try reflexivity; lia.
Qed.

(** X1 ([can_trade_now], [is_trading_day]).  Trading is permitted exactly on
    a weekday that is not one of the listed holidays, from 4:00 (included) to
    20:00 (excluded): the three session windows leave no gap between them.
    In particular the regular hours of a non-holiday, as [place_order] and
    [execute_trades] test them, always lie inside a permitted session. *)
Theorem can_trade_now_window :
  (forall env,
      can_trade_now env = true <->
      (now_weekday env < 5)%nat
      /\ ~ In (now_date env) us_holidays_2025
      /\ (time_of 4 0 <= now_time env < time_of 20 0)%Z)
  /\ (forall env,
      is_regular_hours env = true ->
      ~ In (now_date env) us_holidays_2025 ->
      can_trade_now env = true).
Proof.
  assert (Hiff : forall env,
      can_trade_now env = true <->
      (now_weekday env < 5)%nat
      /\ ~ In (now_date env) us_holidays_2025
      /\ (time_of 4 0 <= now_time env < time_of 20 0)%Z).
  { intros env. unfold can_trade_now.
    pose proof (is_trading_day_spec (now_date env) (now_weekday env)) as Hd.
    rewrite (session_windows (now_time env)).
    destruct (is_trading_day (now_date env) (now_weekday env)); simpl.
    - destruct (proj1 Hd eq_refl) as [Hw Hh].
      rewrite andb_true_iff, Z.leb_le, Z.ltb_lt.
      split; [intros H; split; [exact Hw | split; [exact Hh | exact H]] |].
      intros (_ & _ & H). exact H.
    - split; [discriminate |]. intros (Hw & Hh & _).
      assert (Ht : false = true) by (apply Hd; auto). discriminate. }
  split; [exact Hiff |].
  intros env Hreg Hh. apply Hiff. unfold is_regular_hours in Hreg.
  rewrite !andb_true_iff in Hreg. destruct Hreg as [[H1 H2] H3].
  apply Z.leb_le in H1, H2. apply Nat.ltb_lt in H3. unfold time_of in *.
  repeat split; try assumption; lia.
Qed.

(** X2 ([is_trading_day]).  The holiday list only has dates of 2025: in any
    other year every weekday counts as a trading day, whatever the date. *)
Theorem holidays_only_2025 (year month day weekday : nat) :
  year <> 2025%nat -> (weekday < 5)%nat ->
  is_trading_day (year, month, day) weekday = true.
Proof.
  intros Hy Hw. apply is_trading_day_spec. split; [exact Hw |].
  unfold us_holidays_2025. simpl.
  intros H. repeat (destruct H as [H | H]; [injection H as H _ _; congruence |]).
  exact H.
Qed.

End SessionFacts.

(** ** The order executor *)

Module ExecutorFacts.
Import Engine Views OrderFacts.


(** Every run of [place_order] is of one of two kinds: it stops before the
    broker, or it hands over exactly the order [order_for] describes. *)
Lemma place_order_inv st env symbol action quantity use_limit_price :
  (exists st1,
      place_order st env symbol action quantity use_limit_price =
        (false, st1, [PlaceOrderCall symbol action quantity])
      /\ same_ledger st st1
      /\ (st1 = st \/ st1 = snd (get_latest_price st env symbol true)))
  \/ (exists q polls,
      let current_price := fst (get_latest_price st env symbol true) in
      let st1 := snd (get_latest_price st env symbol true) in
      let order := order_for env action q current_price use_limit_price in
      let os := wait_for_status polls 0 10 in
      is_nan quantity = false
      /\ fle quantity fzero = false
      /\ to_int quantity = Some q /\ (0 < q)%Z
      /\ qualifyContracts env symbol = true
      /\ fle current_price fzero = false
      /\ placeOrder env symbol order = Some polls
      /\ place_order st env symbol action quantity use_limit_price =
           (String.eqb (status os) "Filled" || fgt (filled os) fzero,
            settled st1 env symbol action current_price os,
            [PlaceOrderCall symbol action quantity; Submitted symbol order])).
Proof.
  unfold place_order.
  destruct (is_nan quantity) eqn:Hnan; cbn [orb].
  { left. exists st. split; [reflexivity | split; [apply same_ledger_refl | auto]]. }
  destruct (fle quantity fzero) eqn:Hq0.
  { left. exists st. split; [reflexivity | split; [apply same_ledger_refl | auto]]. }
  destruct (to_int quantity) as [q |] eqn:Hint.
  2:{ left. exists st. split; [reflexivity | split; [apply same_ledger_refl | auto]]. }
  destruct (Z.leb_spec q 0) as [Hq | Hq].
  { left. exists st. split; [reflexivity | split; [apply same_ledger_refl | auto]]. }
  destruct (qualifyContracts env symbol) eqn:Hqual; cbn [negb].
  2:{ left. exists st. split; [reflexivity | split; [apply same_ledger_refl | auto]]. }
  pose proof (get_latest_price_ledger st env symbol true) as Hl.
  destruct (get_latest_price st env symbol true) as [current_price st1] eqn:Hp.
  simpl in Hl.
  destruct (fle current_price fzero) eqn:Hle.
  { left. exists st1. split; [reflexivity | split; [exact Hl | auto]]. }
  assert (Hord :
    (if use_limit_price || negb (is_regular_hours env)
     then mkOrder action q
            (Some (if String.eqb action "BUY"
                   then round2 (fmul current_price (Fin (101 # 100)))
                   else round2 (fmul current_price (Fin (99 # 100)))))
            true "DAY"
     else mkOrder action q None true "DAY")
    = order_for env action q current_price use_limit_price).
  { unfold order_for. destruct (use_limit_price || negb (is_regular_hours env));
      [| reflexivity]. destruct (String.eqb action "BUY"); reflexivity. }
  cbv zeta. rewrite Hord.
  destruct (placeOrder env symbol
              (order_for env action q current_price use_limit_price))
    as [polls |] eqn:Hplace.
  2:{ left. exists st1. split; [reflexivity | split; [exact Hl | auto]]. }
  right. exists q, polls. cbv zeta. unfold fst, snd.
  split; [reflexivity |]. split; [reflexivity |].
  split; [reflexivity |]. split; [exact Hq |].
  split; [reflexivity |]. split; [exact Hle |].
  split; [exact Hplace |].
  unfold settled.
  generalize (wait_for_status polls 0 10) as os. intros os.
  destruct (String.eqb (status os) "Filled"), (fgt (filled os) fzero);
    reflexivity.
Qed.

(** X3 ([place_order]).  A call that returns true has handed exactly one
    order to the broker.  Any order handed over is for the symbol of the
    call, which the broker qualified, with the action of the call and the
    quantity [int(quantity)], at least 1; the reference price was not <= 0;
    the order allows execution outside regular hours and is good for the
    day. *)
Theorem place_order_submitted_order st env symbol action quantity
    use_limit_price :
  let '(ok, _, events) :=
    place_order st env symbol action quantity use_limit_price in
  (ok = true -> exists o, events = [PlaceOrderCall symbol action quantity;
                                    Submitted symbol o])
  /\ (forall s o, In (Submitted s o) events ->
        s = symbol
        /\ qualifyContracts env symbol = true
        /\ exists q,
             to_int quantity = Some q /\ (0 < q)%Z
             /\ fle (fst (get_latest_price st env symbol true)) fzero = false
             /\ o = order_for env action q
                      (fst (get_latest_price st env symbol true))
                      use_limit_price
             /\ o_action o = action /\ o_quantity o = q
             /\ o_outsideRth o = true /\ o_tif o = "DAY").
Proof.
  destruct (place_order_inv st env symbol action quantity use_limit_price)
    as [(st1 & -> & _) | (q & polls & Hinv)].
  - split; [discriminate |]. intros s o Hin. simpl in Hin.
    destruct Hin as [H | H]; [discriminate H | destruct H].
  - cbv zeta in Hinv.
    destruct Hinv as (_ & _ & Hint & Hq & Hqual & Hle & _ & ->).
    split; [intros _; eexists; reflexivity |].
    intros s o [H | [H | []]]; [discriminate H |]. injection H as <- <-.
    split; [reflexivity | split; [exact Hqual |]]. exists q.
    repeat (split; [first [reflexivity | assumption] |]).
    unfold order_for.
    destruct (use_limit_price || negb (is_regular_hours env)); repeat split.
Qed.

Lemma wait_for_status_spec polls n i0 :
  exists i,
    (i0 < i \/ (n = 0 /\ i = i0))%nat /\ (i <= i0 + n)%nat
    /\ wait_for_status polls i0 n = polls i
    /\ (forall j, (i0 < j < i)%nat ->
          terminal_status (status (polls j)) = false)
    /\ ((i < i0 + n)%nat -> terminal_status (status (polls i)) = true).
Proof.
  revert i0. induction n as [| n IH]; intros i0; simpl.
  - exists i0. split; [right; auto |]. repeat split; lia.
  - destruct (terminal_status (status (polls (S i0)))) eqn:Ht.
    + exists (S i0). split; [left; lia |]. repeat split; try lia; auto.
    + destruct (IH (S i0)) as (i & Hlo & Hhi & Heq & Hbefore & Hterm).
      exists i. split; [left; lia |]. split; [lia |]. split; [exact Heq |].
      split.
      * intros j Hj. destruct (Nat.eq_dec j (S i0)) as [-> | Hne];
          [exact Ht | apply Hbefore; lia].
      * intros Hlt. apply Hterm. lia.
Qed.

(** X4 ([place_order], lines 1120-1126).  The status [place_order] acts on
    is the one seen after some 1 to 10 seconds of waiting: the first one
    that is Filled, Cancelled, ApiCancelled or Inactive, or the one seen
    after the tenth second when none was before. *)
Theorem wait_for_status_first_terminal (polls : nat -> OrderStatus) :
  exists i,
    (1 <= i <= 10)%nat
    /\ wait_for_status polls 0 10 = polls i
    /\ (forall j, (1 <= j < i)%nat ->
          terminal_status (status (polls j)) = false)
    /\ ((i < 10)%nat -> terminal_status (status (polls i)) = true).
Proof.
  destruct (wait_for_status_spec polls 10 0)
    as (i & Hlo & Hhi & Heq & Hbefore & Hterm).
  exists i. split; [lia |]. split; [exact Heq |]. split.
  - intros j Hj. apply Hbefore. lia.
  - intros Hlt. apply Hterm. lia.
Qed.

(** X5 ([place_order], [can_buy_again]).  After a BUY whose status shows a
    filled quantity above 0, the buy time of the symbol is the current time,
    and from then on [can_buy_again] answers for that symbol whether
    [cooldown_seconds] have passed since. *)
Theorem buy_fill_starts_cooldown st env symbol quantity use_limit_price :
  let '(_, st', events) :=
    place_order st env symbol "BUY" quantity use_limit_price in
  forall o polls,
    In (Submitted symbol o) events ->
    placeOrder env symbol o = Some polls ->
    fgt (filled (wait_for_status polls 0 10)) fzero = true ->
    last_buy_time st' !! symbol = Some (time_time env)
    /\ forall env',
         can_buy_again st' env' symbol =
           fge (fsub (time_time env') (time_time env)) (cooldown_seconds st).
Proof.
  destruct (place_order_inv st env symbol "BUY" quantity use_limit_price)
    as [(st1 & -> & _) | (q & polls & Hinv)].
  - intros o polls Hin. simpl in Hin.
    destruct Hin as [H | H]; [discriminate H | destruct H].
  - cbv zeta in Hinv.
    destruct Hinv as (_ & _ & _ & _ & _ & _ & Hplace & ->).
    intros o polls' [H | [H | []]]; [discriminate H |]. injection H as <-.
    rewrite Hplace. intros [= <-] Hfilled.
    unfold settled. rewrite Hfilled. simpl andb. cbv iota.
    pose proof (get_latest_price_ledger st env symbol true) as Hl.
    destruct Hl as (_ & _ & _ & Hcd & _).
    assert (Hlook : last_buy_time
              (set_buy_state (snd (get_latest_price st env symbol true))
                 (<[symbol := time_time env]>
                    (last_buy_time (snd (get_latest_price st env symbol true))))
                 (<[symbol :=
                      fmul (if fgt (avgFillPrice (wait_for_status polls 0 10)) fzero
                            then avgFillPrice (wait_for_status polls 0 10)
                            else fst (get_latest_price st env symbol true))
                        (fsub (Fin 1)
                           (stop_loss_percent
                              (snd (get_latest_price st env symbol true))))]>
                    (stop_loss_prices (snd (get_latest_price st env symbol true)))))
              !! symbol = Some (time_time env)).
    { simpl. apply lookup_insert_eq. }
    split; [exact Hlook |].
    intros env'. unfold can_buy_again. rewrite Hlook. simpl. rewrite Hcd.
    reflexivity.
Qed.

Lemma get_latest_price_hit st env symbol use_yfinance price :
  price_cache st !! cache_key env symbol = Some price ->
  get_latest_price st env symbol use_yfinance = (price, st).
Proof. intros H. unfold get_latest_price. rewrite H. reflexivity. Qed.

Lemma get_latest_price_cases st env symbol use_yfinance :
  let '(price, st') := get_latest_price st env symbol use_yfinance in
  price_cache st' !! cache_key env symbol = Some price
  \/ (price_cache st !! cache_key env symbol = None
      /\ price = fzero /\ st' = st).
Proof.
  unfold get_latest_price. cbv zeta.
  destruct (price_cache st !! cache_key env symbol) as [cached |] eqn:Hc.
  { left. exact Hc. }
  destruct (reqMktData env symbol) as [t |].
  - destruct (fgt (ticker_price t) fzero).
    + left. simpl. apply lookup_insert_eq.
    + destruct use_yfinance; [| right; auto].
      destruct (yf_last_close env symbol) as [p |]; [| right; auto].
      left. simpl. apply lookup_insert_eq.
  - destruct use_yfinance; [| right; auto].
    destruct (yf_last_close env symbol) as [p |]; [| right; auto].
    left. simpl. apply lookup_insert_eq.
Qed.

(** X6 ([get_latest_price]).  A price that [get_latest_price] returns is
    either 0 with nothing cached and the state unchanged, or it is cached
    under the symbol and the hour: every later call for that symbol in the
    same hour returns the same price and changes nothing, whatever the
    sources would now answer. *)
Theorem price_cache_sticks st env symbol use_yfinance :
  let '(price, st') := get_latest_price st env symbol use_yfinance in
  (price_cache st' !! cache_key env symbol = Some price
   /\ forall env' use_yfinance',
        hour_str env' = hour_str env ->
        get_latest_price st' env' symbol use_yfinance' = (price, st'))
  \/ (price_cache st !! cache_key env symbol = None
      /\ price = fzero /\ st' = st).
Proof.
  pose proof (get_latest_price_cases st env symbol use_yfinance) as H.
  destruct (get_latest_price st env symbol use_yfinance) as [price st'].
  destruct H as [Hc | H]; [left | right; exact H].
  split; [exact Hc |]. intros env' use_yfinance' Hh.
  apply get_latest_price_hit. unfold cache_key in *. rewrite Hh. exact Hc.
Qed.

End ExecutorFacts.

(** ** The trade history as a ledger *)

Module HistoryFacts.
Import Engine Views.

Lemma existsb_filter {A : Type} (p q : A -> bool) (l : list A) :
  existsb q (List.filter p l) = existsb (fun x => p x && q x) l.
Proof.
  induction l as [| x l IH]; simpl; [reflexivity |].
  destruct (p x); simpl; rewrite IH; reflexivity.
Qed.

Lemma existsb_same {A : Type} (p q : A -> bool) (l : list A) :
  (forall x, p x = q x) -> existsb p l = existsb q l.
Proof.
  intros H. induction l as [| x l IH]; simpl; [reflexivity |].
  rewrite H, IH. reflexivity.
Qed.

Lemma length_filter_existsb {A : Type} (p : A -> bool) (l : list A) :
  (0 <? length (List.filter p l))%nat = existsb p l.
Proof.
  induction l as [| x l IH]; simpl; [reflexivity |].
  destruct (p x); simpl; [reflexivity | exact IH].
Qed.

(** [is_traded_today] is one pass over the history with [matches_today]. *)
Lemma is_traded_today_existsb st env symbol action :
  is_traded_today st env symbol action =
    match trade_history st with
    | Some h => existsb (matches_today env symbol action) h
    | None => false
    end.
Proof.
  unfold is_traded_today. destruct (trade_history st) as [h |]; [| reflexivity].
  destruct h as [| t0 h0]; [reflexivity |].
  set (h := t0 :: h0).
  set (today_trades :=
         List.filter (fun t => String.eqb (t_date t) (today_str env)) h).
  set (symbol_trades :=
         List.filter (fun t => String.eqb (t_symbol t) symbol) today_trades).
  assert (Hsym : forall q, existsb q symbol_trades =
                   existsb (fun t => String.eqb (t_date t) (today_str env)
                                     && (String.eqb (t_symbol t) symbol && q t)) h).
  { intros q. unfold symbol_trades, today_trades.
    rewrite existsb_filter, existsb_filter. reflexivity. }
  assert (Hgoal : existsb (matches_today env symbol action) h =
                  match action with
                  | Some a =>
                      existsb (fun t => String.eqb (t_action t) a) symbol_trades
                  | None => existsb (fun _ => true) symbol_trades
                  end).
  { destruct action as [a |]; rewrite Hsym; apply existsb_same; intros t;
      unfold matches_today; rewrite andb_assoc; reflexivity. }
  rewrite Hgoal.
  destruct today_trades as [| t1 tt] eqn:Htt.
  { unfold symbol_trades. destruct action; reflexivity. }
  destruct symbol_trades as [| s1 ss] eqn:Hss.
  { destruct action; reflexivity. }
  destruct action as [a |]; [| reflexivity].
  apply length_filter_existsb.
Qed.

Lemma record_trade_history st env symbol action quantity price h :
  trade_history st = Some h ->
  trade_history (record_trade st env symbol action quantity price) =
    Some (h ++ [mkTrade (today_str env) (time_str env) symbol action quantity
                  price (fmul (of_Z quantity) price)]).
Proof. intros Hh. unfold record_trade. rewrite Hh. reflexivity. Qed.

(** X7 ([record_trade], [is_traded_today]).  Once the history list exists, a
    trade recorded for a symbol is seen at once by [is_traded_today] for that
    symbol, both with the recorded action and with no action given; the
    answers for every other symbol are unchanged, and no query that answered
    true before answers false afterwards. *)
Theorem record_trade_then_traded_today st env symbol action quantity price h :
  trade_history st = Some h ->
  let st' := record_trade st env symbol action quantity price in
  is_traded_today st' env symbol (Some action) = true
  /\ is_traded_today st' env symbol None = true
  /\ (forall other a,
        other <> symbol ->
        is_traded_today st' env other a = is_traded_today st env other a)
  /\ (forall other a,
        is_traded_today st env other a = true ->
        is_traded_today st' env other a = true).
Proof.
  intros Hh st'.
  pose proof (record_trade_history st env symbol action quantity price h Hh)
    as Hth.
  fold st' in Hth.
  rewrite !is_traded_today_existsb, Hth.
  split; [| split; [| split]].
  - rewrite existsb_app. apply orb_true_iff. right. simpl.
    unfold matches_today. simpl. rewrite !String.eqb_refl. reflexivity.
  - rewrite existsb_app. apply orb_true_iff. right. simpl.
    unfold matches_today. simpl. rewrite !String.eqb_refl. reflexivity.
  - intros other a Hne.
    rewrite !is_traded_today_existsb, Hth, Hh, existsb_app.
    simpl. unfold matches_today at 2. simpl.
    replace (String.eqb symbol other) with false
      by (symmetry; apply String.eqb_neq; congruence).
    rewrite andb_false_r. simpl. rewrite !orb_false_r. reflexivity.
  - intros other a.
    rewrite !is_traded_today_existsb, Hth, Hh, existsb_app.
    intros ->. reflexivity.
Qed.

End HistoryFacts.

(** ** The entry loops *)

Module EntryOrderFacts.
Import Engine Views OrderFacts EntryFacts HistoryFacts ExecutorFacts.

Lemma Qtrunc_inject_Z (z : Z) : Qtrunc (inject_Z z) = z.
Proof.
  unfold Qtrunc. destruct (Qle_bool 0 (inject_Z z));
    [apply Qfloor_Z | apply Qceiling_Z].
Qed.

Lemma to_int_of_Z (z : Z) : to_int (of_Z z) = Some z.
Proof. unfold to_int, of_Z. rewrite Qtrunc_inject_Z. reflexivity. Qed.

(** What a positive whole quantity [int(capital / price)] says about the
    capital and the price: both are numbers, and the quantity lies within one
    share of their quotient. *)
Lemma int_ratio_near cap price ratio q :
  fle price fzero = false ->
  fdiv cap price = Some ratio ->
  to_int ratio = Some q ->
  (0 < q)%Z ->
  exists c p,
    cap = Fin c /\ price = Fin p /\ (0 < p)%Q
    /\ (inject_Z (q - 1) * p < c)%Q
    /\ (c < inject_Z (q + 1) * p)%Q.
Proof.
  intros Hle Hdiv Hint Hq.
  destruct price as [p |]; [| destruct cap; simpl in Hdiv;
    injection Hdiv as <-; discriminate Hint].
  assert (Hp : (0 < p)%Q).
  { simpl in Hle. apply Qnot_le_lt. intros H. apply Qle_bool_iff in H.
    unfold fzero in Hle. congruence. }
  destruct cap as [c |]; simpl in Hdiv.
  2:{ destruct (Qeq_bool p 0); [discriminate |]. injection Hdiv as <-.
      discriminate Hint. }
  destruct (Qeq_bool p 0); [discriminate |]. injection Hdiv as <-.
  simpl in Hint. injection Hint as Hq'.
  exists c, p. split; [reflexivity |]. split; [reflexivity |].
  split; [exact Hp |].
  assert (Hfloor : q = Qfloor (c / p)).
  { unfold Qtrunc in Hq'. destruct (Qle_bool 0 (c / p)) eqn:Hs; [congruence |].
    exfalso.
    assert (Hneg : (c / p < 0)%Q).
    { apply Qnot_le_lt. intros H. apply Qle_bool_iff in H. congruence. }
    assert (Hc : (Qceiling (c / p) <= 0)%Z).
    { change 0%Z with (Qceiling 0). apply Qceiling_resp_le.
      apply Qlt_le_weak. exact Hneg. }
    lia. }
  assert (Hne : ~ (p == 0)%Q).
  { intros H. rewrite H in Hp. apply (Qlt_irrefl 0). exact Hp. }
  assert (Hlo : (inject_Z q * p <= c)%Q).
  { rewrite Hfloor.
    apply Qle_trans with ((c / p) * p)%Q.
    + apply Qmult_le_compat_r; [apply Qfloor_le | apply Qlt_le_weak; exact Hp].
    + rewrite Qmult_comm, Qmult_div_r by exact Hne. apply Qle_refl. }
  split.
  - assert (He : (inject_Z (q - 1) * p == inject_Z q * p - p)%Q).
    { unfold Z.sub. rewrite inject_Z_plus. change (inject_Z (- (1))) with (- (1))%Q.
      ring. }
    rewrite He. lra.
  - rewrite Hfloor.
    apply Qle_lt_trans with ((c / p) * p)%Q.
    + rewrite Qmult_comm, Qmult_div_r by exact Hne. apply Qle_refl.
    + apply Qmult_lt_compat_r; [exact Hp | apply Qlt_floor].
Qed.

(** One round of an entry loop either skips the symbol, leaving the trace and
    everything but the price cache alone, or reaches [place_order] with the
    quantity [int(capital / price)]. *)
Lemma entry_step_inv env action holds cap lim st trace symbol :
  (exists st1,
      entry_step env action holds cap lim (st, trace) symbol = (st1, trace)
      /\ same_ledger st st1
      /\ (st1 = st \/ st1 = snd (get_latest_price st env symbol true)))
  \/ (exists ratio q,
      let price := fst (get_latest_price st env symbol true) in
      let st1 := snd (get_latest_price st env symbol true) in
      let r := place_order st1 env symbol action (of_Z q) lim in
      symbol <> ""
      /\ match dict_get symbol (positions st) with
         | Some x => holds x
         | None => false
         end = false
      /\ is_traded_today st env symbol (Some action) = false
      /\ can_buy_again st env symbol = true
      /\ fle price fzero = false
      /\ fdiv cap price = Some ratio /\ to_int ratio = Some q /\ (0 < q)%Z
      /\ entry_step env action holds cap lim (st, trace) symbol =
           (if fst (fst r)
            then record_trade (snd (fst r)) env symbol action q price
            else snd (fst r),
            trace ++ snd r)).
Proof.
  unfold entry_step.
  destruct (String.eqb_spec symbol "") as [Hs | Hs].
  { left. exists st. split; [reflexivity | split; [apply same_ledger_refl | auto]]. }
  destruct (match dict_get symbol (positions st) with
            | Some x => holds x | None => false end) eqn:Hheld.
  { left. exists st. split; [reflexivity | split; [apply same_ledger_refl | auto]]. }
  destruct (is_traded_today st env symbol (Some action)) eqn:Htr.
  { left. exists st. split; [reflexivity | split; [apply same_ledger_refl | auto]]. }
  destruct (can_buy_again st env symbol) eqn:Hcd; cbn [negb].
  2:{ left. exists st. split; [reflexivity | split; [apply same_ledger_refl | auto]]. }
  pose proof (get_latest_price_ledger st env symbol true) as Hl.
  destruct (get_latest_price st env symbol true) as [price st1].
  cbn [fst snd] in *.
  destruct (fle price fzero) eqn:Hle.
  { left. exists st1. split; [reflexivity | split; [exact Hl | auto]]. }
  destruct (fdiv cap price) as [ratio |] eqn:Hdiv.
  2:{ left. exists st1. split; [reflexivity | split; [exact Hl | auto]]. }
  destruct (to_int ratio) as [q |] eqn:Hint.
  2:{ left. exists st1. split; [reflexivity | split; [exact Hl | auto]]. }
  destruct (Z.leb_spec q 0) as [Hq | Hq].
  { left. exists st1. split; [reflexivity | split; [exact Hl | auto]]. }
  right. exists ratio, q. cbv zeta.
  repeat (split; [first [assumption | reflexivity] |]).
  destruct (place_order st1 env symbol action (of_Z q) lim) as [[ok st2] events].
  reflexivity.
Qed.


(** A price that passed the positivity test is in the cache, so asking again
    gives the same price and changes nothing. *)
Lemma get_latest_price_again st env symbol use_yfinance use_yfinance' :
  let price := fst (get_latest_price st env symbol use_yfinance) in
  let st1 := snd (get_latest_price st env symbol use_yfinance) in
  fle price fzero = false ->
  get_latest_price st1 env symbol use_yfinance' = (price, st1).
Proof.
  pose proof (get_latest_price_cases st env symbol use_yfinance) as H.
  destruct (get_latest_price st env symbol use_yfinance) as [price st1].
  cbn [fst snd]. intros Hle.
  destruct H as [Hc | (_ & -> & _)]; [| discriminate Hle].
  apply get_latest_price_hit. exact Hc.
Qed.

(** The orders of one round: at most one, for the round's symbol, of
    [int(capital / price)] shares at the price the round read. *)
Lemma entry_step_orders env action holds cap lim st trace symbol :
  let r := entry_step env action holds cap lim (st, trace) symbol in
  positions (fst r) = positions st
  /\ cooldown_seconds (fst r) = cooldown_seconds st
  /\ exists events,
       snd r = trace ++ events
       /\ (length (submitted events) <= 1)%nat
       /\ forall s o, In (Submitted s o) events ->
            s = symbol /\ symbol <> ""
            /\ match dict_get symbol (positions st) with
               | Some x => holds x
               | None => false
               end = false
            /\ is_traded_today st env symbol (Some action) = false
            /\ can_buy_again st env symbol = true
            /\ qualifyContracts env symbol = true
            /\ o_action o = action
            /\ (1 <= o_quantity o)%Z
            /\ exists c p,
                 cap = Fin c
                 /\ fst (get_latest_price st env symbol true) = Fin p
                 /\ (0 < p)%Q
                 /\ (inject_Z (o_quantity o - 1) * p < c)%Q
                 /\ (c < inject_Z (o_quantity o + 1) * p)%Q.
Proof.
  cbv zeta.
  destruct (entry_step_inv env action holds cap lim st trace symbol)
    as [(st1 & -> & Hl & _) | (ratio & q & Hinv)].
  - cbn [fst snd]. destruct Hl as (Hpos & _ & _ & Hcd & _).
    split; [exact Hpos |]. split; [exact Hcd |].
    exists []. rewrite app_nil_r. split; [reflexivity |].
    split; [simpl; lia |]. intros s o [].
  - cbv zeta in Hinv.
    destruct Hinv as (Hs & Hheld & Htr & Hcan & Hle & Hdiv & Hint & Hq & ->).
    cbn [fst snd].
    pose proof (get_latest_price_ledger st env symbol true) as Hl.
    pose proof (get_latest_price_again st env symbol true true Hle) as Hagain.
    set (price := fst (get_latest_price st env symbol true)) in *.
    set (st1 := snd (get_latest_price st env symbol true)) in *.
    destruct Hl as (Hpos1 & _ & _ & Hcd1 & _).
    pose proof (place_order_ledger st1 env symbol action (of_Z q) lim) as Hpo.
    cbv zeta in Hpo. destruct Hpo as (Hpos2 & Hcd2 & _).
    pose proof (place_order_inv st1 env symbol action (of_Z q) lim) as Hinv.
    set (r := place_order st1 env symbol action (of_Z q) lim) in *.
    assert (Hrec := record_trade_ledger (snd (fst r)) env symbol action q price).
    cbv zeta in Hrec. destruct Hrec as (Hpos3 & _ & _ & Hcd3 & _).
    split; [destruct (fst (fst r)); congruence |].
    split; [destruct (fst (fst r)); congruence |].
    exists (snd r). split; [reflexivity |].
    destruct Hinv as [(st2 & Hr & _) | (q' & polls & Hinv)].
    + rewrite Hr. cbn [fst snd]. split; [simpl; lia |].
      intros s o [H | []]. discriminate H.
    + cbv zeta in Hinv.
      destruct Hinv as (_ & _ & Hint' & _ & Hqual & _ & _ & Hr).
      rewrite to_int_of_Z in Hint'. injection Hint' as <-.
      rewrite Hagain in Hr. cbn [fst snd] in Hr. rewrite Hr. cbn [fst snd].
      split; [simpl; lia |].
      intros s o [H | [H | []]]; [discriminate H |]. injection H as <- <-.
      split; [reflexivity |]. split; [exact Hs |]. split; [exact Hheld |].
      split; [exact Htr |]. split; [exact Hcan |]. split; [exact Hqual |].
      destruct (int_ratio_near cap price ratio q Hle Hdiv Hint Hq)
        as (c & p & Hc & Hp & Hp0 & Hlo & Hhi).
      assert (Hoq : o_quantity (order_for env action q price lim) = q
                    /\ o_action (order_for env action q price lim) = action).
      { unfold order_for. destruct (lim || negb (is_regular_hours env));
          split; reflexivity. }
      destruct Hoq as [-> ->].
      split; [reflexivity |]. split; [lia |].
      exists c, p. auto.
Qed.


Lemma is_traded_today_same_day st env env' symbol action :
  today_str env' = today_str env ->
  is_traded_today st env' symbol action = is_traded_today st env symbol action.
Proof.
  intros H. rewrite !is_traded_today_existsb.
  destruct (trade_history st) as [h |]; [| reflexivity].
  apply existsb_same. intros t. unfold matches_today. rewrite H. reflexivity.
Qed.

(** After [load_trade_history] the test of lines 1962 and 2017 is answered
    by the day's log file alone. *)
Lemma is_traded_today_loaded st env symbol action :
  is_traded_today (load_trade_history st env) env symbol action =
    match trade_file env with
    | Some records => existsb (matches_today env symbol action) records
    | None => false
    end.
Proof.
  rewrite is_traded_today_existsb. unfold load_trade_history.
  destruct (trade_file env); reflexivity.
Qed.

(** X8 ([execute_trades], lines 1948-2003 and 2008-2058).  If a round of an
    entry loop adds to the trade history, it added exactly one record, for an
    order that was handed to the broker for the round's symbol, and on the
    state that round leaves (the in-memory history, as in the rest of the
    pass) a round for the same symbol and action on the same date does
    nothing.  A later pass first replaces the in-memory history by the day's
    log file (line 1948): there the test of lines 1962 and 2017 is answered
    by the file alone, [false] when the file is missing, and a round for a
    symbol and action that the file records for the date does nothing. *)
Theorem entry_record_blocks_repeat env action holds cap lim st trace symbol :
  let r := entry_step env action holds cap lim (st, trace) symbol in
  (trade_history (fst r) <> trade_history st ->
   (exists h q o,
       trade_history st = Some h
       /\ trade_history (fst r) =
            Some (h ++ [mkTrade (today_str env) (time_str env) symbol action q
                          (quote st env symbol)
                          (fmul (of_Z q) (quote st env symbol))])
       /\ snd r = trace ++ [PlaceOrderCall symbol action (of_Z q);
                            Submitted symbol o])
   /\ forall env' holds' cap' lim' trace',
        today_str env' = today_str env ->
        entry_step env' action holds' cap' lim' (fst r, trace') symbol =
          (fst r, trace'))
  /\ forall st' env' holds' cap' lim' trace',
       let loaded := load_trade_history st' env' in
       is_traded_today loaded env' symbol (Some action) =
         match trade_file env' with
         | Some records =>
             existsb (matches_today env' symbol (Some action)) records
         | None => false
         end
       /\ (is_traded_today loaded env' symbol (Some action) = true ->
           entry_step env' action holds' cap' lim' (loaded, trace') symbol =
             (loaded, trace')).
Proof.
  cbv zeta. split.
  - intros Hneq.
    assert (Hmain : exists h q o,
        trade_history st = Some h
        /\ trade_history
             (fst (entry_step env action holds cap lim (st, trace) symbol)) =
             Some (h ++ [mkTrade (today_str env) (time_str env) symbol action q
                           (quote st env symbol)
                           (fmul (of_Z q) (quote st env symbol))])
        /\ snd (entry_step env action holds cap lim (st, trace) symbol) =
             trace ++ [PlaceOrderCall symbol action (of_Z q);
                       Submitted symbol o]).
    { destruct (entry_step_inv env action holds cap lim st trace symbol)
        as [(st1 & Heq & Hl & _) | (ratio & q & Hinv)].
      - rewrite Heq in Hneq. cbn [fst] in Hneq.
        destruct Hl as (_ & _ & _ & _ & _ & Hth). contradiction.
      - cbv zeta in Hinv.
        destruct Hinv as (_ & _ & _ & _ & _ & _ & _ & _ & Heq).
        rewrite Heq in Hneq |- *. cbn [fst snd] in Hneq |- *.
        pose proof (get_latest_price_ledger st env symbol true) as Hl.
        destruct Hl as (_ & _ & _ & _ & _ & Hth1).
        set (st1 := snd (get_latest_price st env symbol true)) in *.
        pose proof (place_order_ledger st1 env symbol action (of_Z q) lim) as Hpo.
        cbv zeta in Hpo. destruct Hpo as (_ & _ & _ & Hth2 & _).
        pose proof (place_order_inv st1 env symbol action (of_Z q) lim) as Hinv.
        set (r := place_order st1 env symbol action (of_Z q) lim) in *.
        destruct (fst (fst r)) eqn:Hok; [| exfalso; apply Hneq; congruence].
        destruct (trade_history st) as [h |] eqn:Hh.
        2:{ exfalso. apply Hneq. unfold record_trade.
            rewrite Hth2, Hth1. cbv iota. congruence. }
        destruct Hinv as [(st2 & Hr & _) | (q' & polls & Hinv)].
        { rewrite Hr in Hok. discriminate Hok. }
        cbv zeta in Hinv. destruct Hinv as (_ & _ & _ & _ & _ & _ & _ & Hr).
        exists h, q. eexists. split; [reflexivity |]. split.
        + apply record_trade_history. congruence.
        + rewrite Hr. cbn [snd]. reflexivity. }
    split; [exact Hmain |].
    destruct Hmain as (h & q & o & Hh & Hth & _).
    intros env' holds' cap' lim' trace' Hday.
    set (st' := fst (entry_step env action holds cap lim (st, trace) symbol)) in *.
    assert (Htraded : is_traded_today st' env' symbol (Some action) = true).
    { rewrite (is_traded_today_same_day st' env env') by exact Hday.
      rewrite is_traded_today_existsb, Hth, existsb_app.
      apply orb_true_iff. right. simpl. unfold matches_today. simpl.
      rewrite !String.eqb_refl. reflexivity. }
    unfold entry_step.
    destruct (String.eqb symbol ""); [reflexivity |].
    destruct (match dict_get symbol (positions st') with
              | Some x => holds' x | None => false end); [reflexivity |].
    rewrite Htraded. reflexivity.
  - intros st' env' holds' cap' lim' trace'.
    split; [apply is_traded_today_loaded |].
    intros Htraded. unfold entry_step.
    destruct (String.eqb symbol ""); [reflexivity |].
    destruct (match dict_get symbol (positions (load_trade_history st' env')) with
              | Some x => holds' x | None => false end); [reflexivity |].
    rewrite Htraded. reflexivity.
Qed.

(** X9 ([execute_trades], lines 1975-1993 and 2030-2048).  An order that a
    round of an entry loop hands to the broker is for the round's symbol and
    action, for at least one share; the per-stock capital and the reference
    price are then numbers, the price is positive, and a quantity below 2^53
    (where every whole number is a float) lies within one share of capital /
    price: (quantity - 1) x price < capital < (quantity + 1) x price. *)
Theorem entry_order_sizing env action holds cap lim st trace symbol s o :
  In (Submitted s o)
     (snd (entry_step env action holds cap lim (st, trace) symbol)) ->
  ~ In (Submitted s o) trace ->
  s = symbol /\ o_action o = action
  /\ (1 <= o_quantity o)%Z
  /\ exists c p,
       cap = Fin c /\ quote st env symbol = Fin p /\ (0 < p)%Q
       /\ ((o_quantity o < 2 ^ 53)%Z ->
           (inject_Z (o_quantity o - 1) * p < c)%Q
           /\ (c < inject_Z (o_quantity o + 1) * p)%Q).
Proof.
  intros Hin Hnot.
  pose proof (entry_step_orders env action holds cap lim st trace symbol) as H.
  cbv zeta in H. destruct H as (_ & _ & events & Heq & _ & Hev).
  rewrite Heq in Hin. apply in_app_or in Hin.
  destruct Hin as [Hin | Hin]; [contradiction |].
  destruct (Hev s o Hin)
    as (-> & _ & _ & _ & _ & _ & Hact & Hq & c & p & Hc & Hp & Hp0 & Hlo & Hhi).
  split; [reflexivity |]. split; [exact Hact |]. split; [exact Hq |].
  exists c, p. unfold quote. auto.
Qed.

End EntryOrderFacts.

(** ** What one pass of [execute_trades] commits *)

Module BudgetFacts.
Import Engine Views OrderFacts EntryFacts CycleFacts HistoryFacts
  ExecutorFacts EntryOrderFacts.

Lemma length_append (a t : string) :
  String.length (String.append a t) = (String.length a + String.length t)%nat.
Proof.
  induction a as [| c a IH]; [reflexivity |].
  change (S (String.length (String.append a t)) =
          S (String.length a + String.length t)).
  rewrite IH. reflexivity.
Qed.

Lemma append_inv_tail (a b t : string) :
  String.append a t = String.append b t -> a = b.
Proof.
  revert b. induction a as [| c a IH]; intros [| d b] H.
  - reflexivity.
  - exfalso. apply (f_equal String.length) in H.
    rewrite !length_append in H. simpl in H. lia.
  - exfalso. apply (f_equal String.length) in H.
    rewrite !length_append in H. simpl in H. lia.
  - change (String c (String.append a t) = String d (String.append b t)) in H.
    injection H as -> H. f_equal. apply IH. exact H.
Qed.

Lemma cache_key_inj env s s' : cache_key env s = cache_key env s' -> s = s'.
Proof. unfold cache_key. apply append_inv_tail. Qed.

Lemma same_quotes_refl env st : same_quotes env st st.
Proof. intros s. reflexivity. Qed.

Lemma same_quotes_trans env a b c :
  same_quotes env a b -> same_quotes env b c -> same_quotes env a c.
Proof. intros H1 H2 s. rewrite H2. apply H1. Qed.

(** The reference price depends on the state through one cache entry. *)
Lemma quote_cache env st st' s :
  price_cache st' !! cache_key env s = price_cache st !! cache_key env s ->
  quote st' env s = quote st env s.
Proof.
  unfold quote, get_latest_price. cbv zeta. intros ->.
  destruct (price_cache st !! cache_key env s); [reflexivity |].
  destruct (reqMktData env s) as [t |].
  - destruct (fgt (ticker_price t) fzero); [reflexivity |].
    destruct (yf_last_close env s); reflexivity.
  - destruct (yf_last_close env s); reflexivity.
Qed.

Lemma same_quotes_cache env st st' :
  price_cache st' = price_cache st -> same_quotes env st st'.
Proof. intros H s. apply quote_cache. rewrite H. reflexivity. Qed.

Lemma get_latest_price_cache st env s :
  let r := get_latest_price st env s true in
  price_cache (snd r) = price_cache st
  \/ (price_cache st !! cache_key env s = None
      /\ price_cache (snd r) = <[cache_key env s := fst r]> (price_cache st)).
Proof.
  unfold get_latest_price. cbv zeta.
  destruct (price_cache st !! cache_key env s) eqn:Hc; [left; reflexivity |].
  destruct (reqMktData env s) as [t |].
  - destruct (fgt (ticker_price t) fzero); [right; split; reflexivity |].
    destruct (yf_last_close env s); [right; split; reflexivity | left; reflexivity].
  - destruct (yf_last_close env s); [right; split; reflexivity | left; reflexivity].
Qed.

(** Pricing one symbol changes no symbol's reference price. *)
Lemma get_latest_price_same_quotes st env s :
  same_quotes env st (snd (get_latest_price st env s true)).
Proof.
  intros s'.
  pose proof (get_latest_price_cache st env s) as H. cbv zeta in H.
  destruct H as [H | [Hnone H]]; [apply quote_cache; rewrite H; reflexivity |].
  destruct (String.eqb_spec s' s) as [-> | Hne].
  - unfold quote at 1.
    rewrite (get_latest_price_hit _ env s true (fst (get_latest_price st env s true))).
    + reflexivity.
    + rewrite H. apply lookup_insert_eq.
  - apply quote_cache. rewrite H. apply lookup_insert_ne.
    intros Heq. apply Hne. symmetry. apply (cache_key_inj env). exact Heq.
Qed.

Lemma settled_cache st1 env symbol action price os :
  price_cache (settled st1 env symbol action price os) = price_cache st1.
Proof.
  unfold settled.
  destruct (String.eqb action "BUY" && fgt (filled os) fzero); reflexivity.
Qed.

Lemma place_order_same_quotes st env symbol action quantity lim :
  same_quotes env st
    (snd (fst (place_order st env symbol action quantity lim))).
Proof.
  destruct (place_order_inv st env symbol action quantity lim)
    as [(st1 & -> & _ & [-> | ->]) | (q & polls & Hinv)]; cbn [fst snd].
  - apply same_quotes_refl.
  - apply get_latest_price_same_quotes.
  - cbv zeta in Hinv. destruct Hinv as (_ & _ & _ & _ & _ & _ & _ & ->).
    cbn [fst snd].
    eapply same_quotes_trans; [apply get_latest_price_same_quotes |].
    apply same_quotes_cache. apply settled_cache.
Qed.

Lemma entry_step_same_quotes env action holds cap lim st trace symbol :
  same_quotes env st
    (fst (entry_step env action holds cap lim (st, trace) symbol)).
Proof.
  destruct (entry_step_inv env action holds cap lim st trace symbol)
    as [(st1 & -> & _ & [-> | ->]) | (ratio & q & Hinv)]; cbn [fst snd].
  - apply same_quotes_refl.
  - apply get_latest_price_same_quotes.
  - cbv zeta in Hinv.
    destruct Hinv as (_ & _ & _ & _ & _ & _ & _ & _ & ->). cbn [fst].
    eapply same_quotes_trans; [apply get_latest_price_same_quotes |].
    eapply same_quotes_trans; [apply place_order_same_quotes |].
    match goal with
    | |- same_quotes _ ?a (if ?b then _ else _) => destruct b
    end; [| apply same_quotes_refl].
    apply same_quotes_cache.
    match goal with
    | |- price_cache (record_trade ?s _ _ _ _ _) = _ =>
        pose proof (record_trade_ledger s env symbol action q
                      (fst (get_latest_price st env symbol true))) as Hr
    end.
    cbv zeta in Hr. destruct Hr as (_ & _ & _ & _ & _ & Hr). exact Hr.
Qed.


Lemma submitted_app a b : submitted (a ++ b) = submitted a ++ submitted b.
Proof. unfold submitted. apply flat_map_app. Qed.

Lemma in_submitted s o trace :
  In (s, o) (submitted trace) <-> In (Submitted s o) trace.
Proof.
  unfold submitted. rewrite in_flat_map. split.
  - intros (e & He & Hin). destruct e as [? ? ? | s' o']; [destruct Hin |].
    destruct Hin as [[= -> ->] | []]. exact He.
  - intros H. exists (Submitted s o). split; [exact H | left; reflexivity].
Qed.

(** The symbols of the orders of one round: none, or the round's symbol. *)
Lemma entry_step_symbols env action holds cap lim st trace symbol events :
  snd (entry_step env action holds cap lim (st, trace) symbol) =
    trace ++ events ->
  map fst (submitted events) = [] \/ map fst (submitted events) = [symbol].
Proof.
  intros Heq.
  pose proof (entry_step_orders env action holds cap lim st trace symbol) as H.
  cbv zeta in H. destruct H as (_ & _ & events' & Heq' & Hlen & Hev).
  rewrite Heq in Heq'. apply app_inv_head in Heq'. subst events'.
  destruct (submitted events) as [| [s o] rest] eqn:Hsub; [left; reflexivity |].
  right. destruct rest; [| simpl in Hlen; lia].
  assert (Hin : In (Submitted s o) events).
  { apply in_submitted. rewrite Hsub. left. reflexivity. }
  destruct (Hev s o Hin) as (-> & _). reflexivity.
Qed.

(** An entry loop: the positions and the quotes stay as they were; the
    symbols of its orders, in the order sent, are picked from the candidates
    in their order, each at most once per occurrence; and every order is for
    a candidate that was not held on that side. *)
Lemma entry_loop_orders env action holds cap lim stocks : forall st trace,
  let r := fold_left (entry_step env action holds cap lim) stocks (st, trace) in
  positions (fst r) = positions st
  /\ same_quotes env st (fst r)
  /\ exists events,
       snd r = trace ++ events
       /\ map fst (submitted events) `sublist_of` stocks
       /\ forall s o, In (Submitted s o) events ->
            In s stocks /\ s <> ""
            /\ match dict_get s (positions st) with
               | Some x => holds x
               | None => false
               end = false
            /\ qualifyContracts env s = true
            /\ o_action o = action /\ (1 <= o_quantity o)%Z.
Proof.
  induction stocks as [| x xs IH]; intros st trace; cbv zeta.
  - cbn [fold_left fst snd]. split; [reflexivity |].
    split; [apply same_quotes_refl |].
    exists []. rewrite app_nil_r. split; [reflexivity |].
    split; [apply sublist_nil_l |]. intros s o [].
  - cbn [fold_left].
    pose proof (entry_step_orders env action holds cap lim st trace x) as Hstep.
    pose proof (entry_step_same_quotes env action holds cap lim st trace x) as Hq.
    pose proof (entry_step_symbols env action holds cap lim st trace x) as Hsym.
    destruct (entry_step env action holds cap lim (st, trace) x) as [st1 tr1].
    cbv zeta in Hstep. cbn [fst snd] in Hstep, Hq, Hsym.
    destruct Hstep as (Hpos1 & _ & ev1 & -> & _ & Hev1).
    specialize (Hsym ev1 eq_refl).
    specialize (IH st1 (trace ++ ev1)). cbv zeta in IH.
    destruct IH as (Hpos2 & Hq2 & ev2 & Heq2 & Hsub2 & Hev2).
    split; [congruence |].
    split; [eapply same_quotes_trans; eassumption |].
    exists (ev1 ++ ev2). split; [rewrite Heq2, app_assoc; reflexivity |].
    split.
    { rewrite submitted_app, map_app.
      destruct Hsym as [-> | ->]; cbn [app].
      - apply sublist_cons. exact Hsub2.
      - apply sublist_skip. exact Hsub2. }
    intros s o Hin. apply in_app_or in Hin. destruct Hin as [Hin | Hin].
    + destruct (Hev1 s o Hin)
        as (-> & Hs & Hheld & _ & _ & Hqual & Hact & Hq0 & _).
      split; [left; reflexivity |]. auto.
    + destruct (Hev2 s o Hin) as (Hs & Hne & Hheld & Hqual & Hact & Hq0).
      split; [right; exact Hs |]. split; [exact Hne |].
      split; [rewrite <- Hpos1; exact Hheld |]. auto.
Qed.

(** The two ways [execute_trades] ends: with nothing done beyond the refresh
    of the positions, or after both entry loops. *)
Lemma execute_trades_cases st env long_stocks short_stocks :
  (snd (execute_trades st env long_stocks short_stocks) = []
   /\ (fst (execute_trades st env long_stocks short_stocks) = st
       \/ fst (execute_trades st env long_stocks short_stocks) =
            snd (get_current_positions st env)))
  \/ exists account_summary,
       can_trade_now env = true
       /\ accountSummary env = Some account_summary
       /\ fle (net_liquidation_of account_summary) fzero = false
       /\ execute_trades st env long_stocks short_stocks =
            fold_left
              (entry_step env "SELL" (fun q => flt q fzero)
                 (capital_per_stock
                    (short_capital (net_liquidation_of account_summary))
                    short_stocks)
                 (negb (is_regular_hours env)))
              short_stocks
              (fold_left
                 (entry_step env "BUY" (fun q => fgt q fzero)
                    (capital_per_stock
                       (long_capital (net_liquidation_of account_summary))
                       long_stocks)
                    (negb (is_regular_hours env)))
                 long_stocks
                 (load_trade_history (snd (get_current_positions st env)) env,
                  [])).
Proof.
  unfold execute_trades.
  destruct (can_trade_now env); cbn [negb]; [| left; auto].
  destruct (accountSummary env) as [acct |].
  2:{ left. destruct long_stocks, short_stocks; auto. }
  destruct (fle (net_liquidation_of acct) fzero) eqn:Hle.
  { left. destruct long_stocks, short_stocks; auto. }
  destruct long_stocks as [| l ls], short_stocks as [| s ss]; [left; auto | | |];
    right; exists acct; auto.
Qed.


Lemma load_trade_history_frame st env :
  positions (load_trade_history st env) = positions st
  /\ price_cache (load_trade_history st env) = price_cache st.
Proof. unfold load_trade_history. destruct (trade_file env); split; reflexivity. Qed.

Lemma get_current_positions_cache st env :
  price_cache (snd (get_current_positions st env)) = price_cache st.
Proof. unfold get_current_positions. destruct (portfolio env); reflexivity. Qed.

(** X10 ([execute_trades]).  Every order an entry pass hands to the broker
    belongs to a pass that found trading permitted when it began (the test of
    line 1871, made once, before the loops); it is for a non-empty symbol the
    broker qualified, with a quantity of at least 1; and it is a BUY of a
    long candidate that the refreshed positions do not show as held long, or
    a SELL of a short candidate that they do not show as held short. *)
Theorem execute_trades_orders st env long_stocks short_stocks s o :
  In (Submitted s o) (snd (execute_trades st env long_stocks short_stocks)) ->
  let held := positions (snd (get_current_positions st env)) in
  can_trade_now env = true /\ s <> "" /\ qualifyContracts env s = true
  /\ (1 <= o_quantity o)%Z
  /\ ((In s long_stocks /\ o_action o = "BUY"
       /\ forall q, dict_get s held = Some q -> fgt q fzero = false)
      \/ (In s short_stocks /\ o_action o = "SELL"
          /\ forall q, dict_get s held = Some q -> flt q fzero = false)).
Proof.
  intros Hin held.
  destruct (execute_trades_cases st env long_stocks short_stocks)
    as [[Hnil _] | (acct & Hopen & _ & _ & Heq)].
  { rewrite Hnil in Hin. destruct Hin. }
  rewrite Heq in Hin. clear Heq.
  set (st2 := load_trade_history (snd (get_current_positions st env)) env) in *.
  assert (Hpos2 : positions st2 = held)
    by apply (load_trade_history_frame (snd (get_current_positions st env)) env).
  match type of Hin with
  | In _ (snd (fold_left ?f short_stocks (fold_left ?g long_stocks _))) =>
      set (fs := f) in *; set (fl := g) in *
  end.
  pose proof (entry_loop_orders env "BUY" (fun q => fgt q fzero)
                (capital_per_stock (long_capital (net_liquidation_of acct))
                   long_stocks)
                (negb (is_regular_hours env)) long_stocks st2 []) as Hl.
  cbv zeta in Hl. fold fl in Hl.
  destruct (fold_left fl long_stocks (st2, [])) as [st3 tr3].
  cbn [fst snd] in Hl. destruct Hl as (Hpos3 & _ & ev1 & Htr3 & _ & Hev1).
  pose proof (entry_loop_orders env "SELL" (fun q => flt q fzero)
                (capital_per_stock (short_capital (net_liquidation_of acct))
                   short_stocks)
                (negb (is_regular_hours env)) short_stocks st3 tr3) as Hs.
  cbv zeta in Hs. fold fs in Hs.
  destruct (fold_left fs short_stocks (st3, tr3)) as [st4 tr4].
  cbn [fst snd] in Hs, Hin. destruct Hs as (_ & _ & ev2 & -> & _ & Hev2).
  simpl in Htr3. subst tr3.
  split; [exact Hopen |].
  apply in_app_or in Hin. destruct Hin as [Hin | Hin].
  - destruct (Hev1 s o Hin) as (Hs & Hne & Hheld & Hqual & Hact & Hq).
    split; [exact Hne |]. split; [exact Hqual |]. split; [exact Hq |].
    left. split; [exact Hs |]. split; [exact Hact |].
    intros q Hget. rewrite Hpos2, Hget in Hheld. exact Hheld.
  - destruct (Hev2 s o Hin) as (Hs & Hne & Hheld & Hqual & Hact & Hq).
    split; [exact Hne |]. split; [exact Hqual |]. split; [exact Hq |].
    right. split; [exact Hs |]. split; [exact Hact |].
    intros q Hget. rewrite Hpos3, Hpos2, Hget in Hheld. exact Hheld.
Qed.


(** X11 ([execute_trades], both entry loops).  One pass of [execute_trades]
    hands the broker at most one order per listed candidate: first BUY orders
    whose symbols, in the order sent, are picked from [long_stocks] in its
    order, then SELL orders whose symbols are picked from [short_stocks] in
    its order.  So there are at most [len(long_stocks)] BUY orders and at most
    [len(short_stocks)] SELL orders, no BUY follows a SELL, and with distinct
    candidates no symbol is ordered twice on one side. *)
Theorem execute_trades_one_order_per_candidate st env long_stocks short_stocks :
  exists buys sells,
    submitted (snd (execute_trades st env long_stocks short_stocks)) =
      buys ++ sells
    /\ (forall so, In so buys -> o_action (snd so) = "BUY")
    /\ (forall so, In so sells -> o_action (snd so) = "SELL")
    /\ map fst buys `sublist_of` long_stocks
    /\ map fst sells `sublist_of` short_stocks
    /\ (length buys <= length long_stocks)%nat
    /\ (length sells <= length short_stocks)%nat
    /\ (List.NoDup long_stocks -> List.NoDup (map fst buys))
    /\ (List.NoDup short_stocks -> List.NoDup (map fst sells)).
Proof.
  assert (Hpack : forall buys sells : list (string * Order),
    (forall so, In so buys -> o_action (snd so) = "BUY") ->
    (forall so, In so sells -> o_action (snd so) = "SELL") ->
    map fst buys `sublist_of` long_stocks ->
    map fst sells `sublist_of` short_stocks ->
    (forall so, In so buys -> o_action (snd so) = "BUY")
    /\ (forall so, In so sells -> o_action (snd so) = "SELL")
    /\ map fst buys `sublist_of` long_stocks
    /\ map fst sells `sublist_of` short_stocks
    /\ (length buys <= length long_stocks)%nat
    /\ (length sells <= length short_stocks)%nat
    /\ (List.NoDup long_stocks -> List.NoDup (map fst buys))
    /\ (List.NoDup short_stocks -> List.NoDup (map fst sells))).
  { intros buys sells Hb Hs Hsb Hss.
    split; [exact Hb |]. split; [exact Hs |].
    split; [exact Hsb |]. split; [exact Hss |].
    split; [rewrite <- (length_map fst buys); apply sublist_length; exact Hsb |].
    split; [rewrite <- (length_map fst sells); apply sublist_length; exact Hss |].
    split; intros Hnd; apply NoDup_ListNoDup;
      (eapply sublist_NoDup; [apply NoDup_ListNoDup; exact Hnd | eassumption]). }
  destruct (execute_trades_cases st env long_stocks short_stocks)
    as [[Hnil _] | (acct & _ & _ & _ & Heq)].
  { exists [], []. rewrite Hnil. split; [reflexivity |].
    apply Hpack; try (intros so []); apply sublist_nil_l. }
  rewrite Heq. clear Heq.
  set (st2 := load_trade_history (snd (get_current_positions st env)) env).
  pose proof (entry_loop_orders env "BUY" (fun q => fgt q fzero)
                (capital_per_stock (long_capital (net_liquidation_of acct))
                   long_stocks)
                (negb (is_regular_hours env)) long_stocks st2 []) as Hl.
  cbv zeta in Hl.
  destruct (fold_left _ long_stocks (st2, [])) as [st3 tr3].
  cbn [fst snd] in Hl. destruct Hl as (_ & _ & ev1 & Htr3 & Hsub1 & Hev1).
  simpl in Htr3. subst tr3.
  pose proof (entry_loop_orders env "SELL" (fun q => flt q fzero)
                (capital_per_stock (short_capital (net_liquidation_of acct))
                   short_stocks)
                (negb (is_regular_hours env)) short_stocks st3 ev1) as Hs.
  cbv zeta in Hs.
  destruct (fold_left _ short_stocks (st3, ev1)) as [st4 tr4].
  cbn [fst snd] in Hs |- *. destruct Hs as (_ & _ & ev2 & -> & Hsub2 & Hev2).
  exists (submitted ev1), (submitted ev2).
  split; [apply submitted_app |].
  apply Hpack; try assumption.
  - intros [s o] Hin. apply in_submitted in Hin.
    destruct (Hev1 s o Hin) as (_ & _ & _ & _ & Hact & _). exact Hact.
  - intros [s o] Hin. apply in_submitted in Hin.
    destruct (Hev2 s o Hin) as (_ & _ & _ & _ & Hact & _). exact Hact.
Qed.

End BudgetFacts.

(** ** Closing orders *)

Module CloseFacts.
Import Engine Views OrderFacts ExitFacts ExecutorFacts BudgetFacts.

(** An order that [place_order] hands over, in terms of its arguments. *)
Lemma place_order_submitted_inv st env symbol action quantity lim s o :
  In (Submitted s o) (snd (place_order st env symbol action quantity lim)) ->
  s = symbol
  /\ qualifyContracts env symbol = true
  /\ fle (quote st env symbol) fzero = false
  /\ exists q,
       to_int quantity = Some q /\ (0 < q)%Z
       /\ o = order_for env action q (quote st env symbol) lim.
Proof.
  intros Hin.
  destruct (place_order_inv st env symbol action quantity lim)
    as [(st1 & Heq & _) | (q & polls & Hinv)].
  - rewrite Heq in Hin. destruct Hin as [H | []]. discriminate H.
  - cbv zeta in Hinv.
    destruct Hinv as (_ & _ & Hint & Hq & Hqual & Hle & _ & Heq).
    rewrite Heq in Hin. cbn [snd] in Hin.
    destruct Hin as [H | [H | []]]; [discriminate H |]. injection H as <- <-.
    split; [reflexivity |]. split; [exact Hqual |]. split; [exact Hle |].
    exists q. auto.
Qed.

Lemma order_for_fields env action q price lim :
  o_action (order_for env action q price lim) = action
  /\ o_quantity (order_for env action q price lim) = q
  /\ o_limit_price (order_for env action q price true) <> None.
Proof.
  unfold order_for.
  destruct (lim || negb (is_regular_hours env)); repeat split; discriminate.
Qed.

(** One round of the holding-period loop. *)
Lemma exit_step_orders env st trace symbol quantity :
  let r := exit_step env (st, trace) (symbol, quantity) in
  same_quotes env st (fst r)
  /\ exists events,
       snd r = trace ++ events
       /\ forall s o, In (Submitted s o) events ->
            s = symbol
            /\ (exists d, earnings_date env symbol = Some d
                          /\ (d + 2 <= now_ordinal env)%Z)
            /\ ((fgt quantity fzero = true /\ o_action o = "SELL")
                \/ (flt quantity fzero = true /\ o_action o = "BUY"))
            /\ to_int (fabs quantity) = Some (o_quantity o)
            /\ (1 <= o_quantity o)%Z
            /\ o_limit_price o <> None.
Proof.
  set (P := fun events : list Event =>
    forall s o, In (Submitted s o) events ->
      s = symbol
      /\ (exists d, earnings_date env symbol = Some d
                    /\ (d + 2 <= now_ordinal env)%Z)
      /\ ((fgt quantity fzero = true /\ o_action o = "SELL")
          \/ (flt quantity fzero = true /\ o_action o = "BUY"))
      /\ to_int (fabs quantity) = Some (o_quantity o)
      /\ (1 <= o_quantity o)%Z
      /\ o_limit_price o <> None).
  change (let r := exit_step env (st, trace) (symbol, quantity) in
          same_quotes env st (fst r)
          /\ exists events, snd r = trace ++ events /\ P events).
  assert (Hskip : same_quotes env st st
                  /\ exists events, trace = trace ++ events /\ P events).
  { split; [apply same_quotes_refl |]. exists []. rewrite app_nil_r.
    split; [reflexivity | intros s o []]. }
  assert (Hcall : forall action d,
    earnings_date env symbol = Some d -> (d + 2 <= now_ordinal env)%Z ->
    (fgt quantity fzero = true /\ action = "SELL")
    \/ (flt quantity fzero = true /\ action = "BUY") ->
    let r := place_order st env symbol action (fabs quantity) true in
    same_quotes env st (snd (fst r))
    /\ exists events, trace ++ snd r = trace ++ events /\ P events).
  { intros action d Hd Hdue Hside. cbv zeta.
    split; [apply place_order_same_quotes |].
    eexists. split; [reflexivity |]. intros s o Hin.
    destruct (place_order_submitted_inv _ _ _ _ _ _ _ _ Hin)
      as (-> & _ & _ & q & Hint & Hq & ->).
    destruct (order_for_fields env action q (quote st env symbol) true)
      as (Ha & Hoq & Hlim).
    rewrite Ha, Hoq.
    split; [reflexivity |]. split; [exists d; auto |].
    split; [destruct Hside as [[? ?] | [? ?]]; auto |].
    split; [exact Hint |]. split; [lia | exact Hlim]. }
  clearbody P. cbv zeta. unfold exit_step.
  destruct (earnings_date env symbol) as [d |] eqn:Hd; [| exact Hskip].
  destruct (Z.leb_spec (d + 2) (now_ordinal env)) as [Hdue | _]; [| exact Hskip].
  destruct (fgt quantity fzero) eqn:Hpos.
  - specialize (Hcall "SELL" d eq_refl Hdue (or_introl (conj eq_refl eq_refl))).
    cbv zeta in Hcall.
    destruct (place_order st env symbol "SELL" (fabs quantity) true)
      as [[ok st2] events]. exact Hcall.
  - destruct (flt quantity fzero) eqn:Hneg; [| exact Hskip].
    specialize (Hcall "BUY" d eq_refl Hdue (or_intror (conj eq_refl eq_refl))).
    cbv zeta in Hcall.
    destruct (place_order st env symbol "BUY" (fabs quantity) true)
      as [[ok st2] events]. exact Hcall.
Qed.

Lemma exit_loop_orders env ps : forall st trace,
  let r := fold_left (exit_step env) ps (st, trace) in
  exists events,
    snd r = trace ++ events
    /\ forall s o, In (Submitted s o) events ->
         exists q d,
           In (s, q) ps
           /\ earnings_date env s = Some d /\ (d + 2 <= now_ordinal env)%Z
           /\ ((fgt q fzero = true /\ o_action o = "SELL")
               \/ (flt q fzero = true /\ o_action o = "BUY"))
           /\ to_int (fabs q) = Some (o_quantity o)
           /\ (1 <= o_quantity o)%Z
           /\ o_limit_price o <> None.
Proof.
  induction ps as [| [x qx] ps IH]; intros st trace; cbv zeta.
  - exists []. rewrite app_nil_r. split; [reflexivity | intros s o []].
  - cbn [fold_left].
    pose proof (exit_step_orders env st trace x qx) as Hstep.
    destruct (exit_step env (st, trace) (x, qx)) as [st1 tr1].
    cbv zeta in Hstep. cbn [fst snd] in Hstep.
    destruct Hstep as (Hq & ev1 & -> & Hev1).
    specialize (IH st1 (trace ++ ev1)). cbv zeta in IH.
    destruct IH as (ev2 & Heq2 & Hev2).
    exists (ev1 ++ ev2). split; [rewrite Heq2, app_assoc; reflexivity |].
    intros s o Hin. apply in_app_or in Hin. destruct Hin as [Hin | Hin].
    + destruct (Hev1 s o Hin) as (-> & (d & Hd & Hdue) & Hside & Hint & Hq1 & Hlim).
      exists qx, d. split; [left; reflexivity | auto 10].
    + destruct (Hev2 s o Hin) as (q & d & Hps & Hd & Hdue & Hside & Hint & Hq1 & Hlim).
      exists q, d. split; [right; exact Hps |]. auto 10.
Qed.

(** X12 ([check_exit_positions]).  Every order the holding-period pass hands
    to the broker closes a position of the portfolio whose first earnings
    date lies at least two days back: a SELL for a long position, a BUY for a
    short one, for [int(abs(quantity))] shares, always as a limit order. *)
Theorem exit_orders_close_positions st env s o :
  In (Submitted s o) (snd (check_exit_positions st env)) ->
  exists pf q d,
    portfolio env = Some pf /\ In (s, q) (positions_of pf)
    /\ earnings_date env s = Some d /\ (d + 2 <= now_ordinal env)%Z
    /\ ((fgt q fzero = true /\ o_action o = "SELL")
        \/ (flt q fzero = true /\ o_action o = "BUY"))
    /\ to_int (fabs q) = Some (o_quantity o)
    /\ (1 <= o_quantity o)%Z
    /\ o_limit_price o <> None.
Proof.
  unfold check_exit_positions, get_current_positions.
  destruct (portfolio env) as [pf |]; [| intros []].
  cbv zeta.
  pose proof (exit_loop_orders env (positions_of pf)
                (set_positions st (positions_of pf)) []) as H.
  cbv zeta in H. destruct H as (events & Heq & Hev).
  destruct (positions_of pf) as [| p ps] eqn:Hp; [intros [] |].
  rewrite Heq. simpl app. intros Hin.
  destruct (Hev s o Hin) as (q & d & Hps & Hd & Hdue & Hside & Hint & Hq & Hlim).
  exists pf, q, d. split; [reflexivity |]. rewrite Hp.
  split; [exact Hps |]. auto 10.
Qed.


(** One round of the stop-loss loop. *)
Lemma monitor_step_orders env st trace symbol quantity :
  let r := monitor_step env (st, trace) (symbol, quantity) in
  same_quotes env st (fst r)
  /\ stop_loss_prices (fst r) = stop_loss_prices st
  /\ exists events,
       snd r = trace ++ events
       /\ forall s o, In (Submitted s o) events ->
            s = symbol
            /\ fgt quantity fzero = true
            /\ (exists stop,
                  stop_loss_prices st !! symbol = Some stop
                  /\ fle (quote st env symbol) stop = true)
            /\ fle (quote st env symbol) fzero = false
            /\ o_action o = "SELL"
            /\ to_int (fabs quantity) = Some (o_quantity o)
            /\ (1 <= o_quantity o)%Z
            /\ o_limit_price o <> None.
Proof.
  set (P := fun events : list Event =>
    forall s o, In (Submitted s o) events ->
      s = symbol
      /\ fgt quantity fzero = true
      /\ (exists stop,
            stop_loss_prices st !! symbol = Some stop
            /\ fle (quote st env symbol) stop = true)
      /\ fle (quote st env symbol) fzero = false
      /\ o_action o = "SELL"
      /\ to_int (fabs quantity) = Some (o_quantity o)
      /\ (1 <= o_quantity o)%Z
      /\ o_limit_price o <> None).
  change (let r := monitor_step env (st, trace) (symbol, quantity) in
          same_quotes env st (fst r)
          /\ stop_loss_prices (fst r) = stop_loss_prices st
          /\ exists events, snd r = trace ++ events /\ P events).
  pose proof (get_latest_price_ledger st env symbol true) as Hl.
  pose proof (get_latest_price_same_quotes st env symbol) as Hq.
  assert (Hprice : quote st env symbol = fst (get_latest_price st env symbol true))
    by reflexivity.
  assert (Hskip : forall st1,
    same_quotes env st st1 -> stop_loss_prices st1 = stop_loss_prices st ->
    same_quotes env st st1 /\ stop_loss_prices st1 = stop_loss_prices st
    /\ exists events, trace = trace ++ events /\ P events).
  { intros st1 H1 H2. split; [exact H1 |]. split; [exact H2 |].
    exists []. rewrite app_nil_r. split; [reflexivity | intros s o []]. }
  assert (Hcall : forall st1 stop,
    same_quotes env st st1 -> stop_loss_prices st1 = stop_loss_prices st ->
    fgt quantity fzero = true ->
    stop_loss_prices st !! symbol = Some stop ->
    fle (quote st env symbol) stop = true ->
    let r := place_order st1 env symbol "SELL" (fabs quantity) true in
    same_quotes env st (snd (fst r))
    /\ stop_loss_prices (snd (fst r)) = stop_loss_prices st
    /\ exists events, trace ++ snd r = trace ++ events /\ P events).
  { intros st1 stop H1 H2 Hpos Hstop Hle. cbv zeta.
    split; [eapply same_quotes_trans;
            [exact H1 | apply place_order_same_quotes] |].
    pose proof (place_order_ledger st1 env symbol "SELL" (fabs quantity) true)
      as Hpo.
    cbv zeta in Hpo. destruct Hpo as (_ & _ & _ & _ & Hsell).
    destruct (Hsell eq_refl) as [_ Hsl]. split; [congruence |].
    eexists. split; [reflexivity |]. intros s o Hin.
    destruct (place_order_submitted_inv _ _ _ _ _ _ _ _ Hin)
      as (-> & _ & Hle0 & q & Hint & Hq0 & ->).
    destruct (order_for_fields env "SELL" q (quote st1 env symbol) true)
      as (Ha & Hoq & Hlim).
    rewrite Ha, Hoq. rewrite (H1 symbol) in *.
    split; [reflexivity |]. split; [exact Hpos |].
    split; [exists stop; auto |]. split; [exact Hle0 |].
    split; [reflexivity |]. split; [exact Hint |]. split; [lia | exact Hlim]. }
  clearbody P. cbv zeta. unfold monitor_step.
  destruct (get_latest_price st env symbol true) as [price st1].
  cbn [fst snd] in *. destruct Hl as (_ & Hsl & _).
  destruct (fle price fzero); [apply Hskip; assumption |].
  destruct (fgt quantity fzero) eqn:Hpos; cbn [andb];
    [| apply Hskip; assumption].
  unfold check_stop_loss. rewrite Hsl.
  destruct (stop_loss_prices st !! symbol) as [stop |] eqn:Hstop;
    [| apply Hskip; assumption].
  destruct (fle price stop) eqn:Hle; [| apply Hskip; assumption].
  rewrite <- Hprice in Hle.
  specialize (Hcall st1 stop Hq Hsl eq_refl eq_refl Hle). cbv zeta in Hcall.
  destruct (place_order st1 env symbol "SELL" (fabs quantity) true)
    as [[ok st2] events]. exact Hcall.
Qed.

Lemma monitor_loop_orders env ps : forall st trace,
  let r := fold_left (monitor_step env) ps (st, trace) in
  exists events,
    snd r = trace ++ events
    /\ forall s o, In (Submitted s o) events ->
         exists q stop,
           In (s, q) ps
           /\ fgt q fzero = true
           /\ stop_loss_prices st !! s = Some stop
           /\ fle (quote st env s) stop = true
           /\ fle (quote st env s) fzero = false
           /\ o_action o = "SELL"
           /\ to_int (fabs q) = Some (o_quantity o)
           /\ (1 <= o_quantity o)%Z
           /\ o_limit_price o <> None.
Proof.
  induction ps as [| [x qx] ps IH]; intros st trace; cbv zeta.
  - exists []. rewrite app_nil_r. split; [reflexivity | intros s o []].
  - cbn [fold_left].
    pose proof (monitor_step_orders env st trace x qx) as Hstep.
    destruct (monitor_step env (st, trace) (x, qx)) as [st1 tr1].
    cbv zeta in Hstep. cbn [fst snd] in Hstep.
    destruct Hstep as (Hq & Hsl & ev1 & -> & Hev1).
    specialize (IH st1 (trace ++ ev1)). cbv zeta in IH.
    destruct IH as (ev2 & Heq2 & Hev2).
    exists (ev1 ++ ev2). split; [rewrite Heq2, app_assoc; reflexivity |].
    intros s o Hin. apply in_app_or in Hin. destruct Hin as [Hin | Hin].
    + destruct (Hev1 s o Hin)
        as (-> & Hpos & (stop & Hstop & Hle) & Hle0 & Ha & Hint & Hq1 & Hlim).
      exists qx, stop. split; [left; reflexivity | auto 10].
    + destruct (Hev2 s o Hin)
        as (q & stop & Hps & Hpos & Hstop & Hle & Hle0 & Ha & Hint & Hq1 & Hlim).
      exists q, stop. split; [right; exact Hps |].
      rewrite <- (Hq s), <- Hsl. auto 10.
Qed.

(** X13 ([monitor_positions]).  Every order the stop-loss pass hands to the
    broker is a limit SELL of [int(abs(quantity))] shares of a long position
    of the portfolio for which the price the pass read (line 2082) is
    positive and at most the stored stop-loss price. *)
Theorem monitor_orders_close_longs st env s o :
  In (Submitted s o) (snd (monitor_positions st env)) ->
  exists pf q stop,
    portfolio env = Some pf /\ In (s, q) (positions_of pf)
    /\ fgt q fzero = true
    /\ stop_loss_prices st !! s = Some stop
    /\ fle (quote st env s) stop = true
    /\ fle (quote st env s) fzero = false
    /\ o_action o = "SELL"
    /\ to_int (fabs q) = Some (o_quantity o)
    /\ (1 <= o_quantity o)%Z
    /\ o_limit_price o <> None.
Proof.
  unfold monitor_positions, get_current_positions.
  destruct (portfolio env) as [pf |]; [| intros []].
  cbv zeta.
  pose proof (monitor_loop_orders env (positions_of pf)
                (set_positions st (positions_of pf)) []) as H.
  cbv zeta in H. destruct H as (events & Heq & Hev).
  destruct (positions_of pf) as [| p ps] eqn:Hp; [intros [] |].
  rewrite Heq. simpl app. intros Hin.
  destruct (Hev s o Hin)
    as (q & stop & Hps & Hpos & Hstop & Hle & Hle0 & Ha & Hint & Hq & Hlim).
  exists pf, q, stop. split; [reflexivity |]. rewrite Hp.
  split; [exact Hps |].
  replace (quote (set_positions st (p :: ps)) env s) with (quote st env s) in *
    by (symmetry; apply same_quotes_cache; reflexivity).
  auto 10.
Qed.

End CloseFacts.

(** ** The positions snapshot *)

Module PositionFacts.
Import Engine Views OrderFacts ExecutorFacts EntryOrderFacts BudgetFacts.

Lemma dict_get_set_eq {V : Type} k (v : V) d :
  dict_get k (dict_set k v d) = Some v.
Proof.
  induction d as [| [k' v'] d IH]; simpl.
  - rewrite String.eqb_refl. reflexivity.
  - destruct (String.eqb k k') eqn:E; simpl.
    + rewrite String.eqb_refl. reflexivity.
    + rewrite E. exact IH.
Qed.

Lemma dict_get_set_ne {V : Type} k k' (v : V) d :
  k' <> k -> dict_get k' (dict_set k v d) = dict_get k' d.
Proof.
  intros Hne. induction d as [| [k0 v0] d IH]; simpl.
  - destruct (String.eqb_spec k' k); [contradiction | reflexivity].
  - destruct (String.eqb_spec k k0) as [-> | Hk]; simpl.
    + destruct (String.eqb_spec k' k0); [contradiction | reflexivity].
    + destruct (String.eqb k' k0); [reflexivity | exact IH].
Qed.

Lemma dict_get_app {V : Type} k (d1 d2 : dict V) :
  dict_get k (d1 ++ d2) =
    match dict_get k d1 with
    | Some v => Some v
    | None => dict_get k d2
    end.
Proof.
  induction d1 as [| [k' v'] d1 IH]; simpl; [reflexivity |].
  destruct (String.eqb k k'); [reflexivity | exact IH].
Qed.

Lemma dict_get_In {V : Type} k (v : V) d :
  dict_get k d = Some v -> In (k, v) d.
Proof.
  induction d as [| [k' v'] d IH]; simpl; [discriminate |].
  destruct (String.eqb_spec k k') as [-> | Hne].
  - intros [= ->]. left. reflexivity.
  - intros H. right. apply IH. exact H.
Qed.

Lemma In_dict_get {V : Type} k (v : V) d :
  List.NoDup (dict_keys d) -> In (k, v) d -> dict_get k d = Some v.
Proof.
  induction d as [| [k' v'] d IH]; simpl; intros Hnd Hin; [contradiction |].
  apply List.NoDup_cons_iff in Hnd. destruct Hnd as [Hk Hnd].
  destruct Hin as [[= -> ->] | Hin].
  - rewrite String.eqb_refl. reflexivity.
  - destruct (String.eqb_spec k k') as [-> | Hne].
    + exfalso. apply Hk. unfold dict_keys.
      change k' with (fst (k', v)). apply in_map. exact Hin.
    + apply IH; assumption.
Qed.

Lemma dict_get_None {V : Type} k (d : dict V) :
  dict_get k d = None <-> ~ In k (map fst d).
Proof.
  induction d as [| [k' v'] d IH]; simpl.
  - split; [intros _ [] | reflexivity].
  - destruct (String.eqb_spec k k') as [-> | Hne].
    + split; [discriminate | intros H; exfalso; apply H; left; reflexivity].
    + rewrite IH. split.
      * intros H [Heq | Hin]; [congruence | contradiction].
      * intros H Hin. apply H. right. exact Hin.
Qed.

(** The dict built from the portfolio maps a symbol to its last entry. *)
Lemma positions_fold_get s (pf : list (string * pyfloat)) : forall d,
  dict_get s (fold_left (fun d p => dict_set (fst p) (snd p) d) pf d) =
    match dict_get s (rev pf) with
    | Some v => Some v
    | None => dict_get s d
    end.
Proof.
  induction pf as [| [k v] pf IH]; intros d; simpl; [reflexivity |].
  rewrite IH, dict_get_app. destruct (dict_get s (rev pf)); [reflexivity |].
  simpl. destruct (String.eqb_spec s k) as [-> | Hne].
  - apply dict_get_set_eq.
  - apply dict_get_set_ne. exact Hne.
Qed.

(** X14 ([get_current_positions]).  When the broker answers, the positions
    are rebuilt from the portfolio alone: the returned dict is the new
    [self.positions], it has one entry per symbol, a symbol maps to the
    quantity of its last portfolio entry, and a symbol the portfolio does not
    list has no entry, whatever was held before.  Nothing else changes. *)
Theorem get_current_positions_refresh st env pf :
  portfolio env = Some pf ->
  let r := get_current_positions st env in
  positions (snd r) = fst r
  /\ List.NoDup (dict_keys (fst r))
  /\ (forall s, dict_get s (fst r) = dict_get s (rev pf))
  /\ (forall s q, In (s, q) (fst r) <-> dict_get s (rev pf) = Some q)
  /\ (forall s, dict_get s (fst r) = None <-> ~ In s (map fst pf))
  /\ stop_loss_prices (snd r) = stop_loss_prices st
  /\ last_buy_time (snd r) = last_buy_time st
  /\ price_cache (snd r) = price_cache st
  /\ trade_history (snd r) = trade_history st.
Proof.
  intros Hpf. cbv zeta. unfold get_current_positions. rewrite Hpf.
  cbn [fst snd].
  assert (Hnd : List.NoDup (dict_keys (positions_of pf))).
  { unfold positions_of.
    apply (fold_dict_set_NoDup (V := pyfloat) fst snd pf []). apply List.NoDup_nil. }
  assert (Hget : forall s, dict_get s (positions_of pf) = dict_get s (rev pf)).
  { intros s. unfold positions_of. rewrite positions_fold_get.
    destruct (dict_get s (rev pf)); reflexivity. }
  split; [reflexivity |]. split; [exact Hnd |]. split; [exact Hget |].
  split.
  { intros s q. rewrite <- Hget. split.
    - apply In_dict_get. exact Hnd.
    - apply dict_get_In. }
  split; [| repeat split].
  intros s. rewrite Hget, dict_get_None, map_rev.
  split; intros H Hin; apply H; [apply -> in_rev | apply <- in_rev]; exact Hin.
Qed.


(** X15 ([get_current_positions] and its callers).  When reading the
    portfolio fails, [get_current_positions] returns an empty dict and keeps
    the state, so the stop-loss pass and the holding-period pass do nothing
    at all, and an entry pass goes on with the positions stored before. *)
Theorem portfolio_error_keeps_positions st env long_stocks short_stocks :
  portfolio env = None ->
  get_current_positions st env = ([], st)
  /\ monitor_positions st env = (st, [])
  /\ check_exit_positions st env = (st, [])
  /\ positions (fst (execute_trades st env long_stocks short_stocks)) =
       positions st.
Proof.
  intros Hpf.
  assert (Hg : get_current_positions st env = ([], st))
    by (unfold get_current_positions; rewrite Hpf; reflexivity).
  split; [exact Hg |].
  split; [unfold monitor_positions; rewrite Hg; reflexivity |].
  split; [unfold check_exit_positions; rewrite Hg; reflexivity |].
  destruct (execute_trades_cases st env long_stocks short_stocks)
    as [[_ [-> | ->]] | (acct & _ & _ & _ & ->)].
  - reflexivity.
  - rewrite Hg. reflexivity.
  - rewrite Hg. cbn [snd].
    set (st2 := load_trade_history st env).
    assert (Hpos2 : positions st2 = positions st)
      by apply (load_trade_history_frame st env).
    match goal with
    | |- positions (fst (fold_left ?f short_stocks (fold_left ?g long_stocks _))) = _ =>
        set (fs := f); set (fl := g)
    end.
    pose proof (entry_loop_orders env "BUY" (fun q => fgt q fzero)
                  (capital_per_stock (long_capital (net_liquidation_of acct))
                     long_stocks)
                  (negb (is_regular_hours env)) long_stocks st2 []) as Hl.
    cbv zeta in Hl. fold fl in Hl.
    destruct (fold_left fl long_stocks (st2, [])) as [st3 tr3].
    cbn [fst snd] in Hl. destruct Hl as (Hpos3 & _).
    pose proof (entry_loop_orders env "SELL" (fun q => flt q fzero)
                  (capital_per_stock (short_capital (net_liquidation_of acct))
                     short_stocks)
                  (negb (is_regular_hours env)) short_stocks st3 tr3) as Hs.
    cbv zeta in Hs. fold fs in Hs.
    destruct (fold_left fs short_stocks (st3, tr3)) as [st4 tr4].
    cbn [fst snd] in Hs |- *. destruct Hs as (Hpos4 & _). congruence.
Qed.

End PositionFacts.

(** ** What a cycle never undoes *)

Module InvariantFacts.
Import Engine Views OrderFacts EntryFacts ExecutorFacts EntryOrderFacts
  BudgetFacts.

Lemma keeps_refl env st : keeps env st st.
Proof. unfold keeps. repeat split; auto. Qed.

Lemma keeps_trans env a b c : keeps env a b -> keeps env b c -> keeps env a c.
Proof.
  intros (A1 & A2 & A3 & A4 & A5 & A6) (B1 & B2 & B3 & B4 & B5 & B6).
  unfold keeps. split; [congruence |]. split; [congruence |].
  split; [auto |]. split; [auto |]. split; [auto |].
  intros s t H. destruct (B6 s t H) as [H' | H']; [auto | right; exact H'].
Qed.

(** A step that only adds to the price cache. *)
Lemma keeps_cache env st st' :
  cooldown_seconds st' = cooldown_seconds st ->
  stop_loss_percent st' = stop_loss_percent st ->
  stop_loss_prices st' = stop_loss_prices st ->
  last_buy_time st' = last_buy_time st ->
  (forall k v, price_cache st !! k = Some v -> price_cache st' !! k = Some v) ->
  keeps env st st'.
Proof.
  intros H1 H2 H3 H4 H5. unfold keeps. rewrite H1, H2, H3, H4.
  repeat split; auto.
Qed.

Lemma get_latest_price_keeps env st s :
  keeps env st (snd (get_latest_price st env s true)).
Proof.
  pose proof (get_latest_price_ledger st env s true) as (_ & Hsl & Hlb & Hcd & Hpct & _).
  apply keeps_cache; try assumption.
  pose proof (get_latest_price_cache st env s) as H. cbv zeta in H.
  destruct H as [-> | [Hnone ->]]; [auto |].
  intros k v Hk. rewrite lookup_insert_ne; [exact Hk |].
  intros <-. congruence.
Qed.

Lemma settled_keeps env st1 symbol action price os :
  keeps env st1 (settled st1 env symbol action price os).
Proof.
  unfold settled.
  destruct (String.eqb action "BUY" && fgt (filled os) fzero);
    [| apply keeps_refl].
  unfold keeps. cbn. split; [reflexivity |]. split; [reflexivity |].
  split; [auto |]. split; [| split].
  - intros s Hs. destruct (String.eqb_spec s symbol) as [-> | Hne].
    + rewrite lookup_insert_eq. discriminate.
    + rewrite lookup_insert_ne by congruence. exact Hs.
  - intros s Hs. destruct (String.eqb_spec s symbol) as [-> | Hne].
    + rewrite lookup_insert_eq. discriminate.
    + rewrite lookup_insert_ne by congruence. exact Hs.
  - intros s t. destruct (String.eqb_spec s symbol) as [-> | Hne].
    + rewrite lookup_insert_eq. intros [= <-]. right. reflexivity.
    + rewrite lookup_insert_ne by congruence. auto.
Qed.

Lemma place_order_keeps env st symbol action quantity lim :
  keeps env st (snd (fst (place_order st env symbol action quantity lim))).
Proof.
  destruct (place_order_inv st env symbol action quantity lim)
    as [(st1 & -> & _ & [-> | ->]) | (q & polls & Hinv)]; cbn [fst snd].
  - apply keeps_refl.
  - apply get_latest_price_keeps.
  - cbv zeta in Hinv. destruct Hinv as (_ & _ & _ & _ & _ & _ & _ & ->).
    cbn [fst snd].
    eapply keeps_trans; [apply get_latest_price_keeps | apply settled_keeps].
Qed.

Lemma record_trade_keeps env st symbol action quantity price :
  keeps env st (record_trade st env symbol action quantity price).
Proof.
  pose proof (record_trade_ledger st env symbol action quantity price) as H.
  cbv zeta in H. destruct H as (_ & Hsl & Hlb & Hcd & Hpct & Hc).
  apply keeps_cache; try assumption. rewrite Hc. auto.
Qed.

Lemma load_trade_history_keeps env st : keeps env st (load_trade_history st env).
Proof.
  unfold load_trade_history.
  destruct (trade_file env); apply keeps_cache; auto.
Qed.

Lemma get_current_positions_keeps env st :
  keeps env st (snd (get_current_positions st env)).
Proof.
  unfold get_current_positions.
  destruct (portfolio env); [apply keeps_cache; auto | apply keeps_refl].
Qed.

Lemma entry_step_keeps env action holds cap lim st trace symbol :
  keeps env st (fst (entry_step env action holds cap lim (st, trace) symbol)).
Proof.
  destruct (entry_step_inv env action holds cap lim st trace symbol)
    as [(st1 & -> & _ & [-> | ->]) | (ratio & q & Hinv)]; cbn [fst snd].
  - apply keeps_refl.
  - apply get_latest_price_keeps.
  - cbv zeta in Hinv.
    destruct Hinv as (_ & _ & _ & _ & _ & _ & _ & _ & ->). cbn [fst].
    eapply keeps_trans; [apply get_latest_price_keeps |].
    eapply keeps_trans; [apply place_order_keeps |].
    match goal with
    | |- keeps _ ?a (if ?b then _ else _) => destruct b
    end; [apply record_trade_keeps | apply keeps_refl].
Qed.

Lemma fold_keeps {A : Type} env
    (f : Strategy * list Event -> A -> Strategy * list Event) :
  (forall st tr a, keeps env st (fst (f (st, tr) a))) ->
  forall l st tr, keeps env st (fst (fold_left f l (st, tr))).
Proof.
  intros Hf. induction l as [| a l IH]; intros st tr; cbn [fold_left].
  - apply keeps_refl.
  - specialize (Hf st tr a). destruct (f (st, tr) a) as [st1 tr1].
    cbn [fst] in Hf. eapply keeps_trans; [exact Hf | apply IH].
Qed.

Lemma execute_trades_keeps env st long_stocks short_stocks :
  keeps env st (fst (execute_trades st env long_stocks short_stocks)).
Proof.
  destruct (execute_trades_cases st env long_stocks short_stocks)
    as [[_ [-> | ->]] | (acct & _ & _ & _ & ->)].
  - apply keeps_refl.
  - apply get_current_positions_keeps.
  - eapply keeps_trans; [apply get_current_positions_keeps |].
    eapply keeps_trans; [apply load_trade_history_keeps |].
    match goal with
    | |- keeps _ ?a (fst (fold_left ?f short_stocks (fold_left ?g long_stocks (?a, ?t)))) =>
        pose proof (fold_keeps env g (entry_step_keeps env _ _ _ _)
                      long_stocks a t) as Hl;
        destruct (fold_left g long_stocks (a, t)) as [st3 tr3];
        pose proof (fold_keeps env f (entry_step_keeps env _ _ _ _)
                      short_stocks st3 tr3) as Hs
    end.
    cbn [fst] in Hl. eapply keeps_trans; eassumption.
Qed.

Lemma monitor_step_keeps env st trace p :
  keeps env st (fst (monitor_step env (st, trace) p)).
Proof.
  destruct p as [symbol quantity]. unfold monitor_step.
  pose proof (get_latest_price_keeps env st symbol) as Hk.
  destruct (get_latest_price st env symbol true) as [price st1].
  cbn [snd] in Hk.
  destruct (fle price fzero); [exact Hk |].
  destruct (fgt quantity fzero && check_stop_loss st1 symbol price);
    [| exact Hk].
  pose proof (place_order_keeps env st1 symbol "SELL" (fabs quantity) true) as Hp.
  destruct (place_order st1 env symbol "SELL" (fabs quantity) true)
    as [[ok st2] events].
  cbn [fst snd] in *. eapply keeps_trans; eassumption.
Qed.

Lemma exit_step_keeps env st trace p :
  keeps env st (fst (exit_step env (st, trace) p)).
Proof.
  destruct p as [symbol quantity]. unfold exit_step.
  destruct (earnings_date env symbol) as [d |]; [| apply keeps_refl].
  destruct (d + 2 <=? now_ordinal env)%Z; [| apply keeps_refl].
  destruct (fgt quantity fzero).
  - pose proof (place_order_keeps env st symbol "SELL" (fabs quantity) true) as Hp.
    destruct (place_order st env symbol "SELL" (fabs quantity) true)
      as [[ok st2] events]. exact Hp.
  - destruct (flt quantity fzero); [| apply keeps_refl].
    pose proof (place_order_keeps env st symbol "BUY" (fabs quantity) true) as Hp.
    destruct (place_order st env symbol "BUY" (fabs quantity) true)
      as [[ok st2] events]. exact Hp.
Qed.

Lemma monitor_positions_keeps env st :
  keeps env st (fst (monitor_positions st env)).
Proof.
  unfold monitor_positions.
  pose proof (get_current_positions_keeps env st) as Hg.
  destruct (get_current_positions st env) as [ps st1]. cbn [snd] in Hg.
  destruct ps as [| p ps]; [exact Hg |].
  eapply keeps_trans; [exact Hg |].
  apply (fold_keeps env (monitor_step env) (monitor_step_keeps env)).
Qed.

Lemma check_exit_positions_keeps env st :
  keeps env st (fst (check_exit_positions st env)).
Proof.
  unfold check_exit_positions.
  pose proof (get_current_positions_keeps env st) as Hg.
  destruct (get_current_positions st env) as [ps st1]. cbn [snd] in Hg.
  destruct ps as [| p ps]; [exact Hg |].
  eapply keeps_trans; [exact Hg |].
  apply (fold_keeps env (exit_step env) (exit_step_keeps env)).
Qed.

Lemma print_stock_selection_keeps env st long_stocks short_stocks :
  keeps env st (print_stock_selection st env long_stocks short_stocks).
Proof.
  unfold print_stock_selection.
  generalize (long_stocks ++ short_stocks). intros l. revert st.
  induction l as [| s l IH]; intros st; cbn [fold_left].
  - apply keeps_refl.
  - eapply keeps_trans; [apply get_latest_price_keeps | apply IH].
Qed.

(** One cycle, as a whole. *)
Lemma run_keeps sort_values pre_return top_quintile st env :
  keeps env st (snd (fst (run sort_values pre_return top_quintile st env))).
Proof.
  unfold run.
  destruct (earnings_data_loaded env); cbn [negb]; [| apply keeps_refl].
  destruct (Selection.select_stocks sort_values pre_return top_quintile)
    as [long_stocks short_stocks].
  set (st1 := match Selection.returns_frame sort_values pre_return top_quintile with
              | Some returns_df =>
                  if Selection.prints_selection returns_df
                  then print_stock_selection st env long_stocks short_stocks
                  else st
              | None => st
              end).
  assert (H1 : keeps env st st1).
  { unfold st1.
    destruct (Selection.returns_frame sort_values pre_return top_quintile)
      as [f |]; [| apply keeps_refl].
    destruct (Selection.prints_selection f);
      [apply print_stock_selection_keeps | apply keeps_refl]. }
  pose proof (execute_trades_keeps env st1 long_stocks short_stocks) as H2.
  destruct (execute_trades st1 env long_stocks short_stocks) as [st2 t1].
  pose proof (monitor_positions_keeps env st2) as H3.
  destruct (monitor_positions st2 env) as [st3 t2].
  pose proof (check_exit_positions_keeps env st3) as H4.
  destruct (check_exit_positions st3 env) as [st4 t3].
  cbn [fst snd] in *.
  eapply keeps_trans; [exact H1 |].
  eapply keeps_trans; [exact H2 |].
  eapply keeps_trans; eassumption.
Qed.

(** X16 ([run] and everything it calls).  One cycle never changes the
    cooldown length or the stop-loss percentage, never drops or overwrites a
    cached price, and never removes a stored stop-loss price or buy time: a
    symbol that had one before the cycle has one after it.  A buy time found
    after the cycle is the one from before or the current time. *)
Theorem run_never_forgets sort_values pre_return top_quintile st env :
  let st' := snd (fst (run sort_values pre_return top_quintile st env)) in
  cooldown_seconds st' = cooldown_seconds st
  /\ stop_loss_percent st' = stop_loss_percent st
  /\ (forall k v, price_cache st !! k = Some v -> price_cache st' !! k = Some v)
  /\ (forall s, stop_loss_prices st !! s <> None ->
                stop_loss_prices st' !! s <> None)
  /\ (forall s, last_buy_time st !! s <> None -> last_buy_time st' !! s <> None)
  /\ (forall s t, last_buy_time st' !! s = Some t ->
                  last_buy_time st !! s = Some t \/ t = time_time env).
Proof.
  cbv zeta.
  pose proof (run_keeps sort_values pre_return top_quintile st env) as H.
  unfold keeps in H. exact H.
Qed.

End InvariantFacts.

(** ** Connecting to the broker *)

Module AppFacts.
Import App.

Lemma connect_loop_spec answer max_attempts :
  forall remaining attempt slept,
    (attempt + remaining = max_attempts)%nat ->
    let r := connect_loop answer max_attempts attempt remaining slept in
    let ok := fst (fst r) in
    let attempts := snd (fst r) in
    let sleeps := snd r in
    (attempt <= attempts <= max_attempts)%nat
    /\ (forall i, (attempt < i < attempts)%nat -> answer i <> Some true)
    /\ (ok = true ->
        (attempt < attempts)%nat /\ answer attempts = Some true
        /\ sleeps = (slept + (attempts - attempt - 1))%nat)
    /\ (ok = false ->
        attempts = max_attempts
        /\ (forall i, (attempt < i <= max_attempts)%nat -> answer i <> Some true)
        /\ sleeps = (slept + (remaining - 1))%nat).
Proof.
  induction remaining as [| n IH]; intros attempt slept Hsum; cbv zeta.
  - cbn [connect_loop fst snd]. split; [lia |]. split; [intros i Hi; lia |].
    split; [discriminate |]. intros _. split; [lia |].
    split; [intros i Hi; lia | lia].
  - cbn [connect_loop].
    destruct (answer (S attempt)) as [[|] |] eqn:Ha.
    + cbn [fst snd]. split; [lia |]. split; [intros i Hi; lia |].
      split; [| discriminate]. intros _. split; [lia |].
      split; [exact Ha | lia].
    + specialize (IH (S attempt)
                    (if (S attempt <? max_attempts)%nat then S slept else slept)
                    ltac:(lia)).
      cbv zeta in IH. destruct IH as (Hb & Hno & Hok & Hfail).
      split; [lia |]. split.
      { intros i Hi. destruct (Nat.eq_dec i (S attempt)) as [-> | Hne];
          [congruence | apply Hno; lia]. }
      split.
      * intros H. destruct (Hok H) as (H1 & H2 & H3).
        split; [lia |]. split; [exact H2 |]. rewrite H3.
        destruct (Nat.ltb_spec (S attempt) max_attempts); lia.
      * intros H. destruct (Hfail H) as (H1 & H2 & H3).
        split; [exact H1 |]. split.
        { intros i Hi. destruct (Nat.eq_dec i (S attempt)) as [-> | Hne];
            [congruence | apply H2; lia]. }
        rewrite H3. destruct (Nat.ltb_spec (S attempt) max_attempts); lia.
    + specialize (IH (S attempt)
                    (if (S attempt <? max_attempts)%nat then S slept else slept)
                    ltac:(lia)).
      cbv zeta in IH. destruct IH as (Hb & Hno & Hok & Hfail).
      split; [lia |]. split.
      { intros i Hi. destruct (Nat.eq_dec i (S attempt)) as [-> | Hne];
          [congruence | apply Hno; lia]. }
      split.
      * intros H. destruct (Hok H) as (H1 & H2 & H3).
        split; [lia |]. split; [exact H2 |]. rewrite H3.
        destruct (Nat.ltb_spec (S attempt) max_attempts); lia.
      * intros H. destruct (Hfail H) as (H1 & H2 & H3).
        split; [exact H1 |]. split.
        { intros i Hi. destruct (Nat.eq_dec i (S attempt)) as [-> | Hne];
            [congruence | apply H2; lia]. }
        rewrite H3. destruct (Nat.ltb_spec (S attempt) max_attempts); lia.
Qed.

(** X17 ([EarningsReversalApp.connect_to_ib]).  The connection loop succeeds
    exactly when one of the first [max_attempts] attempts finds the
    connection up, and it stops at the first such attempt; otherwise it makes
    all [max_attempts] attempts and returns false.  It sleeps once between
    two attempts and never after the last one: the number of sleeps is the
    number of attempts minus one (none when [max_attempts] is 0). *)
Theorem connect_to_ib_retries answer max_attempts :
  let r := connect_to_ib answer max_attempts in
  let ok := fst (fst r) in
  let attempts := snd (fst r) in
  let sleeps := snd r in
  (ok = true <->
   exists i, (1 <= i <= max_attempts)%nat /\ answer i = Some true)
  /\ (attempts <= max_attempts)%nat
  /\ (forall i, (1 <= i < attempts)%nat -> answer i <> Some true)
  /\ (ok = true -> (1 <= attempts)%nat /\ answer attempts = Some true)
  /\ (ok = false -> attempts = max_attempts)
  /\ sleeps = (attempts - 1)%nat.
Proof.
  cbv zeta. unfold connect_to_ib.
  pose proof (connect_loop_spec answer max_attempts max_attempts 0%nat 0%nat
                eq_refl) as H.
  cbv zeta in H. destruct H as (Hb & Hno & Hok & Hfail).
  set (r := connect_loop answer max_attempts 0 max_attempts 0) in *.
  split.
  { split.
    - intros H. destruct (Hok H) as (H1 & H2 & _).
      exists (snd (fst r)). split; [lia | exact H2].
    - intros (i & Hi & Ha). destruct (fst (fst r)) eqn:E; [reflexivity |].
      destruct (Hfail eq_refl) as (_ & H2 & _). exfalso.
      apply (H2 i); [lia | exact Ha]. }
  split; [lia |]. split; [intros i Hi; apply Hno; lia |].
  split; [intros H; destruct (Hok H) as (H1 & H2 & _); split; [lia | exact H2] |].
  split; [intros H; apply (Hfail H) |].
  destruct (fst (fst r)) eqn:E.
  - destruct (Hok eq_refl) as (_ & _ & H3). lia.
  - destruct (Hfail eq_refl) as (H1 & _ & H3). lia.
Qed.

End AppFacts.

(** ** The tradable universe *)

Module UniverseFacts.
Import Engine Selection Universe SelectionFacts.

Lemma malformed_false s :
  malformed (Some s) = false <->
  s <> [] /\ (length s <= 5)%nat
  /\ contains hyphen s = false /\ contains dot s = false.
Proof.
  unfold malformed. rewrite !orb_false_iff, Nat.ltb_ge.
  destruct s; split; intros H; decompose [and] H; repeat split; auto;
    congruence.
Qed.

Section Broker.
Variable q : pystr -> bool.

Lemma filter_step_spec acc o :
  (accepted q o = true ->
     exists s, o = Some s /\ malformed (Some s) = false /\ q s = true
       /\ filter_step q acc o =
            mkFilterState (valid_symbols acc ++ [s]) (invalid_symbols acc)
              (asked acc ++ [s]))
  /\ (accepted q o = false ->
        valid_symbols (filter_step q acc o) = valid_symbols acc
        /\ invalid_symbols (filter_step q acc o) = invalid_symbols acc ++ [o]
        /\ (asked (filter_step q acc o) = asked acc
            \/ exists s, o = Some s /\ malformed (Some s) = false
                 /\ asked (filter_step q acc o) = asked acc ++ [s])).
Proof.
  unfold accepted, filter_step. destruct o as [s |].
  - destruct (malformed (Some s)) eqn:Hm; cbn [negb andb].
    + split; [discriminate |]. intros _. cbn. auto.
    + destruct (q s) eqn:Hq.
      * split; [| discriminate]. intros _. exists s. auto.
      * split; [discriminate |]. intros _. cbn.
        split; [reflexivity |]. split; [reflexivity |]. right. exists s. auto.
  - split; [discriminate |]. intros _. cbn. auto.
Qed.

Lemma filter_loop_from symbols : forall acc,
  let r := fold_left (filter_step q) symbols acc in
  (forall s, In s (valid_symbols r) <->
             In s (valid_symbols acc)
             \/ (In (Some s) symbols /\ malformed (Some s) = false
                 /\ q s = true))
  /\ invalid_symbols r =
       invalid_symbols acc
       ++ List.filter (fun o => negb (accepted q o)) symbols
  /\ (length (valid_symbols r) + length (invalid_symbols r) =
      length (valid_symbols acc) + length (invalid_symbols acc)
      + length symbols)%nat
  /\ (forall s, In s (asked r) ->
                In s (asked acc)
                \/ (In (Some s) symbols /\ malformed (Some s) = false))
  /\ (List.NoDup (valid_symbols acc) -> List.NoDup symbols ->
      (forall s, In s (valid_symbols acc) -> ~ In (Some s) symbols) ->
      List.NoDup (valid_symbols r)).
Proof.
  induction symbols as [| o symbols IH]; intros acc; cbv zeta.
  - cbn [fold_left List.filter]. rewrite app_nil_r.
    split; [intros s; simpl; tauto |].
    split; [reflexivity |].
    split; [simpl; lia |]. split; [auto | auto].
  - cbn [fold_left List.filter]. specialize (IH (filter_step q acc o)).
    cbv zeta in IH. destruct IH as (Hv & Hi & Hlen & Ha & Hnd).
    set (r := fold_left (filter_step q) symbols (filter_step q acc o)) in *.
    destruct (filter_step_spec acc o) as [Hyes Hno].
    destruct (accepted q o) eqn:Hacc; cbn [negb].
    + destruct (Hyes eq_refl) as (s0 & -> & Hm & Hq & Hstep). clear Hyes Hno.
      rewrite Hstep in Hv, Hi, Hlen, Ha, Hnd.
      cbn [valid_symbols invalid_symbols asked] in Hv, Hi, Hlen, Ha, Hnd.
      split.
      { intros s. rewrite Hv, in_app_iff. cbn [In]. split.
        - intros [[H | [<- | []]] | (H1 & H2)]; auto.
        - intros [H | ([[= ->] | H1] & H2)]; auto. }
      split; [exact Hi |].
      split; [rewrite length_app in Hlen; simpl in Hlen |- *; lia |].
      split.
      { intros s Hin. destruct (Ha s Hin) as [H | (H1 & H2)].
        - apply in_app_or in H. destruct H as [H | [<- | []]]; [auto |].
          right. split; [left; reflexivity | exact Hm].
        - right. split; [right; exact H1 | exact H2]. }
      intros Hnd0 Hnds Hfresh. inversion Hnds as [| ? ? Ho Hnds']; subst.
      apply Hnd; [| exact Hnds' |].
      * apply NoDup_snoc; [exact Hnd0 |]. intros Hin.
        apply (Hfresh s0 Hin). left. reflexivity.
      * intros s Hin Hin'. apply in_app_or in Hin.
        destruct Hin as [H | [<- | []]]; [| contradiction].
        apply (Hfresh s H). right. exact Hin'.
    + destruct (Hno eq_refl) as (Hv1 & Hi1 & Ha1). clear Hyes Hno.
      rewrite Hv1 in Hv, Hlen, Hnd. rewrite Hi1 in Hi, Hlen.
      split.
      { intros s. rewrite Hv. cbn [In]. split.
        - intros [H | (H1 & H2)]; auto.
        - intros [H | ([-> | H1] & H2 & H3)]; auto.
          unfold accepted in Hacc. rewrite H2, H3 in Hacc. discriminate Hacc. }
      split; [rewrite Hi, <- app_assoc; reflexivity |].
      split; [rewrite length_app in Hlen; simpl in Hlen |- *; lia |].
      split.
      { intros s Hin. destruct (Ha s Hin) as [H | (H1 & H2)].
        - destruct Ha1 as [Ha1 | (s0 & -> & Hm & Ha1)]; rewrite Ha1 in H;
            [auto |].
          apply in_app_or in H. destruct H as [H | [<- | []]]; [auto |].
          right. split; [left; reflexivity | exact Hm].
        - right. split; [right; exact H1 | exact H2]. }
      intros Hnd0 Hnds Hfresh. inversion Hnds as [| ? ? Ho Hnds']; subst.
      apply Hnd; [exact Hnd0 | exact Hnds' |].
      intros s Hin Hin'. apply (Hfresh s Hin). right. exact Hin'.
Qed.
End Broker.

Lemma joins_spec (l : list (option pystr)) :
  joins l = false <-> In None (firstn 20 l).
Proof.
  unfold joins. cbv zeta.
  assert (Hf : forall k : list (option pystr),
             forallb is_str k = false <-> In None k).
  { induction k as [| [s |] k IH]; simpl.
    - split; [discriminate | intros []].
    - rewrite IH. split; [auto | intros [H | H]; [discriminate | exact H]].
    - split; auto. }
  destruct l as [| x l].
  - simpl. split; [discriminate | intros []].
  - cbn [length Nat.ltb Nat.leb].
    replace (0 <? S (length l))%nat with true by reflexivity.
    rewrite Hf.
    replace (firstn (Nat.min 20 (S (length l))) (x :: l))
      with (firstn 20 (x :: l)); [reflexivity |].
    destruct (Nat.le_gt_cases 20 (S (length l))) as [H | H].
    + rewrite Nat.min_l by exact H. reflexivity.
    + rewrite Nat.min_r by lia.
      rewrite !firstn_all2; [reflexivity | simpl; lia | simpl; lia].
Qed.

(** X18 ([EarningsReversalStrategy.filter_valid_stocks]).  With [rejected]
    the input entries that are NaN, empty, longer than 5 characters, contain
    '-' or '.', or that the broker does not qualify, in input order: the call
    raises (the TypeError of the join on line 902) exactly when a NaN is among
    the first 20 of them.  When it returns, the symbols returned are exactly
    the input symbols that are not rejected, distinct inputs give distinct
    outputs, and every input is counted once, as valid or as rejected.  The
    broker is only ever asked about symbols of the accepted form. *)
Theorem filter_valid_stocks_spec (qualifyContracts : pystr -> bool)
    (symbols : list (option pystr)) :
  let rejected :=
    List.filter (fun o => negb (accepted qualifyContracts o)) symbols in
  (filter_valid_stocks qualifyContracts symbols = None <->
   In None (firstn 20 rejected))
  /\ (forall valid,
        filter_valid_stocks qualifyContracts symbols = Some valid ->
        (forall s,
            In s valid <->
            In (Some s) symbols
            /\ s <> [] /\ (length s <= 5)%nat
            /\ contains hyphen s = false /\ contains dot s = false
            /\ qualifyContracts s = true)
        /\ (List.NoDup symbols -> List.NoDup valid)
        /\ (length valid + length rejected = length symbols)%nat)
  /\ (forall s,
        In s (asked (filter_loop qualifyContracts symbols)) ->
        In (Some s) symbols
        /\ s <> [] /\ (length s <= 5)%nat
        /\ contains hyphen s = false /\ contains dot s = false).
Proof.
  cbv zeta.
  pose proof (filter_loop_from qualifyContracts symbols (mkFilterState [] [] []))
    as H.
  cbv zeta in H. destruct H as (Hv & Hi & Hlen & Ha & Hnd).
  fold (filter_loop qualifyContracts symbols) in Hv, Hi, Hlen, Ha, Hnd.
  cbn [valid_symbols invalid_symbols asked app length] in Hv, Hi, Hlen, Ha, Hnd.
  unfold filter_valid_stocks. cbv zeta. rewrite <- Hi.
  split.
  { rewrite <- joins_spec.
    destruct (joins (invalid_symbols (filter_loop qualifyContracts symbols)));
      split; congruence. }
  split.
  { intros valid.
    destruct (joins (invalid_symbols (filter_loop qualifyContracts symbols)));
      [| discriminate].
    intros [= <-]. split.
    { intros s. rewrite Hv. pose proof (malformed_false s) as Hm.
      cbn [In]. tauto. }
    split; [intros Hs; apply Hnd; [apply List.NoDup_nil | exact Hs | intros s []] |].
    exact Hlen. }
  intros s Hin. destruct (Ha s Hin) as [[] | (H1 & H2)].
  apply malformed_false in H2. tauto.
Qed.


(** *** The market-cap cut *)

Lemma cap_ge_total a b : cap_ge a b = false -> cap_ge b a = true.
Proof.
  destruct a as [x |], b as [y |]; simpl; try congruence.
  apply Qle_bool_total.
Qed.

Lemma cap_ge_trans a b c :
  cap_ge a b = true -> cap_ge b c = true -> cap_ge a c = true.
Proof.
  destruct a as [x |], b as [y |], c as [z |]; simpl; try congruence.
  intros H1 H2. eapply Qle_bool_trans; eassumption.
Qed.

Lemma insert_cap_perm r f : Permutation (r :: f) (insert_cap r f).
Proof.
  induction f as [| r' f IH]; simpl; [reflexivity |].
  destruct (cap_row_ge r r'); [reflexivity |].
  rewrite perm_swap. apply perm_skip. exact IH.
Qed.

Lemma sort_caps_perm f : Permutation f (sort_caps f).
Proof.
  induction f as [| r f IH]; simpl; [reflexivity |].
  rewrite <- insert_cap_perm. apply perm_skip. exact IH.
Qed.

Lemma insert_cap_sorted r f :
  StronglySorted (fun a b => cap_row_ge a b = true) f ->
  StronglySorted (fun a b => cap_row_ge a b = true) (insert_cap r f).
Proof.
  induction 1 as [| r' f Hs IH Hall]; simpl.
  - constructor; constructor.
  - destruct (cap_row_ge r r') eqn:Hge.
    + constructor; [constructor; assumption |].
      constructor; [exact Hge |].
      eapply List.Forall_impl; [| exact Hall].
      intros c Hc. unfold cap_row_ge in *. eapply cap_ge_trans; eauto.
    + constructor; [exact IH |].
      rewrite <- insert_cap_perm. constructor; [| exact Hall].
      unfold cap_row_ge in *. apply cap_ge_total. exact Hge.
Qed.

Lemma sort_caps_sorted f :
  StronglySorted (fun a b => cap_row_ge a b = true) (sort_caps f).
Proof.
  induction f as [| r f IH]; simpl; [constructor |].
  apply insert_cap_sorted. exact IH.
Qed.

Lemma filter_perm {A : Type} (p : A -> bool) (l l' : list A) :
  Permutation l l' -> Permutation (List.filter p l) (List.filter p l').
Proof.
  induction 1 as [| x l l' _ IH | x y l | l l' l'' _ IH1 _ IH2]; simpl.
  - constructor.
  - destruct (p x); [apply perm_skip |]; exact IH.
  - destruct (p x), (p y); try reflexivity. apply perm_swap.
  - etransitivity; eassumption.
Qed.

Lemma filter_sorted {A : Type} (R : A -> A -> Prop) (p : A -> bool) l :
  StronglySorted R l -> StronglySorted R (List.filter p l).
Proof.
  induction 1 as [| x l Hs IH Hall]; simpl; [constructor |].
  destruct (p x); [| exact IH]. constructor; [exact IH |].
  rewrite List.Forall_forall in *. intros y Hy.
  apply List.filter_In in Hy. apply Hall. tauto.
Qed.

Lemma keys_filter_NoDup {V : Type} (p : string * V -> bool) (d : dict V) :
  List.NoDup (dict_keys d) -> List.NoDup (dict_keys (List.filter p d)).
Proof.
  unfold dict_keys. induction d as [| x d IH]; simpl; intros Hnd; [exact Hnd |].
  inversion Hnd as [| ? ? Hx Hnd']; subst.
  destruct (p x); simpl; [| apply IH; exact Hnd'].
  apply List.NoDup_cons; [| apply IH; exact Hnd'].
  intros Hin. apply Hx. apply in_map_iff in Hin.
  destruct Hin as (y & Hy & Hin). apply List.filter_In in Hin.
  rewrite <- Hy. apply in_map. tauto.
Qed.

Lemma keys_unique {V : Type} (d : dict V) k v v' :
  List.NoDup (dict_keys d) -> In (k, v) d -> In (k, v') d -> v = v'.
Proof.
  unfold dict_keys. induction d as [| [k0 v0] d IH]; simpl; intros Hnd H1 H2;
    [contradiction |].
  inversion Hnd as [| ? ? Hx Hnd']; subst.
  destruct H1 as [E1 | H1]; destruct H2 as [E2 | H2].
  - congruence.
  - injection E1 as -> ->. exfalso. apply Hx.
    change k with (fst (k, v')). apply in_map. exact H2.
  - injection E2 as -> ->. exfalso. apply Hx.
    change k with (fst (k, v)). apply in_map. exact H1.
  - apply IH; assumption.
Qed.

Lemma sorted_head_tail {A : Type} (R : A -> A -> Prop) (l : list A) k a b :
  StronglySorted R l -> In a (firstn k l) -> In b (skipn k l) -> R a b.
Proof.
  intros Hs. revert k. induction Hs as [| r f Hs IH Hall]; intros k Ha Hb.
  - rewrite firstn_nil in Ha. destruct Ha.
  - destruct k as [| k]; [destruct Ha |]. simpl in Ha, Hb.
    destruct Ha as [<- | Ha].
    + rewrite List.Forall_forall in Hall. apply Hall. eapply In_skipn. exact Hb.
    + apply (IH k); assumption.
Qed.

Section CapSort.
Variable sort_values_desc : dict pyfloat -> dict pyfloat.
Hypothesis sort_values_desc_perm :
  forall f, Permutation f (sort_values_desc f).
Hypothesis sort_values_desc_sorted :
  forall f, StronglySorted (fun a b => cap_row_ge a b = true)
              (sort_values_desc f).

Lemma top_quintile_of_cut market_caps :
  let positive := List.filter (fun r => fgt (snd r) fzero) market_caps in
  let ranked :=
    List.filter (fun r => fgt (snd r) fzero) (sort_values_desc market_caps) in
  Permutation positive ranked
  /\ StronglySorted (fun a b => cap_row_ge a b = true) ranked
  /\ top_quintile_of sort_values_desc market_caps =
       match ranked with
       | [] => None
       | _ => Some (map fst (firstn (Nat.max 1 (length positive / 5)) ranked))
       end.
Proof.
  cbv zeta.
  assert (Hp : Permutation
                 (List.filter (fun r => fgt (snd r) fzero) market_caps)
                 (List.filter (fun r => fgt (snd r) fzero)
                    (sort_values_desc market_caps)))
    by (apply filter_perm, sort_values_desc_perm).
  split; [exact Hp |].
  split; [apply filter_sorted, sort_values_desc_sorted |].
  unfold top_quintile_of. cbv zeta.
  rewrite quintile_count_div5, (Permutation_length Hp). reflexivity.
Qed.

End CapSort.

(** X19 ([select_stocks], lines 1580-1596).  With a descending sort of the
    market caps (NaN last), the cut keeps max(1, floor(n / 5)) symbols, where
    n counts the symbols with a positive market cap; it returns nothing only
    when n = 0.  Every symbol kept has a positive market cap, and when the
    symbols are distinct no symbol left out has a larger market cap than a
    symbol kept. *)
Theorem top_quintile_of_largest
    (sort_values_desc : dict pyfloat -> dict pyfloat)
    (sort_values_desc_perm : forall f, Permutation f (sort_values_desc f))
    (sort_values_desc_sorted :
       forall f, StronglySorted (fun a b => cap_row_ge a b = true)
                   (sort_values_desc f))
    (market_caps : dict pyfloat) :
  let positive := List.filter (fun r => fgt (snd r) fzero) market_caps in
  match top_quintile_of sort_values_desc market_caps with
  | None => positive = []
  | Some top_quintile =>
      positive <> []
      /\ length top_quintile = Nat.max 1 (length positive / 5)
      /\ (forall s, In s top_quintile ->
            exists c, In (s, c) market_caps /\ fgt c fzero = true)
      /\ (List.NoDup (dict_keys market_caps) ->
          List.NoDup top_quintile
          /\ forall s c s' c',
               In (s, c) market_caps -> In s top_quintile ->
               In (s', c') market_caps -> fgt c' fzero = true ->
               ~ In s' top_quintile ->
               fle c' c = true)
  end.
Proof.
  cbv zeta.
  pose proof (top_quintile_of_cut sort_values_desc sort_values_desc_perm
                sort_values_desc_sorted market_caps) as H.
  cbv zeta in H. destruct H as (Hp & Hs & ->).
  set (positive := List.filter (fun r => fgt (snd r) fzero) market_caps) in *.
  set (ranked := List.filter (fun r => fgt (snd r) fzero)
                   (sort_values_desc market_caps)) in *.
  destruct ranked as [| r0 rest] eqn:Hr.
  { apply Permutation_sym, Permutation_nil in Hp. exact Hp. }
  assert (Hn0 : (1 <= length ranked)%nat) by (rewrite Hr; simpl; lia).
  cbv iota. rewrite <- Hr in *. clear Hr r0 rest.
  set (k := Nat.max 1 (length positive / 5)).
  assert (Hlen : length ranked = length positive)
    by (symmetry; apply Permutation_length; exact Hp).
  assert (Hn : (1 <= length positive)%nat) by lia.
  assert (Hpos : positive <> []).
  { intros H0. rewrite H0 in Hn. simpl in Hn. lia. }
  assert (Hk : (k <= length ranked)%nat).
  { unfold k. rewrite Hlen.
    assert (length positive / 5 <= length positive)%nat
      by (apply Nat.Div0.div_le_upper_bound; lia).
    lia. }
  assert (Hranked : forall s c, In (s, c) ranked <->
                                In (s, c) market_caps /\ fgt c fzero = true).
  { intros s c. unfold ranked. rewrite List.filter_In. simpl.
    split; intros [H1 H2]; (split; [| exact H2]).
    - eapply Permutation_in; [apply Permutation_sym, sort_values_desc_perm | exact H1].
    - eapply Permutation_in; [apply sort_values_desc_perm | exact H1]. }
  split; [exact Hpos |].
  split; [rewrite length_map, length_firstn; lia |].
  split.
  { intros s Hin. apply in_map_iff in Hin. destruct Hin as ([s' c] & <- & Hin).
    apply In_firstn in Hin. apply Hranked in Hin. exists c. exact Hin. }
  intros Hnd.
  assert (Hndr : List.NoDup (dict_keys ranked)).
  { unfold ranked. apply keys_filter_NoDup. unfold dict_keys.
    eapply Permutation_NoDup; [| exact Hnd].
    apply Permutation_map. apply sort_values_desc_perm. }
  split.
  { unfold dict_keys in Hndr. rewrite <- (firstn_skipn k ranked), map_app in Hndr.
    apply NoDup_app_remove_r in Hndr. exact Hndr. }
  intros s c s' c' Hin Htop Hin' Hpos' Hout.
  apply in_map_iff in Htop. destruct Htop as ([s1 c1] & Hs1 & Htop).
  simpl in Hs1. subst s1.
  assert (Hc1 : c1 = c).
  { apply (keys_unique market_caps s); [exact Hnd | | exact Hin].
    apply In_firstn in Htop. apply Hranked in Htop. tauto. }
  subst c1.
  assert (Htail : In (s', c') (skipn k ranked)).
  { assert (Hr' : In (s', c') ranked) by (apply Hranked; auto).
    rewrite <- (firstn_skipn k ranked) in Hr'. apply in_app_or in Hr'.
    destruct Hr' as [Hf | Ht]; [| exact Ht].
    exfalso. apply Hout. change s' with (fst (s', c')). apply in_map. exact Hf. }
  pose proof (sorted_head_tail _ ranked k (s, c) (s', c') Hs Htop Htail) as Hge.
  cbv beta in Hge. unfold cap_row_ge in Hge. simpl in Hge.
  destruct c' as [y |]; [| discriminate Hpos'].
  destruct c as [x |]; [exact Hge | discriminate Hge].
Qed.

End UniverseFacts.

(** ** Where the candidates come from *)

Module CandidateFacts.
Import Selection SelectionFacts.

Lemma dict_set_entries {V : Type} (P : string -> V -> Prop) k v (d : dict V) :
  P k v -> (forall k' v', In (k', v') d -> P k' v') ->
  forall k' v', In (k', v') (dict_set k v d) -> P k' v'.
Proof.
  intros Hk. induction d as [| [k0 v0] d IH]; simpl; intros Hd k' v' Hin.
  - destruct Hin as [[= <- <-] | []]. exact Hk.
  - destruct (String.eqb k k0).
    + destruct Hin as [[= <- <-] | Hin]; [exact Hk | apply Hd; right; exact Hin].
    + destruct Hin as [[= <- <-] | Hin]; [apply Hd; left; reflexivity |].
      apply IH; [| exact Hin]. intros a b Hab. apply Hd. right. exact Hab.
Qed.

(** Every entry of the returns dict is a requested symbol with the return
    the market data gave for it. *)
Lemma calculate_pre_earnings_returns_entries pre_return symbols k ov :
  In (k, ov) (calculate_pre_earnings_returns pre_return symbols) ->
  In k symbols /\ ov = pre_return k.
Proof.
  unfold calculate_pre_earnings_returns.
  assert (H : forall acc,
    (forall k ov, In (k, ov) acc -> In k symbols /\ ov = pre_return k) ->
    forall l, (forall s, In s l -> In s symbols) ->
    forall k ov,
      In (k, ov) (fold_left (fun returns s => dict_set s (pre_return s) returns)
                    l acc) ->
      In k symbols /\ ov = pre_return k).
  { intros acc Hacc l. revert acc Hacc.
    induction l as [| s l IH]; intros acc Hacc Hl k' ov'; simpl; [apply Hacc |].
    apply IH.
    - apply (dict_set_entries (fun k v => In k symbols /\ v = pre_return k)).
      + split; [apply Hl; left; reflexivity | reflexivity].
      + exact Hacc.
    - intros s' Hs'. apply Hl. right. exact Hs'. }
  apply (H [] (fun _ _ F => match F with end) symbols (fun _ Hs => Hs)).
Qed.

Lemma valid_returns_entries (d : dict (option pyfloat)) k :
  In k (dict_keys (valid_returns_of d)) -> exists v, In (k, Some v) d.
Proof.
  induction d as [| [k' [v |]] d IH]; simpl; intros H; [contradiction | |].
  - destruct H as [-> | H]; [exists v; left; reflexivity |].
    destruct (IH H) as (v' & Hv'). exists v'. right. exact Hv'.
  - destruct (IH H) as (v' & Hv'). exists v'. right. exact Hv'.
Qed.

Lemma NoDup_firstn {A : Type} n (l : list A) :
  List.NoDup l -> List.NoDup (firstn n l).
Proof.
  intros H. rewrite <- (firstn_skipn n l) in H.
  apply NoDup_app_remove_r in H. exact H.
Qed.

Lemma NoDup_skipn {A : Type} n (l : list A) :
  List.NoDup l -> List.NoDup (skipn n l).
Proof.
  intros H. rewrite <- (firstn_skipn n l) in H.
  apply NoDup_app_remove_l in H. exact H.
Qed.

(** The two lists are cut out of the ranked symbols. *)
Lemma select_from_frame_within f :
  List.NoDup (symbols_of f) ->
  List.NoDup (fst (select_from_frame f))
  /\ List.NoDup (snd (select_from_frame f))
  /\ forall s, In s (fst (select_from_frame f))
               \/ In s (snd (select_from_frame f)) ->
               In s (symbols_of f).
Proof.
  intros Hnd.
  destruct (Nat.le_gt_cases 2 (length f)) as [Hlen | Hlen].
  - rewrite select_from_frame_slices by assumption. cbn [fst snd].
    unfold partition_candidates, tail, symbols_of in *.
    destruct (length f <? 3)%nat; cbn [fst snd];
      rewrite <- !firstn_map, <- !skipn_map;
      (split; [apply NoDup_firstn, NoDup_firstn; exact Hnd |]);
      (split; [apply NoDup_firstn, NoDup_skipn; exact Hnd |]);
      intros s [H | H]; apply In_firstn in H;
      [eapply In_firstn | eapply In_skipn | eapply In_firstn | eapply In_skipn];
      exact H.
  - destruct f as [| r [| r2 f']]; simpl in Hlen; try lia.
    + simpl. split; [constructor |]. split; [constructor |]. intros s [[] | []].
    + simpl. destruct (flt (pre_earnings_return r) fzero); simpl;
        (split; [repeat constructor; intros [] |]);
        (split; [repeat constructor; intros [] |]);
        intros s [H | H]; tauto.
Qed.

(** X20 ([select_stocks], lines 1602-1616 and 1668-1684).  Every symbol
    [select_stocks] returns was in the list handed to
    [calculate_pre_earnings_returns] and has a computed (not None) return;
    neither list repeats a symbol. *)
Theorem select_stocks_sound
    (sort_values : frame -> frame)
    (sort_values_perm : forall f, Permutation f (sort_values f))
    (pre_return : string -> option pyfloat)
    (top_quintile : option (list string)) :
  let r := select_stocks sort_values pre_return top_quintile in
  List.NoDup (fst r) /\ List.NoDup (snd r)
  /\ forall s, In s (fst r) \/ In s (snd r) ->
       exists symbols v,
         top_quintile = Some symbols /\ In s symbols
         /\ pre_return s = Some v.
Proof.
  cbv zeta. rewrite select_stocks_frame.
  destruct (returns_frame sort_values pre_return top_quintile) as [f |] eqn:Hf.
  2:{ simpl. split; [constructor |]. split; [constructor |]. intros s [[] | []]. }
  pose proof (returns_frame_NoDup _ sort_values_perm _ _ _ Hf) as Hnd.
  destruct (select_from_frame_within f Hnd) as (H1 & H2 & H3).
  split; [exact H1 |]. split; [exact H2 |].
  intros s Hs. specialize (H3 s Hs).
  destruct top_quintile as [symbols |]; [| discriminate Hf].
  simpl in Hf. injection Hf as <-.
  assert (Hk : In s (dict_keys (valid_returns_of
                  (calculate_pre_earnings_returns pre_return symbols)))).
  { rewrite <- (frame_from_symbols 0). unfold symbols_of in *.
    eapply Permutation_in; [| exact H3].
    apply Permutation_map, Permutation_sym, sort_values_perm. }
  apply valid_returns_entries in Hk. destruct Hk as (v & Hv).
  apply calculate_pre_earnings_returns_entries in Hv.
  destruct Hv as [Hin Hpre]. exists symbols, v. auto.
Qed.

(** X21 ([select_stocks], lines 1618-1642).  With fewer than three ranked
    symbols: none gives two empty lists; a single one goes long exactly when
    its return is negative and short otherwise (also on a zero or NaN
    return); with two, the one ranked first goes long and the other one
    short, whatever the signs of their returns. *)
Theorem select_stocks_few
    (sort_values : frame -> frame)
    (sort_values_perm : forall f, Permutation f (sort_values f))
    (sort_values_sorted : forall f,
        StronglySorted (fun a b => row_le a b = true) (sort_values f))
    (pre_return : string -> option pyfloat)
    (top_quintile : option (list string)) (returns_df : frame) :
  returns_frame sort_values pre_return top_quintile = Some returns_df ->
  (length returns_df < 3)%nat ->
  match returns_df with
  | [] => select_stocks sort_values pre_return top_quintile = ([], [])
  | [r] =>
      select_stocks sort_values pre_return top_quintile =
        if flt (pre_earnings_return r) fzero
        then ([symbol r], []) else ([], [symbol r])
  | [a; b] =>
      row_le a b = true /\ symbol a <> symbol b
      /\ select_stocks sort_values pre_return top_quintile =
           ([symbol a], [symbol b])
  | _ => False
  end.
Proof.
  intros Hf Hlen. rewrite select_stocks_frame, Hf.
  pose proof (returns_frame_NoDup _ sort_values_perm _ _ _ Hf) as Hnd.
  assert (Hs : StronglySorted (fun a b => row_le a b = true) returns_df).
  { destruct top_quintile as [symbols |]; simpl in Hf; [| discriminate].
    injection Hf as <-. apply sort_values_sorted. }
  destruct returns_df as [| a [| b [| c rest]]]; simpl in Hlen; try lia.
  - reflexivity.
  - reflexivity.
  - split.
    { inversion Hs as [| ? ? _ Hall]; subst.
      inversion Hall; subst. assumption. }
    split.
    { simpl in Hnd. inversion Hnd as [| ? ? Hx _]; subst.
      intros Heq. apply Hx. left. symmetry. exact Heq. }
    rewrite select_from_frame_slices by (simpl; auto; lia). reflexivity.
Qed.

End CandidateFacts.

(** ** Limit prices *)

Module LimitFacts.
Import Engine Views OrderFacts PriceFacts ExecutorFacts BudgetFacts CloseFacts.




End LimitFacts.

(** ** Running a cycle after a lost connection *)

Module ShellFacts.
Import Engine Views App AppFacts InvariantFacts.

Lemma connect_to_ib_ok answer max_attempts :
  fst (fst (connect_to_ib answer max_attempts)) = true <->
  exists i, (1 <= i <= max_attempts)%nat /\ answer i = Some true.
Proof.
  unfold connect_to_ib.
  pose proof (connect_loop_spec answer max_attempts max_attempts 0%nat 0%nat
                eq_refl) as H.
  cbv zeta in H. destruct H as (Hb & _ & Hok & Hfail).
  set (r := connect_loop answer max_attempts 0 max_attempts 0) in *.
  split.
  - intros H. destruct (Hok H) as (H1 & H2 & _).
    exists (snd (fst r)). split; [lia | exact H2].
  - intros (i & Hi & Ha). destruct (fst (fst r)) eqn:E; [reflexivity |].
    destruct (Hfail eq_refl) as (_ & H2 & _). exfalso.
    apply (H2 i); [lia | exact Ha].
Qed.

(** X23 ([EarningsReversalApp.run_strategy_once]).  When the connection is
    found down, nothing is run unless one of three reconnection attempts
    succeeds and a new strategy object can be built; the cycle then runs on
    that new object.  Its outcome does not depend on the engine held before:
    the cycle starts without positions, stop-loss prices, buy times or cached
    prices and with the default cooldown and stop-loss percentage, so every
    buy time known afterwards was set during this very cycle. *)
Theorem reconnect_starts_afresh sort_values pre_return top_quintile
    link env st :
  is_connected link = false ->
  let r :=
    run_strategy_once sort_values pre_return top_quintile (Some st) link env in
  let reconnected :=
    exists i, (1 <= i <= 3)%nat /\ connect_answer link i = Some true in
  (~ reconnected \/ is_connected_after link = false
   \/ strategy_created link = false ->
   r = (false, Some st, []))
  /\ (reconnected -> is_connected_after link = true ->
      strategy_created link = true ->
      exists ok st' trace,
        r = (ok, Some st', trace)
        /\ run sort_values pre_return top_quintile
             (init (Fin 10) (Fin (5 # 100))) env = (ok, st', trace)
        /\ cooldown_seconds st' =
             fmul (fmul (fmul (Fin 10) (Fin 24)) (Fin 60)) (Fin 60)
        /\ stop_loss_percent st' = Fin (5 # 100)
        /\ (forall s t, last_buy_time st' !! s = Some t -> t = time_time env)
        /\ forall st0,
             run_strategy_once sort_values pre_return top_quintile (Some st0)
               link env = r).
Proof.
  intros Hdown. cbv zeta. unfold run_strategy_once. rewrite Hdown.
  pose proof (connect_to_ib_ok (connect_answer link) 3) as Hc.
  split.
  - intros [Hno | [Hafter | Hnew]].
    + destruct (fst (fst (connect_to_ib (connect_answer link) 3))) eqn:E;
        [| reflexivity].
      exfalso. apply Hno. apply Hc. reflexivity.
    + destruct (negb (fst (fst (connect_to_ib (connect_answer link) 3))));
        [reflexivity |].
      unfold initialize_strategy. rewrite Hafter. reflexivity.
    + destruct (negb (fst (fst (connect_to_ib (connect_answer link) 3))));
        [reflexivity |].
      unfold initialize_strategy. rewrite Hnew.
      destruct (negb (is_connected_after link)); reflexivity.
  - intros Hre Hafter Hnew. apply Hc in Hre. rewrite Hre. cbn [negb].
    unfold initialize_strategy. rewrite Hafter, Hnew. cbn [negb].
    pose proof (run_keeps sort_values pre_return top_quintile
                  (init (Fin 10) (Fin (5 # 100))) env) as Hk.
    destruct (run sort_values pre_return top_quintile
                (init (Fin 10) (Fin (5 # 100))) env) as [[ok st'] trace].
    cbn [fst snd] in Hk. destruct Hk as (Hcd & Hpct & _ & _ & _ & Hlb).
    exists ok, st', trace. split; [reflexivity |]. split; [reflexivity |].
    split; [exact Hcd |]. split; [exact Hpct |]. split; [| reflexivity].
    intros s t Ht. destruct (Hlb s t Ht) as [H0 | H0]; [| exact H0].
    cbn in H0. rewrite lookup_empty in H0. discriminate H0.
Qed.

End ShellFacts.

(** ** The properties at sample inputs *)

Module MoreExamples.
Import Engine Samples MoreSamples Views.

(** X1 on Tuesday 2025-04-22 at 10:00, inside regular hours. *)
Lemma can_trade_now_window_witness :
  is_regular_hours open_env = true /\ can_trade_now open_env = true.
Proof.
  assert (Hreg : is_regular_hours open_env = true) by reflexivity.
  split; [exact Hreg |].
  apply (proj2 SessionFacts.can_trade_now_window open_env Hreg).
  simpl. intros H.
  repeat (destruct H as [H | H]; [discriminate H |]). exact H.
Defined.

(** X2 at New Year's Day 2026, a Thursday. *)
Lemma holidays_only_2025_witness :
  is_trading_day (2026, 1, 1)%nat 3 = true.
Proof.
  apply SessionFacts.holidays_only_2025; [discriminate | lia].
Defined.

(** X3 at a limit BUY of 10 BBB that fills: one order goes out. *)
Lemma place_order_submitted_order_witness :
  exists o,
    snd (place_order fresh open_env "BBB" "BUY" (Fin 10) true) =
      [PlaceOrderCall "BBB" "BUY" (Fin 10); Submitted "BBB" o].
Proof.
  pose proof (ExecutorFacts.place_order_submitted_order fresh open_env "BBB"
                "BUY" (Fin 10) true) as H.
  remember (place_order fresh open_env "BBB" "BUY" (Fin 10) true) as r eqn:E.
  destruct r as [[ok st'] events].
  assert (Hok : ok = true) by (vm_compute in E; congruence).
  exact (proj1 H Hok).
Defined.

(** X5 at the same order: BBB is in cooldown from the current time on. *)
Lemma buy_fill_starts_cooldown_witness :
  last_buy_time
    (snd (fst (place_order fresh open_env "BBB" "BUY" (Fin 10) true)))
    !! "BBB" = Some (time_time open_env).
Proof.
  pose proof (ExecutorFacts.buy_fill_starts_cooldown fresh open_env "BBB"
                (Fin 10) true) as H.
  remember (place_order fresh open_env "BBB" "BUY" (Fin 10) true) as r eqn:E.
  destruct r as [[ok st'] events].
  assert (Hev : events =
    [PlaceOrderCall "BBB" "BUY" (Fin 10);
     Submitted "BBB"
       (mkOrder "BUY" 10 (Some (round2 (fmul (Fin 90) (Fin (101 # 100)))))
          true "DAY")]).
  { vm_compute in E. injection E as _ _ ->. vm_compute. reflexivity. }
  refine (proj1 (H _ _ _ eq_refl _)).
  - rewrite Hev. right. left. reflexivity.
  - reflexivity.
Defined.

(** X6 at a first quote of AAA: asked again within the hour, even with the
    fallback switched off, the same price comes back. *)
Lemma price_cache_sticks_witness :
  get_latest_price (snd (get_latest_price fresh open_env "AAA" true))
    open_env "AAA" false =
  (Fin 90, snd (get_latest_price fresh open_env "AAA" true)).
Proof.
  pose proof (ExecutorFacts.price_cache_sticks fresh open_env "AAA" true) as H.
  remember (get_latest_price fresh open_env "AAA" true) as r eqn:E.
  destruct r as [price st'].
  assert (Hp : price = Fin 90) by (vm_compute in E; congruence).
  destruct H as [[_ H] | (_ & H0 & _)].
  - rewrite <- Hp. exact (H open_env false eq_refl).
  - rewrite Hp in H0. discriminate H0.
Defined.

(** X7 at a BUY of 10 BBB recorded after yesterday's buy of AAA. *)
Lemma record_trade_then_traded_today_witness :
  trade_history with_history = Some [yesterday_buy]
  /\ is_traded_today
       (record_trade with_history open_env "BBB" "BUY" 10 (Fin 90))
       open_env "BBB" (Some "BUY") = true.
Proof.
  split; [reflexivity |].
  exact (proj1 (HistoryFacts.record_trade_then_traded_today with_history
                  open_env "BBB" "BUY" 10 (Fin 90) [yesterday_buy] eq_refl)).
Defined.


(** X8 at a first BUY of BBB with the history loaded: the round records the
    trade and a second round on that state changes nothing; the log file is
    missing, so after a reload the trade is no longer seen. *)
Lemma entry_record_blocks_repeat_witness :
  let r := entry_step open_env "BUY" (fun q => fgt q fzero) (Fin 15000) false
             (load_trade_history fresh open_env, []) "BBB" in
  trade_history (fst r) <> trade_history (load_trade_history fresh open_env)
  /\ entry_step open_env "BUY" (fun q => fgt q fzero) (Fin 15000) false
       (fst r, snd r) "BBB" = (fst r, snd r)
  /\ trade_file open_env = None
  /\ is_traded_today (load_trade_history (fst r) open_env) open_env "BBB"
       (Some "BUY") = false.
Proof.
  cbv zeta.
  pose proof (EntryOrderFacts.entry_record_blocks_repeat open_env "BUY"
                (fun q => fgt q fzero) (Fin 15000) false
                (load_trade_history fresh open_env) [] "BBB") as H.
  cbv zeta in H. destruct H as [Hround Hpass].
  assert (Hneq :
    trade_history
      (fst (entry_step open_env "BUY" (fun q => fgt q fzero) (Fin 15000) false
              (load_trade_history fresh open_env, []) "BBB"))
    <> trade_history (load_trade_history fresh open_env)).
  { vm_compute. discriminate. }
  split; [exact Hneq |].
  split.
  { exact (proj2 (Hround Hneq) open_env (fun q => fgt q fzero) (Fin 15000)
             false _ eq_refl). }
  split; [reflexivity |].
  exact (proj1 (Hpass _ open_env (fun q => fgt q fzero) (Fin 15000) false [])).
Defined.

(** X9 at 15000 of capital and a price of 90: 166 shares, with
    165 x 90 < 15000 < 167 x 90. *)
Lemma entry_order_sizing_witness :
  In (Submitted "BBB" buy_166)
     (snd (entry_step open_env "BUY" (fun q => fgt q fzero) (Fin 15000) false
             (fresh, []) "BBB"))
  /\ (1 <= o_quantity buy_166)%Z
  /\ exists c p,
       Fin 15000 = Fin c /\ quote fresh open_env "BBB" = Fin p /\ (0 < p)%Q
       /\ (inject_Z (o_quantity buy_166 - 1) * p < c)%Q
       /\ (c < inject_Z (o_quantity buy_166 + 1) * p)%Q.
Proof.
  assert (Hin : In (Submitted "BBB" buy_166)
     (snd (entry_step open_env "BUY" (fun q => fgt q fzero) (Fin 15000) false
             (fresh, []) "BBB"))).
  { vm_compute. right. left. reflexivity. }
  split; [exact Hin |].
  destruct (EntryOrderFacts.entry_order_sizing open_env "BUY"
              (fun q => fgt q fzero) (Fin 15000) false fresh [] "BBB"
              "BBB" buy_166 Hin (fun F => F))
    as (_ & _ & Hq & c & p & Hc & Hp & Hp0 & Hband).
  split; [exact Hq |].
  exists c, p. split; [exact Hc |]. split; [exact Hp |]. split; [exact Hp0 |].
  apply Hband. reflexivity.
Defined.

(** X10 at one long and one short candidate on an open day: BBB is bought. *)
Lemma execute_trades_orders_witness :
  In (Submitted "BBB" buy_166)
     (snd (execute_trades fresh open_env ["BBB"] ["CCC"]))
  /\ can_trade_now open_env = true
  /\ qualifyContracts open_env "BBB" = true.
Proof.
  assert (Hin : In (Submitted "BBB" buy_166)
     (snd (execute_trades fresh open_env ["BBB"] ["CCC"]))).
  { vm_compute. right. left. reflexivity. }
  split; [exact Hin |].
  destruct (BudgetFacts.execute_trades_orders fresh open_env ["BBB"] ["CCC"]
              "BBB" buy_166 Hin) as (H1 & _ & H2 & _).
  split; [exact H1 | exact H2].
Defined.

(** X11 at one long and one short candidate: at most one BUY, then at most
    one SELL. *)
Lemma execute_trades_one_order_per_candidate_witness :
  exists buys sells,
    submitted (snd (execute_trades fresh open_env ["BBB"] ["CCC"])) =
      buys ++ sells
    /\ (length buys <= 1)%nat /\ (length sells <= 1)%nat.
Proof.
  destruct (BudgetFacts.execute_trades_one_order_per_candidate fresh open_env
              ["BBB"] ["CCC"])
    as (buys & sells & Heq & _ & _ & _ & _ & Hb & Hs & _).
  exists buys, sells. split; [exact Heq | split; [exact Hb | exact Hs]].
Defined.

(** X12 three days after the earnings date of AAA: the long position of 10
    is sold. *)
Lemma exit_orders_close_positions_witness :
  In (Submitted "AAA"
        (mkOrder "SELL" 10 (Some (round2 (fmul (Fin 90) (Fin (99 # 100)))))
           true "DAY"))
     (snd (check_exit_positions fresh exit_env))
  /\ exists pf q d,
       portfolio exit_env = Some pf /\ In ("AAA", q) (positions_of pf)
       /\ earnings_date exit_env "AAA" = Some d
       /\ (d + 2 <= now_ordinal exit_env)%Z.
Proof.
  assert (Hin : In (Submitted "AAA"
        (mkOrder "SELL" 10 (Some (round2 (fmul (Fin 90) (Fin (99 # 100)))))
           true "DAY"))
     (snd (check_exit_positions fresh exit_env))).
  { vm_compute. right. left. reflexivity. }
  split; [exact Hin |].
  destruct (CloseFacts.exit_orders_close_positions fresh exit_env "AAA" _ Hin)
    as (pf & q & d & H1 & H2 & H3 & H4 & _).
  exists pf, q, d. auto.
Defined.

(** X13 at 10 AAA quoted at 90 with a stop at 95. *)
Lemma monitor_orders_close_longs_witness :
  In (Submitted "AAA"
        (mkOrder "SELL" 10 (Some (round2 (fmul (Fin 90) (Fin (99 # 100)))))
           true "DAY"))
     (snd (monitor_positions (holding (Fin 0)) open_env))
  /\ exists stop,
       stop_loss_prices (holding (Fin 0)) !! "AAA" = Some stop
       /\ fle (quote (holding (Fin 0)) open_env "AAA") stop = true.
Proof.
  assert (Hin : In (Submitted "AAA"
        (mkOrder "SELL" 10 (Some (round2 (fmul (Fin 90) (Fin (99 # 100)))))
           true "DAY"))
     (snd (monitor_positions (holding (Fin 0)) open_env))).
  { vm_compute. right. left. reflexivity. }
  split; [exact Hin |].
  destruct (CloseFacts.monitor_orders_close_longs (holding (Fin 0)) open_env
              "AAA" _ Hin)
    as (pf & q & stop & _ & _ & _ & H1 & H2 & _).
  exists stop. auto.
Defined.

(** X14 at a portfolio of 10 AAA. *)
Lemma get_current_positions_refresh_witness :
  portfolio open_env = Some [("AAA", Fin 10)]
  /\ dict_get "AAA" (fst (get_current_positions fresh open_env)) =
       dict_get "AAA" (rev [("AAA", Fin 10)]).
Proof.
  split; [reflexivity |].
  destruct (PositionFacts.get_current_positions_refresh fresh open_env
              [("AAA", Fin 10)] eq_refl) as (_ & _ & H & _).
  exact (H "AAA").
Defined.

(** X15 with a broker that does not report the portfolio. *)
Lemma portfolio_error_keeps_positions_witness :
  portfolio no_portfolio_env = None
  /\ monitor_positions (holding (Fin 0)) no_portfolio_env =
       (holding (Fin 0), []).
Proof.
  split; [reflexivity |].
  destruct (PositionFacts.portfolio_error_keeps_positions (holding (Fin 0))
              no_portfolio_env [] [] eq_refl) as (_ & H & _).
  exact H.
Defined.

(** X18 at a broker that knows every symbol but ZZZZ.  A NaN among the
    rejected entries makes the call raise; without one, AAPL and the
    five-character symbol with a non-ASCII letter are kept, and BRK.B, ZZZZ
    and GOOGLE are rejected. *)
Lemma filter_valid_stocks_spec_witness :
  Universe.filter_valid_stocks Universe.knows
    [Some (Universe.code_points "AAPL"); None;
     Some (Universe.code_points "BRK.B")] = None
  /\ Universe.filter_valid_stocks Universe.knows
       [Some (Universe.code_points "AAPL");
        Some (Universe.code_points "BRK.B");
        Some (Universe.code_points "ZZZZ");
        Some [197; 66; 67; 68; 69]%N;
        Some (Universe.code_points "GOOGLE")] =
     Some [Universe.code_points "AAPL"; [197; 66; 67; 68; 69]%N].
Proof.
  split; [| reflexivity].
  apply (proj1 (UniverseFacts.filter_valid_stocks_spec Universe.knows
                  [Some (Universe.code_points "AAPL"); None;
                   Some (Universe.code_points "BRK.B")])).
  vm_compute. left. reflexivity.
Defined.

(** X19 at the sample market caps: ten positive caps, the two largest are
    kept. *)
Lemma top_quintile_of_largest_witness :
  Universe.top_quintile_of Universe.sort_caps Universe.example_caps =
    Some ["BBB"; "GGG"]
  /\ length ["BBB"; "GGG"] =
       Nat.max 1
         (length (List.filter (fun r => fgt (snd r) fzero)
                    Universe.example_caps) / 5).
Proof.
  assert (Htop : Universe.top_quintile_of Universe.sort_caps
                   Universe.example_caps = Some ["BBB"; "GGG"])
    by reflexivity.
  split; [exact Htop |].
  pose proof (UniverseFacts.top_quintile_of_largest Universe.sort_caps
                UniverseFacts.sort_caps_perm UniverseFacts.sort_caps_sorted
                Universe.example_caps) as H.
  cbv zeta in H. rewrite Htop in H.
  exact (proj1 (proj2 H)).
Defined.

(** X20 at the sample returns. *)
Lemma select_stocks_sound_witness :
  Selection.select_stocks Selection.insertion_sort
    Selection.example_pre_return (Some Selection.example_symbols)
    = (["AAA"], ["EEE"])
  /\ exists symbols v,
       Some Selection.example_symbols = Some symbols /\ In "AAA" symbols
       /\ Selection.example_pre_return "AAA" = Some v.
Proof.
  split; [reflexivity |].
  exact (proj2 (proj2 (CandidateFacts.select_stocks_sound
                  Selection.insertion_sort SelectionFacts.insertion_sort_perm
                  Selection.example_pre_return
                  (Some Selection.example_symbols)))
           "AAA" (or_introl (or_introl eq_refl))).
Defined.

(** X21 at two symbols with the returns 2 and 4: DDD goes long although its
    return is positive. *)
Lemma select_stocks_few_witness :
  Selection.returns_frame Selection.insertion_sort
    Selection.example_pre_return (Some ["EEE"; "DDD"])
    = Some [Selection.mkRow 1 "DDD" (Fin 2); Selection.mkRow 0 "EEE" (Fin 4)]
  /\ Selection.select_stocks Selection.insertion_sort
       Selection.example_pre_return (Some ["EEE"; "DDD"]) = (["DDD"], ["EEE"]).
Proof.
  assert (Hf : Selection.returns_frame Selection.insertion_sort
    Selection.example_pre_return (Some ["EEE"; "DDD"])
    = Some [Selection.mkRow 1 "DDD" (Fin 2); Selection.mkRow 0 "EEE" (Fin 4)])
    by reflexivity.
  split; [exact Hf |].
  exact (proj2 (proj2 (CandidateFacts.select_stocks_few
                  Selection.insertion_sort SelectionFacts.insertion_sort_perm
                  SelectionFacts.insertion_sort_sorted
                  Selection.example_pre_return (Some ["EEE"; "DDD"]) _ Hf
                  ltac:(simpl; lia)))).
Defined.


(** X23 with a connection that comes back at the second attempt: the cycle
    is the same whatever engine was held before. *)
Lemma reconnect_starts_afresh_witness :
  App.is_connected lost_link = false
  /\ forall st0,
       App.run_strategy_once Selection.insertion_sort (fun _ => None) None
         (Some st0) lost_link open_env =
       App.run_strategy_once Selection.insertion_sort (fun _ => None) None
         (Some (holding (Fin 0))) lost_link open_env.
Proof.
  split; [reflexivity |].
  destruct (proj2 (ShellFacts.reconnect_starts_afresh Selection.insertion_sort
                     (fun _ => None) None lost_link open_env
                     (holding (Fin 0)) eq_refl)
              (ex_intro _ 2%nat (conj (conj (le_S _ _ (le_n 1)) (le_S _ _ (le_n 2)))
                                   eq_refl))
              eq_refl eq_refl)
    as (ok & st' & trace & _ & _ & _ & _ & _ & H).
  exact H.
Defined.

End MoreExamples.
